(** * Dynamic CSV Database System: ingestion and indexing pipeline

    A shallow embedding of [app/utils.py], [app/crud.py] and the request
    handlers of [app/main.py], followed by the properties of the pipeline.

    Conventions of the embedding.
    - A Python [str] is a [string]: one character per code point, for
      the code points below 256.  [bytes] are [string]s as well.
    - Python integers that count things ([len], [duplicate_count]) are
      [nat]; row labels, primary keys and query parameters are [Z].
    - [None], [NaN] and pandas' missing marker are the [None] of [option].
    - A [dict] is an insertion-ordered association list with unique keys.
    - The ORM session is an explicit state threaded through the handlers. *)

From Stdlib Require Import String Ascii ZArith List Bool.
From stdpp Require Import base option list gmap sets strings pretty sorting.

Local Open Scope Z_scope.
Local Open Scope nat_scope.

(* ===================================================================== *)
(** ** Python dictionaries *)
(* ===================================================================== *)

Section py_dict.
Context {V : Type}.

(** [d[k] = v]: an existing key keeps its place, a new one goes last. *)
Fixpoint dict_set (d : list (string * V)) (k : string) (v : V)
  : list (string * V) :=
  match d with
  | [] => [(k, v)]
  | (k', v') :: d' =>
      if String.eqb k' k then (k', v) :: d'
      else (k', v') :: dict_set d' k v
  end.

(** [d.get(k)]. *)
Fixpoint dict_get (d : list (string * V)) (k : string) : option V :=
  match d with
  | [] => None
  | (k', v') :: d' => if String.eqb k' k then Some v' else dict_get d' k
  end.

(** [dict(items)] and dict comprehensions: the items are stored in turn. *)
Definition dict_of_items (items : list (string * V)) : list (string * V) :=
  fold_left (fun d kv => dict_set d kv.1 kv.2) items [].

Definition dict_keys (d : list (string * V)) : list string := d.*1.
Definition dict_values (d : list (string * V)) : list V := d.*2.
End py_dict.

(* ===================================================================== *)
(** ** [json.dumps(row, sort_keys=True)] on rows of strings and [None] *)
(* ===================================================================== *)

Definition dquote : ascii := "034"%char.
Definition backslash : ascii := "\"%char.

Definition hex_digit (n : nat) : ascii :=
  match n with
  | 0 => "0" | 1 => "1" | 2 => "2" | 3 => "3" | 4 => "4" | 5 => "5"
  | 6 => "6" | 7 => "7" | 8 => "8" | 9 => "9" | 10 => "a" | 11 => "b"
  | 12 => "c" | 13 => "d" | 14 => "e" | _ => "f"
  end%char.

(** One character under [ensure_ascii=True]: the short escapes of
    [json.encoder.ESCAPE_DCT], the printable ASCII range as it is, and
    [\u00xx] for every other code point. *)
Definition json_escape_char (c : ascii) : string :=
  let n := nat_of_ascii c in
  if Ascii.eqb c dquote then String backslash (String dquote "")
  else if Ascii.eqb c backslash then String backslash (String backslash "")
  else if n =? 10 then String backslash "n"
  else if n =? 13 then String backslash "r"
  else if n =? 9 then String backslash "t"
  else if n =? 8 then String backslash "b"
  else if n =? 12 then String backslash "f"
  else if (32 <=? n) && (n <=? 126) then String c ""
  else String backslash
         (String "u" (String "0" (String "0"
           (String (hex_digit (n / 16)) (String (hex_digit (n mod 16)) ""))))).

Fixpoint json_escape (s : string) : string :=
  match s with
  | EmptyString => EmptyString
  | String c s' => json_escape_char c +:+ json_escape s'
  end.

Definition json_string (s : string) : string :=
  String dquote (json_escape s +:+ String dquote "").

(** A cell value: [null] for [None], a quoted string otherwise. *)
Definition json_value (v : option string) : string :=
  match v with
  | None => "null"
  | Some s => json_string s
  end.

Definition json_item (kv : string * option string) : string :=
  json_string kv.1 +:+ ": " +:+ json_value kv.2.

Fixpoint json_join (items : list string) : string :=
  match items with
  | [] => ""
  | [x] => x
  | x :: rest => x +:+ ", " +:+ json_join rest
  end.

(** [sorted(d.items())]: a stable sort on the keys, by code point. *)
Fixpoint insert_item {V} (x : string * V) (l : list (string * V))
  : list (string * V) :=
  match l with
  | [] => [x]
  | y :: l' =>
      if String.leb x.1 y.1 then x :: y :: l' else y :: insert_item x l'
  end.

Definition sorted_items {V} (d : list (string * V)) : list (string * V) :=
  foldr insert_item [] d.

Definition json_dumps_sorted (d : list (string * option string)) : string :=
  "{" +:+ json_join (json_item <$> sorted_items d) +:+ "}".

(* ===================================================================== *)
(** ** [hashlib.sha256(b).hexdigest()] (FIPS 180-4), on 32-bit words in [Z] *)
(* ===================================================================== *)

Module SHA256.
Local Open Scope Z_scope.

Definition w32 (x : Z) : Z := x mod 2 ^ 32.
Definition add32 (x y : Z) : Z := w32 (x + y).
Definition rotr (n x : Z) : Z :=
  Z.lor (Z.shiftr x n) (w32 (Z.shiftl x (32 - n))).
Definition not32 (x : Z) : Z := Z.lxor x 0xffffffff.

Definition Ch (x y z : Z) : Z := Z.lxor (Z.land x y) (Z.land (not32 x) z).
Definition Maj (x y z : Z) : Z :=
  Z.lxor (Z.lxor (Z.land x y) (Z.land x z)) (Z.land y z).
Definition Sigma0 (x : Z) : Z :=
  Z.lxor (Z.lxor (rotr 2 x) (rotr 13 x)) (rotr 22 x).
Definition Sigma1 (x : Z) : Z :=
  Z.lxor (Z.lxor (rotr 6 x) (rotr 11 x)) (rotr 25 x).
Definition sigma0 (x : Z) : Z :=
  Z.lxor (Z.lxor (rotr 7 x) (rotr 18 x)) (Z.shiftr x 3).
Definition sigma1 (x : Z) : Z :=
  Z.lxor (Z.lxor (rotr 17 x) (rotr 19 x)) (Z.shiftr x 10).

(** The first [n] primes, by trial division among the numbers below
    [bound]. *)
Definition is_prime (n : nat) : bool :=
  forallb (fun d => negb (n mod d =? 0)%nat) (seq 2 (n - 2)).
Definition first_primes (n bound : nat) : list Z :=
  Z.of_nat <$> take n (List.filter is_prime (seq 2 bound)).

(** The largest [r] below [2 ^ bits] with [r ^ k <= x], one bit at a time. *)
Fixpoint iroot (k : Z) (bits : nat) (x r : Z) : Z :=
  match bits with
  | O => r
  | S b =>
      let r' := r + 2 ^ Z.of_nat b in
      iroot k b x (if r' ^ k <=? x then r' else r)
  end.

(** The first 32 bits of the fractional part of the [k]-th root of [p]. *)
Definition root_fraction (k p : Z) : Z :=
  w32 (iroot k 40 (p * 2 ^ (32 * k)) 0).

(** The round constants: cube roots of the first 64 primes; the initial
    hash value: square roots of the first 8. *)
Definition K : list Z :=
  Eval vm_compute in root_fraction 3 <$> first_primes 64 320.

Definition H0 : list Z :=
  Eval vm_compute in root_fraction 2 <$> first_primes 8 20.

(** The message, one byte per character, then the bit [1], zeros up to
    56 modulo 64, and the bit length on eight bytes. *)
Definition bytes_of (s : string) : list Z :=
  (fun c => Z.of_nat (nat_of_ascii c)) <$> list_ascii_of_string s.

Definition be_bytes (n : nat) (x : Z) : list Z :=
  (fun i => Z.shiftr x (8 * Z.of_nat i) mod 256) <$> rev (seq 0 n).

Definition pad (msg : list Z) : list Z :=
  let l := length msg in
  let zeros := ((64 - (l + 9) mod 64) mod 64)%nat in
  msg ++ [0x80] ++ replicate zeros 0 ++ be_bytes 8 (8 * Z.of_nat l).

Fixpoint words_of (n : nat) (bs : list Z) : list Z :=
  match n, bs with
  | S n', b0 :: b1 :: b2 :: b3 :: rest =>
      (((b0 * 256 + b1) * 256 + b2) * 256 + b3) :: words_of n' rest
  | _, _ => []
  end.

(** The message schedule, latest word first: [ws] holds W[t-1], W[t-2], ... *)
Fixpoint schedule (n : nat) (ws : list Z) : list Z :=
  match n with
  | O => ws
  | S n' =>
      let w := add32 (add32 (sigma1 (nth 1 ws 0)) (nth 6 ws 0))
                 (add32 (sigma0 (nth 14 ws 0)) (nth 15 ws 0)) in
      schedule n' (w :: ws)
  end.

Definition round (st : list Z) (kw : Z * Z) : list Z :=
  match st with
  | [a; b; c; d; e; f; g; h] =>
      let t1 := add32 (add32 (add32 h (Sigma1 e)) (Ch e f g))
                  (add32 kw.1 kw.2) in
      let t2 := add32 (Sigma0 a) (Maj a b c) in
      [add32 t1 t2; a; b; c; add32 d t1; e; f; g]
  | _ => st
  end.

Definition compress (h : list Z) (block : list Z) : list Z :=
  let w := rev (schedule 48 (rev (words_of 16 block))) in
  zip_with add32 h (foldl round h (zip K w)).

Fixpoint blocks (n : nat) (h : list Z) (bs : list Z) : list Z :=
  match n with
  | O => h
  | S n' => blocks n' (compress h (take 64 bs)) (drop 64 bs)
  end.

Definition digest (s : string) : list Z :=
  let m := pad (bytes_of s) in
  blocks (length m / 64) H0 m.

Definition hex_of_byte (b : Z) : string :=
  String (hex_digit (Z.to_nat (b / 16)))
    (String (hex_digit (Z.to_nat (b mod 16))) "").

Definition hexdigest (s : string) : string :=
  foldr (fun b acc => hex_of_byte b +:+ acc) ""
    (digest s ≫= be_bytes 4).
End SHA256.

(* ===================================================================== *)
(** ** The pandas objects the pipeline works on *)
(* ===================================================================== *)

(** A cell read with [dtype=str]: a string, or [None] for a missing value. *)
Abbreviation cell := (option string) (only parsing).

(** [pd.isna(v)]. *)
Definition isna (v : cell) : bool :=
  match v with None => true | Some _ => false end.

Record Column := {
  col_label : string;   (* the entry of [df.columns] *)
  col_dtype : string;   (* [str(df[col].dtype)] *)
}.

(** A [DataFrame], row by row: the column headers, and for every row its
    index label and its cells, one per column.  Dropping rows keeps the
    labels of the rows that stay. *)
Record DataFrame := {
  df_cols : list Column;
  df_rows : list (Z * list cell);
}.

(** Every row has one cell per column. *)
Definition wf_df (df : DataFrame) : Prop :=
  Forall (fun r => length r.2 = length (df_cols df)) (df_rows df).

(** [df.columns], [len(df)], [len(df.columns)]. *)
Definition columns (df : DataFrame) : list string := col_label <$> df_cols df.
Definition len_df (df : DataFrame) : nat := length (df_rows df).
Definition len_columns (df : DataFrame) : nat := length (df_cols df).

(** [df[col]] for the column at position [j] of [df.columns] (column labels
    of a cleaned table are unique, so label and position name the same
    column); a cell missing from a short row reads as missing. *)
Definition series (df : DataFrame) (j : nat) : list cell :=
  (fun r => mjoin (r.2 !! j)) <$> df_rows df.

(** [df[df[col].isnull()].index.tolist()]. *)
Definition null_positions (df : DataFrame) (j : nat) : list Z :=
  (filter (fun r => isna (mjoin (r.2 !! j)) = true) (df_rows df)).*1.

(** One entry of [df.isnull().all(axis=1)]. *)
Definition row_all_null (r : Z * list cell) : bool := forallb isna r.2.

(** [df[df.isnull().all(axis=1)]] and [df.dropna(how="all")]. *)
Definition all_null_rows (df : DataFrame) : list (Z * list cell) :=
  filter (fun r => row_all_null r = true) (df_rows df).
Definition dropna_all (df : DataFrame) : DataFrame :=
  {| df_cols := df_cols df;
     df_rows := filter (fun r => row_all_null r = false) (df_rows df) |}.

(** [df.columns[df.columns.duplicated()].tolist()]: every label that
    already occurred further left, once per repeat. *)
Fixpoint duplicated_labels (seen names : list string) : list string :=
  match names with
  | [] => []
  | c :: rest =>
      if bool_decide (c ∈ seen) then c :: duplicated_labels seen rest
      else duplicated_labels (c :: seen) rest
  end.

(** pandas' [ParserBase._maybe_dedup_names] (pandas 1.x, [mangle_dupe_cols]
    on): a counter per name; a name seen [n > 0] times becomes [name.n], and
    the step repeats while the new name is taken as well.  The inner [while]
    meets a longer name at every turn, so it ends within one turn per
    counted name; [fuel] is that bound, and it never runs out
    ([dedup_while_exits] below). *)
Fixpoint dedup_while (fuel : nat) (counts : gmap string nat) (col : string)
  : string * gmap string nat :=
  match default 0 (counts !! col), fuel with
  | S n, S fuel' =>
      dedup_while fuel' (<[col := S n + 1]> counts)
        (col +:+ "." +:+ pretty (S n))
  | _, _ => (col, counts)
  end.

Fixpoint dedup_names_from (counts : gmap string nat) (names : list string)
  : list string :=
  match names with
  | [] => []
  | col :: rest =>
      let '(col', counts') := dedup_while (S (size counts)) counts col in
      let cur_count := default 0 (counts' !! col') in
      col' :: dedup_names_from (<[col' := cur_count + 1]> counts') rest
  end.

Definition maybe_dedup_names (names : list string) : list string :=
  dedup_names_from ∅ names.

(** [df.columns = names] on a list of the same length. *)
Definition set_columns (df : DataFrame) (names : list string) : DataFrame :=
  {| df_cols :=
       zip_with (fun c n => {| col_label := n; col_dtype := col_dtype c |})
         (df_cols df) names;
     df_rows := df_rows df |}.

(** One entry of [df.isnull().all()]: true of a column with no rows. *)
Definition column_all_null (df : DataFrame) (j : nat) : bool :=
  forallb isna (series df j).

(** [df.columns[df.isnull().all()].tolist()]. *)
Definition all_null_columns (df : DataFrame) : list string :=
  omap (fun jc => if column_all_null df jc.1 then Some jc.2 else None)
    (imap pair (columns df)).

(** [Series.dropna()], [Series.nunique()], [Series.head(10).tolist()]. *)
Definition dropna (s : list cell) : list string := omap id s.
Definition nunique (s : list cell) : nat := length (remove_dups (dropna s)).
Definition head (n : nat) (s : list string) : list string := take n s.

(** [Series.min()] and [Series.max()] of strings: Python's [<] on [str]. *)
Definition str_min (a b : string) : string := if String.ltb b a then b else a.
Definition str_max (a b : string) : string := if String.ltb a b then b else a.
Definition series_min (s : list string) : option string :=
  match s with [] => None | x :: rest => Some (foldl str_min x rest) end.
Definition series_max (s : list string) : option string :=
  match s with [] => None | x :: rest => Some (foldl str_max x rest) end.

(* ===================================================================== *)
(** ** [app/utils.py] *)
(* ===================================================================== *)

(** The report of one column with missing values.  [percentage] keeps the
    two integers of [null_count / len(df) * 100]; the float is their
    quotient times a hundred. *)
Record MissingColumn := {
  mc_count : nat;
  mc_percentage : nat * nat;
  mc_positions : list Z;
}.

Record MissingReport := {
  has_missing : bool;
  total_missing_cells : nat;
  columns_with_missing : list (string * MissingColumn);
}.

(** [df[col].isnull().sum()]. *)
Definition null_count (df : DataFrame) (j : nat) : nat :=
  length (filter (fun v => isna v = true) (series df j)).

(** The loop of [detect_missing_values] over [df.columns], from position
    [j] on, with the loop's two variables. *)
Fixpoint detect_missing_loop (df : DataFrame) (j : nat) (cols : list string)
    (missing_report : list (string * MissingColumn)) (has_missing : bool)
  : list (string * MissingColumn) * bool :=
  match cols with
  | [] => (missing_report, has_missing)
  | col :: rest =>
      let n := null_count df j in
      if 0 <? n then
        detect_missing_loop df (S j) rest
          (dict_set missing_report col
             {| mc_count := n;
                mc_percentage := (n, len_df df);
                mc_positions := take 100 (null_positions df j) |})
          true
      else detect_missing_loop df (S j) rest missing_report has_missing
  end.

Definition detect_missing_values (df : DataFrame) : MissingReport :=
  let '(missing_report, has_missing) :=
    detect_missing_loop df 0 (columns df) [] false in
  {| has_missing := has_missing;
     total_missing_cells :=
       sum_list ((fun r => length (filter (fun v => isna v = true) r.2))
                   <$> df_rows df);
     columns_with_missing := missing_report |}.

(** The branch of [infer_schema] on one dtype name. *)
Definition logical_type (dtype : string) : string :=
  if String.prefix "int" dtype then "integer"
  else if String.prefix "float" dtype then "float"
  else if String.eqb dtype "bool" then "boolean"
  else if String.eqb dtype "datetime64[ns]" then "datetime"
  else "string".

Definition infer_schema (df : DataFrame) : list (string * string) :=
  foldl (fun schema c => dict_set schema (col_label c)
                           (logical_type (col_dtype c)))
    [] (df_cols df).

(** The entries of the error log. *)
Inductive error_entry :=
| empty_rows (count : nat) (positions : list Z)
| duplicate_columns (columns : list string)
| all_null_columns_entry (columns : list string) (action : string).

Definition validate_and_clean_data (df : DataFrame)
  : DataFrame * list error_entry :=
  let errors := [] in
  (* Check for completely empty rows *)
  let empty := all_null_rows df in
  let '(df, errors) :=
    if 0 <? length empty then
      (dropna_all df, errors ++ [empty_rows (length empty) empty.*1])
    else (df, errors) in
  (* Check for duplicate column names *)
  let duplicate_cols := duplicated_labels [] (columns df) in
  let '(df, errors) :=
    match duplicate_cols with
    | [] => (df, errors)
    | _ :: _ =>
        (set_columns df (maybe_dedup_names (columns df)),
         errors ++ [duplicate_columns duplicate_cols])
    end in
  (* Check for columns with all missing values *)
  let all_null_cols := all_null_columns df in
  let errors :=
    match all_null_cols with
    | [] => errors
    | _ :: _ =>
        errors ++ [all_null_columns_entry all_null_cols
                     "kept_for_schema_integrity"]
    end in
  (df, errors).

(* ===================================================================== *)
(** ** [app/models.py]: the three tables *)
(* ===================================================================== *)

Module models.
(** The timestamp columns ([upload_timestamp], [last_modified],
    [created_at]) are filled by the database clock and are left out. *)
Record DatasetMetadata := {
  dataset_name : string;
  original_filename : string;
  row_count : nat;
  column_count : nat;
  file_hash : string;
  schema_definition : list (string * string);
  has_missing_values : bool;
  missing_value_report : MissingReport;
  duplicate_count : nat;
  error_log : list error_entry;
  description : option string;
}.

Record DataRow := {
  dr_dataset_id : Z;
  row_number : Z;
  data_json : list (string * cell);
  row_hash : string;
  dr_has_missing_values : bool;
  is_duplicate : bool;
}.

Record ColumnIndex := {
  ci_dataset_id : Z;
  column_name : string;
  data_type : string;
  distinct_count : nat;
  min_value : option string;
  max_value : option string;
  sample_values : list string;
}.
End models.
Import models.

(** A table is the list of its rows in insertion order, each with the
    primary key [id] the database gave it. *)
Record Store := {
  dataset_metadata : list (Z * DatasetMetadata);
  data_rows : list (Z * DataRow);
  column_index : list (Z * ColumnIndex);
}.

(** The session of one request: what is committed, and what the open
    transaction sees (committed rows and the rows added since). *)
Record Session := {
  committed : Store;
  current : Store;
}.

(** A new primary key: one past the largest key of the table. *)
Definition fresh_id {A} (table : list (Z * A)) : Z :=
  (1 + foldr Z.max 0 table.*1)%Z.

Definition empty_store : Store :=
  {| dataset_metadata := []; data_rows := []; column_index := [] |}.

(** The session [get_db] hands to a request. *)
Definition open_session (st : Store) : Session :=
  {| committed := st; current := st |}.

(* ===================================================================== *)
(** ** Exceptions and the state of a request *)
(* ===================================================================== *)

(** The exceptions of the handlers: FastAPI's [HTTPException], and any
    other [Exception] with its message. *)
Inductive exn :=
| HTTPException (status_code : Z) (detail : string)
| Error (message : string).

Inductive outcome (A : Type) :=
| Returned (a : A)
| Raised (e : exn).
Arguments Returned {A} a.
Arguments Raised {A} e.

(** What a request runs in: its session, and the number of fallible steps
    (parser calls, statements sent to the database, loop bodies) taken so
    far, which is where a fault schedule is looked up. *)
Record World := {
  session : Session;
  clock : nat;
}.

Definition M (A : Type) : Type := World -> outcome A * World.

Definition ret {A} (a : A) : M A := fun w => (Returned a, w).
Definition raise {A} (e : exn) : M A := fun w => (Raised e, w).
Definition bind {A B} (m : M A) (k : A -> M B) : M B :=
  fun w =>
    match m w with
    | (Returned a, w') => k a w'
    | (Raised e, w') => (Raised e, w')
    end.

Notation "x <- c1 ;; c2" := (bind c1 (fun x => c2))
  (at level 20, c1 at level 99, c2 at level 200, only parsing).
Notation "c1 ;; c2" := (bind c1 (fun _ => c2))
  (at level 100, c2 at level 200, only parsing, right associativity).

(** [try: body except Exception as e: handler(e)]. *)
Definition try_except {A} (body : M A) (handler : exn -> M A) : M A :=
  fun w =>
    match body w with
    | (Returned a, w') => (Returned a, w')
    | (Raised e, w') => handler e w'
    end.

Definition of_outcome {A} (o : outcome A) : M A := fun w => (o, w).

Definition get_store : M Store := fun w => (Returned (current (session w)), w).
Definition put_store (st : Store) : M unit :=
  fun w =>
    (Returned tt,
     {| session := {| committed := committed (session w); current := st |};
        clock := clock w |}).

(** [db.rollback()]: the transaction's rows are gone. *)
Definition db_rollback : M unit :=
  fun w =>
    (Returned tt,
     {| session := open_session (committed (session w)); clock := clock w |}).

(** The schedule with no fault. *)
Definition no_fault : nat -> option exn := fun _ => None.

(** What the framework sends for a handler's outcome: the returned body,
    the status and detail of a raised [HTTPException], and 500 for any
    other exception. *)
Inductive response (A : Type) :=
| HTTP_200 (body : A)
| HTTP_error (status_code : Z) (detail : string).
Arguments HTTP_200 {A} body.
Arguments HTTP_error {A} status_code detail.

Definition respond {A} (o : outcome A) : response A :=
  match o with
  | Returned body => HTTP_200 body
  | Raised (HTTPException c d) => HTTP_error c d
  | Raised (Error _) => HTTP_error 500 "Internal Server Error"
  end.

Definition status_of {A} (r : response A) : Z :=
  match r with
  | HTTP_200 _ => 200
  | HTTP_error c _ => c
  end.

(** [str.replace(old, "")] for a non-empty [old]: [skip] characters of a
    match are still to be dropped. *)
Fixpoint remove_all_from (old s : string) (skip : nat) : string :=
  match s with
  | EmptyString => EmptyString
  | String c s' =>
      match skip with
      | S k => remove_all_from old s' k
      | 0 =>
          if String.prefix old s
          then remove_all_from old s' (String.length old - 1)
          else String c (remove_all_from old s' 0)
      end
  end.
Definition remove_all (old s : string) : string := remove_all_from old s 0.

(** The dict [upload_csv] returns.  The response model the route names
    declares one more field, [missing_value_summary], which the handler
    does not set; checking a returned body against its response model is
    the framework's work and is not part of this embedding. *)
Record UploadResult := {
  up_status : string;
  up_dataset_id : Z;
  up_dataset_name : string;
  rows_inserted : nat;
  up_columns : nat;
  duplicate_rows : nat;
  up_has_missing_values : bool;
  errors_detected : nat;
  up_schema : list (string * string);
}.

(** The dict [get_data] returns, field for field the [DataResponse] of
    [app/schemas.py]. *)
Record DataResponse := {
  dr_dataset_name : string;
  total_rows : nat;
  returned_rows : nat;
  data : list (list (string * cell));
}.

(** [query.offset(offset).limit(limit)] on the rows in table order, read as
    SQLite does: a negative offset skips nothing, a negative limit is no
    limit. *)
Definition offset_limit {A} (offset limit : Z) (rows : list A) : list A :=
  let rest := drop (Z.to_nat offset) rows in
  if (limit <? 0)%Z then rest else take (Z.to_nat limit) rest.

(* ===================================================================== *)
(** ** [app/crud.py] and the handlers of [app/main.py] *)
(* ===================================================================== *)

Section app.
(** What the application takes from outside: [hashlib]'s
    [sha256(b).hexdigest()], Python's [str(e)], the two calls of
    [pd.read_csv] (UTF-8 with [keep_default_na=False], and the Latin-1
    retry), and a fault schedule: the exception, if any, that the
    environment raises at each fallible step. *)
Variable sha256_hexdigest : string -> string.
Variable str_exn : exn -> string.
Variable read_csv : string -> outcome DataFrame.
Variable read_csv_latin1 : string -> outcome DataFrame.
Variable fault : nat -> option exn.

(** One fallible step: it raises what the schedule says. *)
Definition step : M unit :=
  fun w =>
    let w' := {| session := session w; clock := S (clock w) |} in
    match fault (clock w) with
    | Some e => (Raised e, w')
    | None => (Returned tt, w')
    end.

(** [db.commit()]: the transaction's view becomes the committed store,
    or, when the database refuses, nothing changes. *)
Definition db_commit : M unit :=
  step ;;
  (fun w =>
     (Returned tt,
      {| session := open_session (current (session w));
         clock := clock w |})).

(** [db.add(obj)] for the three kinds of rows. *)
Definition db_add_metadata (m : DatasetMetadata) : M Z :=
  st <- get_store ;;
  let id := fresh_id (dataset_metadata st) in
  put_store {| dataset_metadata := dataset_metadata st ++ [(id, m)];
               data_rows := data_rows st;
               column_index := column_index st |} ;;
  ret id.

Definition db_add_row (r : DataRow) : M unit :=
  st <- get_store ;;
  put_store {| dataset_metadata := dataset_metadata st;
               data_rows := data_rows st ++ [(fresh_id (data_rows st), r)];
               column_index := column_index st |}.

Definition db_add_column_index (c : ColumnIndex) : M unit :=
  st <- get_store ;;
  put_store {| dataset_metadata := dataset_metadata st;
               data_rows := data_rows st;
               column_index :=
                 column_index st ++ [(fresh_id (column_index st), c)] |}.

(** [metadata.duplicate_count = n] on the session's object [id]. *)
Definition set_duplicate_count (id : Z) (n : nat) : M unit :=
  st <- get_store ;;
  put_store
    {| dataset_metadata :=
         (fun r : Z * DatasetMetadata =>
            if (r.1 =? id)%Z then
              (r.1,
               {| dataset_name := dataset_name r.2;
                  original_filename := original_filename r.2;
                  row_count := row_count r.2;
                  column_count := column_count r.2;
                  file_hash := file_hash r.2;
                  schema_definition := schema_definition r.2;
                  has_missing_values := has_missing_values r.2;
                  missing_value_report := missing_value_report r.2;
                  duplicate_count := n;
                  error_log := error_log r.2;
                  description := description r.2 |})
            else r) <$> dataset_metadata st;
       data_rows := data_rows st;
       column_index := column_index st |}.

(** *** utils.py: the two hashes *)

Definition calculate_file_hash (content : string) : string :=
  sha256_hexdigest content.

(** The JSON text is ASCII, so [.encode()] gives the same characters. *)
Definition calculate_row_hash (row_data : list (string * cell)) : string :=
  let row_string := json_dumps_sorted row_data in
  sha256_hexdigest row_string.

(** *** crud.py *)

Definition get_dataset_by_name (name : string)
  : M (option (Z * DatasetMetadata)) :=
  step ;;
  st <- get_store ;;
  ret (List.find (fun r => String.eqb (dataset_name r.2) name)
         (dataset_metadata st)).

Definition get_dataset_by_hash (h : string)
  : M (option (Z * DatasetMetadata)) :=
  step ;;
  st <- get_store ;;
  ret (List.find (fun r => String.eqb (file_hash r.2) h)
         (dataset_metadata st)).

(** [db.add(metadata); db.flush()]: the row gets its [id]. *)
Definition create_dataset_metadata (metadata_data : DatasetMetadata)
  : M Z :=
  step ;;
  db_add_metadata metadata_data.

(** [{k: (None if pd.isna(v) else v) for k, v in row.to_dict().items()}]. *)
Definition row_to_dict (cols : list string) (row : list cell)
  : list (string * cell) :=
  (fun kv : string * cell => (kv.1, if isna kv.2 then None else kv.2))
    <$> dict_of_items (zip cols row).

(** The loop of [insert_data_rows] over [df.iterrows()], with its two
    variables. *)
Fixpoint insert_data_rows_loop (dataset_id : Z) (cols : list string)
    (rows : list (Z * list cell)) (row_hashes : gset string)
    (duplicate_count : nat) : M nat :=
  match rows with
  | [] => ret duplicate_count
  | (idx, row) :: rest =>
      step ;;
      let row_dict := row_to_dict cols row in
      let row_hash := calculate_row_hash row_dict in
      let is_dup := bool_decide (row_hash ∈ row_hashes) in
      let duplicate_count :=
        if is_dup then duplicate_count + 1 else duplicate_count in
      let row_hashes := row_hashes ∪ {[ row_hash ]} in
      db_add_row
        {| dr_dataset_id := dataset_id;
           row_number := idx;
           data_json := row_dict;
           row_hash := row_hash;
           dr_has_missing_values := existsb isna (dict_values row_dict);
           is_duplicate := is_dup |} ;;
      insert_data_rows_loop dataset_id cols rest row_hashes duplicate_count
  end.

Definition insert_data_rows (dataset_id : Z) (df : DataFrame) : M nat :=
  insert_data_rows_loop dataset_id (columns df) (df_rows df) ∅ 0.

(** The [ColumnIndex] object built for the column at position [j]. *)
Definition column_index_entry (dataset_id : Z) (df : DataFrame)
    (j : nat) (c : Column) : ColumnIndex :=
  let col_data := dropna (series df j) in
  {| ci_dataset_id := dataset_id;
     column_name := col_label c;
     data_type := col_dtype c;
     distinct_count := nunique (series df j);
     min_value := if 0 <? length col_data then series_min col_data
                  else None;
     max_value := if 0 <? length col_data then series_max col_data
                  else None;
     sample_values := if 0 <? length col_data then head 10 col_data
                      else [] |}.

Fixpoint build_column_index_loop (dataset_id : Z) (df : DataFrame)
    (j : nat) (cols : list Column) : M unit :=
  match cols with
  | [] => ret tt
  | c :: rest =>
      step ;;
      db_add_column_index (column_index_entry dataset_id df j c) ;;
      build_column_index_loop dataset_id df (S j) rest
  end.

Definition build_column_index (dataset_id : Z) (df : DataFrame) : M unit :=
  build_column_index_loop dataset_id df 0 (df_cols df).

(** *** main.py *)

(** The [try] block of [upload_csv].  [timestamp] is
    [datetime.now().strftime("%Y%m%d_%H%M%S")].  Every call that reaches
    the parser or the database is a fallible step; building the returned
    dict after [db.commit()] is not. *)
Definition upload_csv_body (filename content : string)
    (dataset_name : option string) (description : option string)
    (timestamp : string) : M UploadResult :=
  let file_hash := calculate_file_hash content in
  (* Duplicate file? *)
  found <- get_dataset_by_hash file_hash ;;
  match found with
  | Some m =>
      raise (HTTPException 409
               ("Duplicate file. Already stored as: "
                  +:+ models.dataset_name m.2))
  | None => ret tt
  end ;;
  (* Safe CSV reading *)
  df <- try_except (step ;; of_outcome (read_csv content))
          (fun _ => step ;; of_outcome (read_csv_latin1 content)) ;;
  (* Validate & clean *)
  let '(df, errors) := validate_and_clean_data df in
  let missing_report := detect_missing_values df in
  let schema := infer_schema df in
  (* Auto dataset name *)
  let dataset_name :=
    match dataset_name with
    | None | Some EmptyString =>
        remove_all ".csv" filename +:+ "_" +:+ timestamp
    | Some n => n
    end in
  (* Dataset name duplicate? *)
  taken <- get_dataset_by_name dataset_name ;;
  match taken with
  | Some _ => raise (HTTPException 400 "Dataset name already exists")
  | None => ret tt
  end ;;
  (* Save metadata *)
  let metadata_info :=
    {| models.dataset_name := dataset_name;
       original_filename := filename;
       row_count := len_df df;
       column_count := len_columns df;
       models.file_hash := file_hash;
       schema_definition := schema;
       has_missing_values := has_missing missing_report;
       missing_value_report := missing_report;
       duplicate_count := 0;
       error_log := errors;
       models.description := description |} in
  metadata_id <- create_dataset_metadata metadata_info ;;
  (* Insert data *)
  duplicate_count <- insert_data_rows metadata_id df ;;
  set_duplicate_count metadata_id duplicate_count ;;
  (* Build Index *)
  build_column_index metadata_id df ;;
  db_commit ;;
  ret {| up_status := "success";
         up_dataset_id := metadata_id;
         up_dataset_name := dataset_name;
         rows_inserted := len_df df;
         up_columns := len_columns df;
         duplicate_rows := duplicate_count;
         up_has_missing_values := has_missing missing_report;
         errors_detected := length errors;
         up_schema := schema |}.

(** [upload_csv]: the [try] block under [except Exception as e], which
    rolls back and raises [HTTPException(500, str(e))]. *)
Definition upload_csv (filename content : string)
    (dataset_name : option string) (description : option string)
    (timestamp : string) : M UploadResult :=
  try_except
    (upload_csv_body filename content dataset_name description timestamp)
    (fun e => db_rollback ;; raise (HTTPException 500 (str_exn e))).

(** [get_data]. *)
Definition get_data (dataset_name : string) (limit offset : Z)
    (exclude_duplicates : bool) : M DataResponse :=
  dataset <- get_dataset_by_name dataset_name ;;
  match dataset with
  | None => raise (HTTPException 404 "Dataset not found")
  | Some (id, m) =>
      step ;;
      st <- get_store ;;
      let query :=
        filter (fun r => dr_dataset_id r.2 = id) (data_rows st) in
      let query :=
        if exclude_duplicates
        then filter (fun r => is_duplicate r.2 = false) query
        else query in
      let rows := offset_limit offset limit query in
      ret {| dr_dataset_name := dataset_name;
             total_rows := row_count m;
             returned_rows := length rows;
             data := (fun r => data_json r.2) <$> rows |}
  end.
End app.

(* ===================================================================== *)
(** ** The other handlers of [app/main.py] *)
(* ===================================================================== *)

(** The dicts [get_schema] and [delete_dataset] return. *)
Record SchemaResult := {
  sr_dataset_name : string;
  sr_schema : list (string * string);
  sr_row_count : nat;
  sr_column_count : nat;
}.

Record DeleteResult := {
  del_status : string;
  del_dataset_name : string;
}.

Section app_more.
Variable fault : nat -> option exn.

(** [get_schema]. *)
Definition get_schema (dataset_name : string) : M SchemaResult :=
  dataset <- get_dataset_by_name fault dataset_name ;;
  match dataset with
  | None => raise (HTTPException 404 "Dataset not found")
  | Some (_, m) =>
      ret {| sr_dataset_name := dataset_name;
             sr_schema := schema_definition m;
             sr_row_count := row_count m;
             sr_column_count := column_count m |}
  end.

(** crud.py, [delete_dataset_data]: two bulk deletes, each one statement
    sent to the database. *)
Definition delete_dataset_data (dataset_id : Z) : M unit :=
  step fault ;;
  st <- get_store ;;
  put_store {| dataset_metadata := dataset_metadata st;
               data_rows :=
                 filter (fun r => dr_dataset_id r.2 <> dataset_id)
                   (data_rows st);
               column_index := column_index st |} ;;
  step fault ;;
  st <- get_store ;;
  put_store {| dataset_metadata := dataset_metadata st;
               data_rows := data_rows st;
               column_index :=
                 filter (fun c => ci_dataset_id c.2 <> dataset_id)
                   (column_index st) |}.

(** [db.delete(dataset)] for the metadata row with primary key [id]. *)
Definition db_delete_metadata (id : Z) : M unit :=
  st <- get_store ;;
  put_store {| dataset_metadata :=
                 filter (fun r => r.1 <> id) (dataset_metadata st);
               data_rows := data_rows st;
               column_index := column_index st |}.

(** [delete_dataset]: no [try] block here, an exception leaves the handler
    as it is. *)
Definition delete_dataset (dataset_name : string) : M DeleteResult :=
  dataset <- get_dataset_by_name fault dataset_name ;;
  match dataset with
  | None => raise (HTTPException 404 "Dataset not found")
  | Some (id, _) =>
      delete_dataset_data id ;;
      db_delete_metadata id ;;
      db_commit fault ;;
      ret {| del_status := "deleted"; del_dataset_name := dataset_name |}
  end.
End app_more.

(* ===================================================================== *)
(** ** Vocabulary of the properties *)
(* ===================================================================== *)

(** The order of [sorted] on items: by key. *)
Definition key_le {V} (x y : string * V) : Prop := String.le x.1 y.1.

(** Two item lists that agree everywhere but at one place, where the first
    binds the key to [None] and the second binds it to the empty string. *)
Inductive null_vs_empty
  : list (string * cell) -> list (string * cell) -> Prop :=
| nve_here k l : null_vs_empty ((k, None) :: l) ((k, Some EmptyString) :: l)
| nve_later x l1 l2 :
    null_vs_empty l1 l2 -> null_vs_empty (x :: l1) (x :: l2).

(** [", ".join] one item at a time. *)
Definition join_tail (items : list string) : string :=
  match items with [] => "" | _ :: _ => ", " +:+ json_join items end.

(** A computation that never touches the committed store, and one that
    leaves it as it was whenever it raises. *)
Definition keeps_committed {A} (m : M A) : Prop :=
  forall w, committed (session (m w).2) = committed (session w).
Definition fails_clean {A} (m : M A) : Prop :=
  forall w e w',
    m w = (Raised e, w') -> committed (session w') = committed (session w).

(** The row hashes of a table, in row order. *)
Definition row_hashes_of (sha : string -> string) (df : DataFrame)
  : list string :=
  (fun r => calculate_row_hash sha (row_to_dict (columns df) r.2))
    <$> df_rows df.

(** The rows flagged as duplicates among stored rows. *)
Definition flagged (rows : list (Z * DataRow)) : list (Z * DataRow) :=
  filter (fun x => is_duplicate x.2 = true) rows.

(** The first two steps of [validate_and_clean_data] on the table. *)
Definition drop_empty (df : DataFrame) : DataFrame :=
  if 0 <? length (all_null_rows df) then dropna_all df else df.
Definition rename_dups (df : DataFrame) : DataFrame :=
  match duplicated_labels [] (columns df) with
  | [] => df
  | _ :: _ => set_columns df (maybe_dedup_names (columns df))
  end.

(** The names of [counts] that are at least as long as [col]. *)
Definition as_long_as (counts : gmap string nat) (col : string) : gset string :=
  filter (fun k => String.length col <= String.length k) (dom counts).

(** No cell of the table is missing. *)
Definition no_missing_cell (df : DataFrame) : Prop :=
  Forall (fun r => Forall (fun v => isna v = false) r.2) (df_rows df).

(* ===================================================================== *)
(** ** Sample inputs *)
(* ===================================================================== *)

(** A column read with [dtype=str]. *)
Definition object_column (label : string) : Column :=
  {| col_label := label; col_dtype := "object" |}.

(** [str(e)] as Starlette prints an [HTTPException]. *)
Definition starlette_str (e : exn) : string :=
  match e with
  | HTTPException c d => pretty c +:+ ": " +:+ d
  | Error m => m
  end.

(** The upload of [test_api.py]; a second file with a repeated row and an
    empty field; a file with a header and no rows; and a reader that knows
    these three files and refuses everything else. *)
Definition nl : string := String "010" "".

Definition people_csv : string :=
  "name,age,city" +:+ nl +:+ "John,30,NYC" +:+ nl +:+ "Jane,25,LA".

Definition people_df : DataFrame :=
  {| df_cols := object_column <$> ["name"; "age"; "city"];
     df_rows := [ (0%Z, [Some "John"; Some "30"; Some "NYC"]);
                  (1%Z, [Some "Jane"; Some "25"; Some "LA"]) ] |}.

Definition visits_csv : string :=
  "name,city" +:+ nl +:+ "Ann,Oslo" +:+ nl +:+ "Bob," +:+ nl +:+ "Ann,Oslo".

Definition visits_df : DataFrame :=
  {| df_cols := object_column <$> ["name"; "city"];
     df_rows := [ (0%Z, [Some "Ann"; Some "Oslo"]);
                  (1%Z, [Some "Bob"; Some ""]);
                  (2%Z, [Some "Ann"; Some "Oslo"]) ] |}.

Definition header_only_csv : string := "a,b" +:+ nl.

Definition header_only_df : DataFrame :=
  {| df_cols := object_column <$> ["a"; "b"]; df_rows := [] |}.

Definition sample_read_csv (content : string) : outcome DataFrame :=
  if String.eqb content people_csv then Returned people_df
  else if String.eqb content visits_csv then Returned visits_df
  else if String.eqb content header_only_csv then Returned header_only_df
  else Raised (Error "No columns to parse from file").

(** A table as the Latin-1 retry reads it, empty fields missing: the
    column [nickname] has no value at all. *)
Definition sparse_df : DataFrame :=
  {| df_cols := object_column <$> ["name"; "nickname"];
     df_rows := [ (0%Z, [Some "Ann"; None]); (1%Z, [Some "Bob"; None]) ] |}.

(** A schedule with one fault, at step [k]. *)
Definition fault_at (k : nat) (e : exn) : nat -> option exn :=
  fun n => if n =? k then Some e else None.

(** [upload_csv] with SHA-256, Starlette's [str] and the sample reader, on
    a request that starts at step 0. *)
Definition sample_upload (fault : nat -> option exn) (filename content : string)
    (dataset_name : option string) (st : Store)
  : outcome UploadResult * World :=
  upload_csv SHA256.hexdigest starlette_str sample_read_csv sample_read_csv
    fault filename content dataset_name None "20250101_120000"
    {| session := open_session st; clock := 0 |}.

(** The store after the upload of [people.csv] as [people], and its
    metadata row. *)
Definition people_store : Store :=
  committed (session (sample_upload no_fault "people.csv" people_csv
                        (Some "people") empty_store).2).

Definition people_metadata : DatasetMetadata :=
  {| dataset_name := "people";
     original_filename := "people.csv";
     row_count := 2;
     column_count := 3;
     file_hash :=
       "3f9efb445c7be88e43e01235729da614c441c2e47688e75c33681dd7c867045d";
     schema_definition :=
       [("name", "string"); ("age", "string"); ("city", "string")];
     has_missing_values := false;
     missing_value_report :=
       {| has_missing := false; total_missing_cells := 0;
          columns_with_missing := [] |};
     duplicate_count := 0;
     error_log := [];
     description := None |}.

(* ===================================================================== *)
(** ** Vocabulary of the further properties *)
(* ===================================================================== *)

(** The entry [detect_missing_values] writes for the column at position
    [j]. *)
Definition missing_entry (df : DataFrame) (j : nat) : MissingColumn :=
  {| mc_count := null_count df j;
     mc_percentage := (null_count df j, len_df df);
     mc_positions := take 100 (null_positions df j) |}.



(** The 256 code points of a [string], and two checks on the code words
    of [json_escape_char]: no code word is the beginning of another, and
    none begins with a double quote. *)
Definition all_ascii : list ascii := ascii_of_nat <$> seq 0 256.
Definition escape_prefix_free : bool :=
  forallb (fun c1 =>
             forallb (fun c2 =>
                        implb (String.prefix (json_escape_char c1)
                                 (json_escape_char c2))
                          (Ascii.eqb c1 c2))
               all_ascii)
    all_ascii.
Definition escape_never_quote : bool :=
  forallb (fun c =>
             match json_escape_char c with
             | EmptyString => false
             | String h _ => negb (Ascii.eqb h dquote)
             end)
    all_ascii.

(** The name [upload_csv] stores a dataset under. *)
Definition stored_name (filename : string) (dataset_name : option string)
    (timestamp : string) : string :=
  match dataset_name with
  | None | Some EmptyString => remove_all ".csv" filename +:+ "_" +:+ timestamp
  | Some n => n
  end.

(** The [DataRow] of the table row [r] that is stored after the table rows
    [earlier], and the rows and index entries of a whole table. *)
Definition data_row_of (sha : string -> string) (dataset_id : Z)
    (cols : list string) (earlier : list (Z * list cell))
    (r : Z * list cell) : DataRow :=
  let d := row_to_dict cols r.2 in
  {| dr_dataset_id := dataset_id;
     row_number := r.1;
     data_json := d;
     row_hash := calculate_row_hash sha d;
     dr_has_missing_values := existsb isna (dict_values d);
     is_duplicate :=
       bool_decide
         (calculate_row_hash sha d
          ∈ (fun r' : Z * list cell =>
               calculate_row_hash sha (row_to_dict cols r'.2)) <$> earlier) |}.

Definition data_rows_of (sha : string -> string) (dataset_id : Z)
    (df : DataFrame) : list DataRow :=
  imap (fun i r => data_row_of sha dataset_id (columns df)
                     (take i (df_rows df)) r)
    (df_rows df).

Definition column_index_of (dataset_id : Z) (df : DataFrame)
  : list ColumnIndex :=
  imap (column_index_entry dataset_id df) (df_cols df).

(** The metadata row of the upload of a file that was read as [df0]. *)
Definition metadata_of (sha : string -> string) (filename content : string)
    (dataset_name description : option string) (timestamp : string)
    (df0 : DataFrame) : DatasetMetadata :=
  let df := (validate_and_clean_data df0).1 in
  {| models.dataset_name := stored_name filename dataset_name timestamp;
     original_filename := filename;
     row_count := len_df df;
     column_count := len_columns df;
     models.file_hash := sha content;
     schema_definition := infer_schema df;
     has_missing_values := has_missing (detect_missing_values df);
     missing_value_report := detect_missing_values df;
     duplicate_count :=
       len_df df - length (remove_dups (row_hashes_of sha df));
     error_log := (validate_and_clean_data df0).2;
     models.description := description |}.

(** The rows and the index entries of one dataset. *)
Definition rows_of (st : Store) (id : Z) : list (Z * DataRow) :=
  filter (fun r => dr_dataset_id r.2 = id) (data_rows st).
Definition index_of (st : Store) (id : Z) : list (Z * ColumnIndex) :=
  filter (fun c => ci_dataset_id c.2 = id) (column_index st).

(** What the tables' constraints and the handlers' checks keep true of a
    store: primary keys, dataset names and file hashes are unique; every
    row and every index entry belongs to a stored dataset; and the counts
    in a dataset's metadata are those of its rows and index entries. *)
Definition store_ok (st : Store) : Prop :=
  NoDup (dataset_metadata st).*1
  /\ NoDup ((fun d => dataset_name d.2) <$> dataset_metadata st)
  /\ NoDup ((fun d => file_hash d.2) <$> dataset_metadata st)
  /\ NoDup (data_rows st).*1
  /\ NoDup (column_index st).*1
  /\ Forall (fun r => dr_dataset_id r.2 ∈ (dataset_metadata st).*1)
       (data_rows st)
  /\ Forall (fun c => ci_dataset_id c.2 ∈ (dataset_metadata st).*1)
       (column_index st)
  /\ Forall (fun d =>
               row_count d.2 = length (rows_of st d.1)
               /\ column_count d.2 = length (index_of st d.1)
               /\ duplicate_count d.2 = length (flagged (rows_of st d.1)))
       (dataset_metadata st).

#[global] Instance store_ok_dec (st : Store) : Decision (store_ok st).
Proof. unfold store_ok. apply _. Defined.

(** The store with one dataset more, and with one dataset less. *)
Definition with_dataset (st : Store) (m : DatasetMetadata)
    (rows : list (Z * DataRow)) (idx : list (Z * ColumnIndex)) : Store :=
  {| dataset_metadata :=
       dataset_metadata st ++ [(fresh_id (dataset_metadata st), m)];
     data_rows := data_rows st ++ rows;
     column_index := column_index st ++ idx |}.
Definition without_dataset (st : Store) (id : Z) : Store :=
  {| dataset_metadata := filter (fun d => d.1 <> id) (dataset_metadata st);
     data_rows := filter (fun r => dr_dataset_id r.2 <> id) (data_rows st);
     column_index :=
       filter (fun c => ci_dataset_id c.2 <> id) (column_index st) |}.

(** The metadata row stored under a name, if any. *)
Definition lookup_name (st : Store) (name : string)
  : option (Z * DatasetMetadata) :=
  List.find (fun r => String.eqb (dataset_name r.2) name) (dataset_metadata st).
Definition lookup_hash (st : Store) (h : string)
  : option (Z * DatasetMetadata) :=
  List.find (fun r => String.eqb (file_hash r.2) h) (dataset_metadata st).

(** The upload of [visits.csv], unnamed, into the store that holds
    [people], and what it answers. *)
Definition visits_upload : outcome UploadResult * World :=
  sample_upload no_fault "visits.csv" visits_csv None people_store.

Definition visits_response : UploadResult :=
  {| up_status := "success";
     up_dataset_id := 2;
     up_dataset_name := "visits_20250101_120000";
     rows_inserted := 3;
     up_columns := 2;
     duplicate_rows := 1;
     up_has_missing_values := false;
     errors_detected := 0;
     up_schema := [("name", "string"); ("city", "string")] |}.

(** A computation that leaves the session as it found it, whatever it
    answers. *)
Definition read_only {A} (m : M A) : Prop :=
  forall w, session (m w).2 = session w.

(** The answer for a name that is not stored. *)
Definition not_found : exn := HTTPException 404 "Dataset not found".


(* ===================================================================== *)
(** * Properties *)
(* ===================================================================== *)

(** ** Sanity checks of the runtime models *)

Example json_dumps_sorted_ex :
  json_dumps_sorted [("b", Some "x"); ("a", None)]
  = "{" +:+ json_string "a" +:+ ": null, " +:+ json_string "b" +:+ ": "
        +:+ json_string "x" +:+ "}".
Proof. reflexivity. Qed.

(** [json.dumps] of the eight characters k, quote, backslash, line feed,
    tab, DEL, code 1 and e-acute. *)
Example json_escape_ex :
  json_escape
    (String "k" (String dquote (String backslash (String "010"
       (String "009" (String "127" (String "001" (String "233" ""))))))))
  = "k" +:+ String backslash (String dquote "")
        +:+ String backslash (String backslash "")
        +:+ String backslash "n" +:+ String backslash "t"
        +:+ String backslash "u007f" +:+ String backslash "u0001"
        +:+ String backslash "u00e9".
Proof. reflexivity. Qed.

Example sha256_abc :
  SHA256.hexdigest "abc"
  = "ba7816bf8f01cfea414140de5dae2223b00361a396177a9cb410ff61f20015ad".
Proof. vm_compute. reflexivity. Qed.

Example sha256_empty :
  SHA256.hexdigest ""
  = "e3b0c44298fc1c149afbf4c8996fb92427ae41e4649b934ca495991b7852b855".
Proof. vm_compute. reflexivity. Qed.

(** Padding at the block boundary: 55 letters fill one block, 56 need a
    second. *)
Example sha256_padding_boundary :
  SHA256.hexdigest (foldr String.append "" (replicate 55 "a"))
  = "9f4390f8d30c2dd92ec9f095b65e2b9ae9b0a925a5258e241c9f1e910f734318"
  /\ SHA256.hexdigest (foldr String.append "" (replicate 56 "a"))
     = "b35439a4ac6f0948b6d6f9e3c6af0f5f590ce20f1bde7090ef7970686ec6738a".
Proof. split; vm_compute; reflexivity. Qed.

(** A message of more than one block: a hundred times the letter a. *)
Example sha256_two_blocks :
  SHA256.hexdigest (foldr String.append "" (replicate 100 "a"))
  = "2816597888e4a0d3a36b82b83316ab32680eb8f00f8cd3b904d681246d285a0e".
Proof. vm_compute. reflexivity. Qed.

Example maybe_dedup_names_ex :
  maybe_dedup_names ["x"; "y"; "x"; "x.1"; "x"]%string
  = ["x"; "y"; "x.1"; "x.1.1"; "x.2"]%string.
Proof. vm_compute. reflexivity. Qed.

Example duplicated_labels_ex :
  duplicated_labels [] ["x"; "y"; "x"; "x"]%string = ["x"; "x"]%string.
Proof. reflexivity. Qed.

Example remove_all_ex : remove_all ".csv" "a.csv.csvb.cs" = "ab.cs".
Proof. reflexivity. Qed.
(** ** Strings *)

Lemma string_app_cons (x : ascii) (a b : string) :
  String x a +:+ b = String x (a +:+ b).
Proof. reflexivity. Qed.

Lemma string_app_assoc (a b c : string) : (a +:+ b) +:+ c = a +:+ (b +:+ c).
Proof.
  induction a as [|x a IH]; [done|].
  by rewrite !string_app_cons, IH.
Qed.

(** ** [sorted(d.items())] is a sorted rearrangement, and the only one *)

#[local] Instance key_le_trans {V} : Transitive (@key_le V).
Proof. intros x y z. unfold key_le. apply transitivity. Qed.

Lemma insert_item_perm {V} (x : string * V) l : insert_item x l ≡ₚ x :: l.
Proof.
  induction l as [|y l IH]; simpl; [done|].
  destruct (String.leb x.1 y.1); [done|].
  rewrite IH. apply Permutation_swap.
Qed.

Lemma sorted_items_perm {V} (d : list (string * V)) : sorted_items d ≡ₚ d.
Proof.
  induction d as [|x d IH]; simpl; [done|].
  by rewrite insert_item_perm, IH.
Qed.

Lemma insert_item_sorted {V} (x : string * V) l :
  Sorted key_le l -> Sorted key_le (insert_item x l).
Proof.
  induction 1 as [|y l Hs IH Hhd]; simpl; [by repeat constructor|].
  destruct (String.leb x.1 y.1) eqn:E.
  - repeat constructor; [done..|]. unfold key_le, String.le. by rewrite E.
  - constructor; [done|].
    assert (key_le y x) as Hyx.
    { unfold key_le, String.le.
      destruct (String.leb_total x.1 y.1) as [H|H]; [congruence|by rewrite H]. }
    destruct Hhd as [|z l Hyz]; simpl.
    + by constructor.
    + destruct (String.leb x.1 z.1); by constructor.
Qed.

Lemma sorted_items_sorted {V} (d : list (string * V)) :
  Sorted key_le (sorted_items d).
Proof.
  induction d as [|x d IH]; simpl; [constructor | by apply insert_item_sorted].
Qed.

(** ** Dictionaries with unique keys *)

Lemma dict_get_Some_elem {V} (d : list (string * V)) k v :
  dict_get d k = Some v -> (k, v) ∈ d.
Proof.
  induction d as [|[k' v'] d IH]; simpl; [done|].
  destruct (String.eqb k' k) eqn:E.
  - apply String.eqb_eq in E. intros [= ->]. subst. left.
  - intros H. right. auto.
Qed.

Lemma dict_get_elem {V} (d : list (string * V)) k v :
  NoDup (dict_keys d) -> (k, v) ∈ d -> dict_get d k = Some v.
Proof.
  unfold dict_keys.
  induction d as [|[k' v'] d IH]; simpl; intros Hnd Hin; [by inv Hin|].
  apply NoDup_cons in Hnd as [Hk' Hnd].
  destruct (String.eqb k' k) eqn:E.
  - apply String.eqb_eq in E. subst k'.
    apply elem_of_cons in Hin as [[= ->]|Hin]; [done|].
    exfalso. apply Hk'. apply list_elem_of_fmap. by exists (k, v).
  - apply String.eqb_neq in E.
    apply elem_of_cons in Hin as [[= -> ->]|Hin]; [done|]. auto.
Qed.

Lemma same_content_perm {V} (d1 d2 : list (string * V)) :
  NoDup (dict_keys d1) -> NoDup (dict_keys d2) ->
  (forall k, dict_get d1 k = dict_get d2 k) -> d1 ≡ₚ d2.
Proof.
  intros H1 H2 Hget.
  apply NoDup_Permutation; [by eapply NoDup_fmap_1..|].
  intros [k v]. split; intros Hin.
  - apply dict_get_Some_elem. rewrite <- Hget. by apply dict_get_elem.
  - apply dict_get_Some_elem. rewrite Hget. by apply dict_get_elem.
Qed.

Lemma sorted_items_canonical {V} (d1 d2 : list (string * V)) :
  NoDup (dict_keys d1) -> d1 ≡ₚ d2 -> sorted_items d1 = sorted_items d2.
Proof.
  intros Hnd Hp.
  apply (Sorted_unique_strong key_le); [|apply sorted_items_sorted..|].
  - intros x1 x2 Hx1 Hx2 H12 H21.
    rewrite sorted_items_perm in Hx1. rewrite sorted_items_perm, <- Hp in Hx2.
    pose proof (anti_symm String.le _ _ H12 H21) as Hk.
    destruct x1 as [k1 v1], x2 as [k2 v2]; simpl in *. subst k2.
    apply (dict_get_elem _ _ _ Hnd) in Hx1, Hx2. congruence.
  - by rewrite !sorted_items_perm.
Qed.

(** ** A row with [None] and the same row with the empty string *)

Lemma dict_set_null_vs_empty (d : list (string * cell)) k :
  null_vs_empty (dict_set d k None) (dict_set d k (Some EmptyString)).
Proof.
  induction d as [|[k' v'] d IH]; simpl; [constructor|].
  destruct (String.eqb k' k); by constructor.
Qed.

Lemma insert_item_null_vs_empty x l1 l2 :
  null_vs_empty l1 l2 -> null_vs_empty (insert_item x l1) (insert_item x l2).
Proof.
  induction 1 as [k l|y l1 l2 H IH]; simpl.
  - destruct (String.leb _ _); repeat constructor.
  - destruct (String.leb _ _); by repeat constructor.
Qed.

Lemma insert_null_vs_empty k (l : list (string * cell)) :
  null_vs_empty (insert_item (k, None) l) (insert_item (k, Some EmptyString) l).
Proof.
  induction l as [|y l IH]; simpl; [constructor|].
  destruct (String.leb _ _); by constructor.
Qed.

Lemma sorted_items_null_vs_empty l1 l2 :
  null_vs_empty l1 l2 -> null_vs_empty (sorted_items l1) (sorted_items l2).
Proof.
  induction 1 as [k l|y l1 l2 H IH]; simpl.
  - apply insert_null_vs_empty.
  - by apply insert_item_null_vs_empty.
Qed.

Lemma json_join_cons x items : json_join (x :: items) = x +:+ join_tail items.
Proof.
  destruct items; simpl; [|done].
  induction x as [|c x IH]; [done|]. by rewrite string_app_cons, <- IH.
Qed.

Lemma json_join_null_vs_empty l1 l2 (suffix : string) :
  null_vs_empty l1 l2 ->
  json_join (json_item <$> l1) +:+ suffix
  <> json_join (json_item <$> l2) +:+ suffix.
Proof.
  induction 1 as [k l|y l1 l2 H IH]; rewrite !fmap_cons, !json_join_cons.
  - unfold json_item; simpl fst; simpl snd.
    rewrite !string_app_assoc. intros Heq.
    apply (inj (String.app _)) in Heq. apply (inj (String.app _)) in Heq.
    discriminate Heq.
  - rewrite !string_app_assoc. intros Heq.
    apply (inj (String.app _)) in Heq.
    destruct H; simpl in Heq, IH;
      rewrite ?string_app_assoc in Heq; apply (inj (String.app _)) in Heq;
      by apply IH.
Qed.

Lemma json_dumps_null_vs_empty (d : list (string * cell)) k :
  json_dumps_sorted (dict_set d k None)
  <> json_dumps_sorted (dict_set d k (Some EmptyString)).
Proof.
  unfold json_dumps_sorted. intros Heq.
  apply (inj (String.app _)) in Heq. revert Heq.
  apply json_join_null_vs_empty, sorted_items_null_vs_empty,
    dict_set_null_vs_empty.
Qed.
(** ** The row hash *)

(** C5: two row maps with unique keys and the same content, in whatever
    order their keys were inserted, have the same row hash; and for a map
    that binds a column to [None] and the same map binding it to the empty
    string, the canonical texts that are hashed differ ([null] against two
    quotes), so the two digests can only be equal through a collision of
    SHA-256 on these two texts. *)
Theorem row_hash_canonical (sha : string -> string) :
  (forall d1 d2 : list (string * cell),
     NoDup (dict_keys d1) -> NoDup (dict_keys d2) ->
     (forall k, dict_get d1 k = dict_get d2 k) ->
     calculate_row_hash sha d1 = calculate_row_hash sha d2)
  /\ (forall (d : list (string * cell)) k,
        let d1 := dict_set d k None in
        let d2 := dict_set d k (Some EmptyString) in
        json_dumps_sorted d1 <> json_dumps_sorted d2
        /\ (calculate_row_hash sha d1 = calculate_row_hash sha d2 ->
            exists x y, x <> y /\ sha x = sha y)).
Proof.
  split.
  - intros d1 d2 Hnd1 Hnd2 Hget. unfold calculate_row_hash, json_dumps_sorted.
    by rewrite (sorted_items_canonical d1 d2 Hnd1
                  (same_content_perm d1 d2 Hnd1 Hnd2 Hget)).
  - intros d k d1 d2.
    pose proof (json_dumps_null_vs_empty d k) as Hne.
    split; [done|]. intros Heq.
    exists (json_dumps_sorted d1), (json_dumps_sorted d2). done.
Qed.

(** With [hashlib]'s SHA-256 itself: the same row with its keys in two
    orders, and [{a: null, b: x}] against [{a: "", b: x}]. *)
Lemma row_hash_canonical_witness :
  calculate_row_hash SHA256.hexdigest [("b", Some "x"); ("a", None)]
  = calculate_row_hash SHA256.hexdigest [("a", None); ("b", Some "x")]
  /\ json_dumps_sorted (dict_set [("b", Some "x"); ("a", Some "y")] "a" None)
     <> json_dumps_sorted
          (dict_set [("b", Some "x"); ("a", Some "y")] "a" (Some EmptyString))
  /\ calculate_row_hash SHA256.hexdigest [("b", Some "x"); ("a", None)]
     <> calculate_row_hash SHA256.hexdigest
          [("b", Some "x"); ("a", Some EmptyString)].
Proof.
  destruct (row_hash_canonical SHA256.hexdigest) as [Hsame Hdiff].
  split; [|split].
  - apply Hsame.
    + apply (bool_decide_unpack _). vm_compute. exact I.
    + apply (bool_decide_unpack _). vm_compute. exact I.
    + intros k. cbn [dict_get].
      destruct (String.eqb_spec "b" k) as [<-|_]; [reflexivity|].
      by destruct (String.eqb_spec "a" k).
  - apply (Hdiff [("b", Some "x"); ("a", Some "y")] "a"%string).
  - vm_compute. discriminate.
Defined.

(** ** The committed store under the monad's operations *)

Lemma keeps_ret {A} (a : A) : keeps_committed (ret a).
Proof. by intros w. Qed.

Lemma keeps_raise {A} e : keeps_committed (@raise A e).
Proof. by intros w. Qed.

Lemma keeps_of_outcome {A} (o : outcome A) : keeps_committed (of_outcome o).
Proof. by intros w. Qed.

Lemma keeps_get_store : keeps_committed get_store.
Proof. by intros w. Qed.

Lemma keeps_put_store st : keeps_committed (put_store st).
Proof. by intros w. Qed.

Lemma keeps_rollback : keeps_committed db_rollback.
Proof. by intros w. Qed.

Lemma keeps_step fault : keeps_committed (step fault).
Proof. intros w. unfold step. by destruct (fault (clock w)). Qed.

Lemma keeps_bind {A B} (m : M A) (k : A -> M B) :
  keeps_committed m -> (forall a, keeps_committed (k a)) ->
  keeps_committed (bind m k).
Proof.
  intros Hm Hk w. unfold bind. specialize (Hm w).
  destruct (m w) as [[a|e] w1]; simpl in *; [|done].
  by rewrite Hk.
Qed.

Lemma keeps_try_except {A} (body : M A) handler :
  keeps_committed body -> (forall e, keeps_committed (handler e)) ->
  keeps_committed (try_except body handler).
Proof.
  intros Hm Hk w. unfold try_except. specialize (Hm w).
  destruct (body w) as [[a|e] w1]; simpl in *; [done|].
  by rewrite Hk.
Qed.

Lemma keeps_fails_clean {A} (m : M A) : keeps_committed m -> fails_clean m.
Proof. intros Hm w e w' Heq. specialize (Hm w). by rewrite Heq in Hm. Qed.

Lemma fails_clean_bind {A B} (m : M A) (k : A -> M B) :
  keeps_committed m -> (forall a, fails_clean (k a)) ->
  fails_clean (bind m k).
Proof.
  intros Hm Hk w e w'. unfold bind. specialize (Hm w).
  destruct (m w) as [[a|e1] w1]; simpl in *.
  - intros Hka. apply Hk in Hka. congruence.
  - intros [= <- <-]. done.
Qed.

(** [db.commit()] as the last statement: it either raises and changes
    nothing, or it is followed by the [return]. *)
Lemma fails_clean_commit_ret {A} fault (a : A) :
  fails_clean (bind (db_commit fault) (fun _ => ret a)).
Proof.
  intros w e w'. unfold bind, db_commit, bind, step, ret.
  destruct (fault (clock w)); [|done]. by intros [= <- <-].
Qed.

Create HintDb keeps.

#[local] Hint Resolve keeps_ret keeps_raise keeps_of_outcome keeps_get_store
  keeps_put_store keeps_rollback keeps_step : keeps.

Ltac keeps_step_tac :=
  first
    [ apply keeps_bind; [|intros ?]
    | apply keeps_try_except; [|intros ?]
    | progress eauto with keeps
    | match goal with
      | |- keeps_committed (match ?x with _ => _ end) => destruct x
      end ].
Ltac keeps := repeat keeps_step_tac.

Lemma keeps_db_add_metadata m : keeps_committed (db_add_metadata m).
Proof. unfold db_add_metadata. keeps. Qed.

Lemma keeps_db_add_row r : keeps_committed (db_add_row r).
Proof. unfold db_add_row. keeps. Qed.

Lemma keeps_db_add_column_index c : keeps_committed (db_add_column_index c).
Proof. unfold db_add_column_index. keeps. Qed.

Lemma keeps_set_duplicate_count id n :
  keeps_committed (set_duplicate_count id n).
Proof. unfold set_duplicate_count. keeps. Qed.

#[local] Hint Resolve keeps_db_add_metadata keeps_db_add_row
  keeps_db_add_column_index keeps_set_duplicate_count : keeps.

Lemma keeps_get_dataset_by_name fault name :
  keeps_committed (get_dataset_by_name fault name).
Proof. unfold get_dataset_by_name. keeps. Qed.

Lemma keeps_get_dataset_by_hash fault h :
  keeps_committed (get_dataset_by_hash fault h).
Proof. unfold get_dataset_by_hash. keeps. Qed.

Lemma keeps_create_dataset_metadata fault m :
  keeps_committed (create_dataset_metadata fault m).
Proof. unfold create_dataset_metadata. keeps. Qed.

Lemma keeps_insert_data_rows sha fault id df :
  keeps_committed (insert_data_rows sha fault id df).
Proof.
  unfold insert_data_rows.
  generalize (∅ : gset string) 0.
  induction (df_rows df) as [|[idx row] rows IH]; intros hs n; simpl.
  - keeps.
  - keeps; apply IH.
Qed.

Lemma keeps_build_column_index fault id df :
  keeps_committed (build_column_index fault id df).
Proof.
  unfold build_column_index. generalize 0.
  induction (df_cols df) as [|c cols IH]; intros j; simpl.
  - keeps.
  - keeps; apply IH.
Qed.

#[local] Hint Resolve keeps_get_dataset_by_name keeps_get_dataset_by_hash
  keeps_create_dataset_metadata keeps_insert_data_rows
  keeps_build_column_index : keeps.


(** ** What a computation that returned has done *)

Lemma bind_returned {A B} (m : M A) (k : A -> M B) w b w' :
  bind m k w = (Returned b, w') ->
  exists a w1, m w = (Returned a, w1) /\ k a w1 = (Returned b, w').
Proof.
  unfold bind. destruct (m w) as [[a|e] w1]; [|done]. intros H. eauto.
Qed.

Lemma step_returned fault w u w' :
  step fault w = (Returned u, w') -> session w' = session w.
Proof. unfold step. destruct (fault (clock w)); [done|]. by intros [= _ <-]. Qed.

Lemma get_dataset_by_name_returned fault name w r w' :
  get_dataset_by_name fault name w = (Returned r, w') ->
  session w' = session w
  /\ r = List.find (fun x => String.eqb (dataset_name x.2) name)
           (dataset_metadata (current (session w))).
Proof.
  unfold get_dataset_by_name. intros H.
  apply bind_returned in H as (u & w1 & Hs & H). apply step_returned in Hs.
  unfold bind, get_store, ret in H. simplify_eq. by rewrite Hs.
Qed.

Lemma get_dataset_by_hash_returned fault h w r w' :
  get_dataset_by_hash fault h w = (Returned r, w') ->
  session w' = session w
  /\ r = List.find (fun x => String.eqb (file_hash x.2) h)
           (dataset_metadata (current (session w))).
Proof.
  unfold get_dataset_by_hash. intros H.
  apply bind_returned in H as (u & w1 & Hs & H). apply step_returned in Hs.
  unfold bind, get_store, ret in H. simplify_eq. by rewrite Hs.
Qed.

(** Reading the file, with the Latin-1 retry, does not touch the session. *)
Lemma read_returned fault (rd rd1 : string -> outcome DataFrame) content w
    df w' :
  try_except (bind (step fault) (fun _ => of_outcome (rd content)))
    (fun _ => bind (step fault) (fun _ => of_outcome (rd1 content))) w
  = (Returned df, w') ->
  session w' = session w.
Proof.
  unfold try_except, bind, step, of_outcome.
  destruct (fault (clock w)) as [e|]; simpl.
  - destruct (fault (S (clock w))); simpl; [done|]. by intros [= _ <-].
  - destruct (rd content); simpl; [by intros [= _ <-]|].
    destruct (fault (S (clock w))); simpl; [done|]. by intros [= _ <-].
Qed.

(** ** A failed upload leaves no trace *)

Lemma upload_csv_raises_500 sha str_exn rd rd1 fault filename content name
    description timestamp w e :
  (upload_csv sha str_exn rd rd1 fault filename content name description
     timestamp w).1 = Raised e ->
  exists e0, e = HTTPException 500 (str_exn e0).
Proof.
  unfold upload_csv, try_except.
  destruct (upload_csv_body _ _ _ _ _ _ _ _ _ w) as [[a|e0] w1]; [done|].
  simpl. intros [= <-]. by exists e0.
Qed.


(** The third row of [visits.csv] cannot be stored: by then the metadata
    and two rows of the new dataset are in the transaction. *)
Example partial_work_before_failure :
  let '(o, w) :=
    upload_csv_body SHA256.hexdigest sample_read_csv sample_read_csv
      (fault_at 6 (Error "disk full")) "visits.csv" visits_csv None None
      "20250101_120000" {| session := open_session people_store; clock := 0 |}
  in
  o = Raised (Error "disk full")
  /\ length (dataset_metadata (current (session w))) = 2
  /\ length (data_rows (current (session w))) = 4.
Proof. vm_compute. done. Qed.


(** ** The status codes of [upload_csv] *)

(** Whatever is raised inside the [try] block, the conflict exceptions
    included, leaves the handler as a 500. *)
Lemma upload_csv_status sha str_exn rd rd1 fault filename content name
    description timestamp w :
  let r := respond (upload_csv sha str_exn rd rd1 fault filename content name
                      description timestamp w).1 in
  status_of r = 200%Z \/ status_of r = 500%Z.
Proof.
  simpl.
  destruct (upload_csv _ _ _ _ _ _ _ _ _ _ w).1 as [a|e] eqn:H; [by left|].
  apply upload_csv_raises_500 in H as [e0 ->]. by right.
Qed.

(** A stored file hash, under any fault schedule: 500. *)
Lemma upload_duplicate_file_500 sha str_exn rd rd1 fault filename content
    name description timestamp w m :
  List.find (fun r => String.eqb (file_hash r.2) (sha content))
    (dataset_metadata (current (session w))) = Some m ->
  status_of
    (respond (upload_csv sha str_exn rd rd1 fault filename content name
                description timestamp w).1) = 500%Z.
Proof.
  intros Hfind.
  destruct (upload_csv _ _ _ _ _ _ _ _ _ _ w).1 as [a|e] eqn:H.
  - exfalso. revert H.
    unfold upload_csv, try_except, upload_csv_body, get_dataset_by_hash,
      calculate_file_hash, bind, step, get_store, ret, raise.
    destruct (fault (clock w)); simpl; [done|].
    by rewrite Hfind.
  - apply upload_csv_raises_500 in H as [e0 ->]. done.
Qed.

(** A stored dataset name, under any fault schedule: 500. *)
Lemma upload_duplicate_name_500 sha str_exn rd rd1 fault filename content
    c name description timestamp w m :
  List.find (fun r => String.eqb (dataset_name r.2) (String c name))
    (dataset_metadata (current (session w))) = Some m ->
  status_of
    (respond (upload_csv sha str_exn rd rd1 fault filename content
                (Some (String c name)) description timestamp w).1) = 500%Z.
Proof.
  intros Hfind.
  destruct (upload_csv _ _ _ _ _ _ _ _ _ _ w).1 as [a|e] eqn:H.
  - exfalso. revert H. unfold upload_csv, try_except.
    destruct (upload_csv_body _ _ _ _ _ _ _ _ _ w) as [[a'|e] w'] eqn:Hb;
      [|done].
    intros _. unfold upload_csv_body in Hb.
    apply bind_returned in Hb as (found & w1 & H1 & Hb).
    apply get_dataset_by_hash_returned in H1 as [Hs1 _].
    apply bind_returned in Hb as (u & w2 & H2 & Hb).
    assert (session w2 = session w1) as Hs2.
    { destruct found; [done|]. by injection H2 as _ <-. }
    apply bind_returned in Hb as (df & w3 & H3 & Hb).
    apply read_returned in H3 as Hs3.
    destruct (validate_and_clean_data df) as [df' errors].
    apply bind_returned in Hb as (taken & w4 & H4 & Hb).
    apply get_dataset_by_name_returned in H4 as [Hs4 ->].
    rewrite Hs3, Hs2, Hs1, Hfind in Hb.
    apply bind_returned in Hb as (u' & w5 & H5 & _). done.
  - apply upload_csv_raises_500 in H as [e0 ->]. done.
Qed.
(** C1 (the code answers otherwise): the bytes of a stored file sent again,
    and a new file under a stored name, are both answered with status 500;
    the 409 and the 400 raised inside the [try] block end up as the detail
    text of that 500. *)
Theorem conflicting_uploads_answer_500 :
  respond (sample_upload no_fault "again.csv" people_csv (Some "again")
             people_store).1
  = HTTP_error 500 "409: Duplicate file. Already stored as: people"
  /\ respond (sample_upload no_fault "visits.csv" visits_csv (Some "people")
                people_store).1
     = HTTP_error 500 "400: Dataset name already exists".
Proof. split; vm_compute; reflexivity. Qed.

(** ** Row insertion *)

Lemma db_add_row_run r w :
  db_add_row r w
  = (Returned tt,
     {| session :=
          {| committed := committed (session w);
             current :=
               {| dataset_metadata := dataset_metadata (current (session w));
                  data_rows :=
                    data_rows (current (session w))
                    ++ [(fresh_id (data_rows (current (session w))), r)];
                  column_index := column_index (current (session w)) |} |};
        clock := clock w |}).
Proof. reflexivity. Qed.

(** What the loop has done when it returns: one stored row per table row,
    in order, each flagged exactly when its hash is in the set the loop
    started with or belongs to a row stored before it. *)
Lemma insert_data_rows_loop_spec sha fault id cols rows :
  forall (hs : gset string) n w n' w',
    insert_data_rows_loop sha fault id cols rows hs n w = (Returned n', w') ->
    exists added : list (Z * DataRow),
      data_rows (current (session w'))
      = data_rows (current (session w)) ++ added
      /\ dataset_metadata (current (session w'))
         = dataset_metadata (current (session w))
      /\ column_index (current (session w'))
         = column_index (current (session w))
      /\ Forall2 (fun r x =>
                    row_number x.2 = r.1
                    /\ data_json x.2 = row_to_dict cols r.2
                    /\ row_hash x.2
                       = calculate_row_hash sha (row_to_dict cols r.2))
           rows added
      /\ (forall i x, added !! i = Some x ->
            is_duplicate x.2 = true <->
            row_hash x.2 ∈ hs
            \/ exists j y, j < i /\ added !! j = Some y
                           /\ row_hash y.2 = row_hash x.2)
      /\ n' = n + length (flagged added)
      /\ n' + size (hs ∪ list_to_set ((fun x => row_hash x.2) <$> added))
         = n + size hs + length rows.
Proof.
  induction rows as [|[idx row] rows IH]; intros hs n w n' w' Hrun.
  - injection Hrun as <- <-. exists []. rewrite app_nil_r.
    split; [done|]. split; [done|]. split; [done|]. split; [constructor|].
    split; [intros i x Hx; by rewrite lookup_nil in Hx|].
    split; [simpl; lia|].
    simpl. rewrite (right_id_L ∅ (∪)). lia.
  - simpl in Hrun.
    apply bind_returned in Hrun as (u & w1 & Hstep & Hrun).
    apply step_returned in Hstep as Hs1.
    apply bind_returned in Hrun as (u' & w2 & Hadd & Hrun).
    rewrite db_add_row_run in Hadd. injection Hadd as _ <-.
    apply IH in Hrun as (added & Hrows & Hmeta & Hcols & Hall & Hdup & Hn & Hsz).
    simpl in Hrows, Hmeta, Hcols. rewrite Hs1 in Hrows, Hmeta, Hcols.
    set (h := calculate_row_hash sha (row_to_dict cols row)) in *.
    eexists (_ :: added). split; [|split; [|split; [|split; [|split; [|split]]]]].
    + rewrite Hrows, <- app_assoc. reflexivity.
    + done.
    + done.
    + constructor; [done|exact Hall].
    + intros [|i] x Hx; simpl in Hx.
      * injection Hx as <-. simpl. rewrite bool_decide_eq_true.
        split; [by left|]. intros [?|(j & y & Hj & _)]; [done|lia].
      * rewrite (Hdup i x Hx). rewrite elem_of_union, elem_of_singleton.
        split.
        -- intros [[?|Hh]|(j & y & Hj & Hy & Hyx)]; [by left|..].
           ++ right. exists 0. eexists. split; [lia|]. split; [done|]. done.
           ++ right. exists (S j), y. split; [lia|]. done.
        -- intros [?|(j & y & Hj & Hy & Hyx)]; [by left; left|].
           destruct j as [|j]; simpl in Hy.
           ++ injection Hy as <-. simpl in Hyx. by left; right.
           ++ right. exists j, y. split; [lia|]. done.
    + rewrite Hn. unfold flagged. rewrite filter_cons. simpl.
      destruct (bool_decide (h ∈ hs)) eqn:E; case_decide; try done; simpl; lia.
    + rewrite fmap_cons, list_to_set_cons. simpl (row_hash _).
      simpl (length (_ :: _)). fold h. rewrite (assoc_L (∪)).
      destruct (bool_decide (h ∈ hs)) eqn:E; simpl in Hsz.
      * apply bool_decide_eq_true in E.
        assert (hs ∪ {[h]} = hs) as Hsame.
        { rewrite (comm_L (∪)). apply subseteq_union_1_L.
          by apply singleton_subseteq_l. }
        rewrite Hsame in Hsz |- *. lia.
      * apply bool_decide_eq_false in E.
        assert (size (hs ∪ {[h]}) = S (size hs)) as Hsize.
        { rewrite size_union by (by apply disjoint_singleton_r).
          rewrite size_singleton. lia. }
        rewrite Hsize in Hsz. lia.
Qed.

(** Without faults the loop runs to its end. *)
Lemma insert_data_rows_loop_returns sha id cols rows :
  forall (hs : gset string) n w,
    exists n' w',
      insert_data_rows_loop sha no_fault id cols rows hs n w
      = (Returned n', w').
Proof.
  induction rows as [|[idx row] rows IH]; intros hs n w; simpl.
  - by eexists _, _.
  - unfold bind at 1. simpl. unfold bind at 1. rewrite db_add_row_run.
    apply IH.
Qed.
Lemma distinct_count_size (l : list string) :
  size (list_to_set l : gset string) = length (remove_dups l).
Proof.
  rewrite <- (size_list_to_set (C := gset string) (remove_dups l))
    by apply NoDup_remove_dups.
  f_equal. apply set_eq. intros x.
  by rewrite !elem_of_list_to_set, elem_of_remove_dups.
Qed.

Lemma Forall2_row_hashes sha cols rows (added : list (Z * DataRow)) :
  Forall2 (fun (r : Z * list cell) x =>
             row_number x.2 = r.1
             /\ data_json x.2 = row_to_dict cols r.2
             /\ row_hash x.2 = calculate_row_hash sha (row_to_dict cols r.2))
    rows added ->
  (fun x => row_hash x.2) <$> added
  = (fun r => calculate_row_hash sha (row_to_dict cols r.2)) <$> rows.
Proof.
  induction 1 as [|r x rows added (_ & _ & Hh) _ IH]; [done|].
  rewrite !fmap_cons. by f_equal.
Qed.

(** C4: in one call of [insert_data_rows], which without faults always
    returns, the rows are stored in table order, one per table row, and a
    stored row is flagged [is_duplicate] exactly when a row stored before it
    in the same call has the same [row_hash]; the count returned is the
    number of flagged rows. *)
Theorem is_duplicate_marks_later_repeats sha id df w :
  (exists n w', insert_data_rows sha no_fault id df w = (Returned n, w'))
  /\ forall fault n w',
       insert_data_rows sha fault id df w = (Returned n, w') ->
       exists added : list (Z * DataRow),
         data_rows (current (session w'))
         = data_rows (current (session w)) ++ added
         /\ length added = len_df df
         /\ (forall i x, added !! i = Some x ->
               (exists r, df_rows df !! i = Some r
                          /\ row_number x.2 = r.1
                          /\ data_json x.2 = row_to_dict (columns df) r.2
                          /\ row_hash x.2 = calculate_row_hash sha (data_json x.2))
               /\ (is_duplicate x.2 = true <->
                   exists j y, j < i /\ added !! j = Some y
                               /\ row_hash y.2 = row_hash x.2))
         /\ n = length (flagged added).
Proof.
  split; [apply insert_data_rows_loop_returns|].
  intros fault n w' Hrun.
  apply insert_data_rows_loop_spec in Hrun
    as (added & Hrows & _ & _ & Hall & Hdup & Hn & _).
  exists added. split; [done|]. split; [|split; [|done]].
  - symmetry. by eapply Forall2_length.
  - intros i x Hx. split.
    + destruct (Forall2_lookup_r _ _ _ _ _ Hall Hx) as (r & Hr & H1 & H2 & H3).
      exists r. rewrite H2. done.
    + rewrite (Hdup i x Hx). split; [|by right].
      intros [Hin|?]; [|done]. by apply not_elem_of_empty in Hin.
Qed.

Lemma is_duplicate_marks_later_repeats_witness :
  let w := {| session := open_session people_store; clock := 0 |} in
  let w' := (insert_data_rows SHA256.hexdigest no_fault 2 visits_df w).2 in
  exists added : list (Z * DataRow),
    data_rows (current (session w'))
    = data_rows (current (session w)) ++ added
    /\ length added = len_df visits_df
    /\ (forall i x, added !! i = Some x ->
          (exists r, df_rows visits_df !! i = Some r
                     /\ row_number x.2 = r.1
                     /\ data_json x.2 = row_to_dict (columns visits_df) r.2
                     /\ row_hash x.2
                        = calculate_row_hash SHA256.hexdigest (data_json x.2))
          /\ (is_duplicate x.2 = true <->
              exists j y, j < i /\ added !! j = Some y
                          /\ row_hash y.2 = row_hash x.2))
    /\ 1 = length (flagged added).
Proof.
  intros w w'.
  apply (proj2 (is_duplicate_marks_later_repeats SHA256.hexdigest 2 visits_df
                  w) no_fault 1 w').
  vm_compute. reflexivity.
Defined.

(** C8: the count [insert_data_rows] returns is the number of rows of the
    table minus the number of distinct row hashes among them. *)
Theorem duplicate_count_is_rows_minus_distinct sha id df w :
  (exists n w', insert_data_rows sha no_fault id df w = (Returned n, w'))
  /\ forall fault n w',
       insert_data_rows sha fault id df w = (Returned n, w') ->
       n = len_df df - length (remove_dups (row_hashes_of sha df)).
Proof.
  split; [apply insert_data_rows_loop_returns|].
  intros fault n w' Hrun.
  apply insert_data_rows_loop_spec in Hrun
    as (added & _ & _ & _ & Hall & _ & _ & Hsz).
  apply Forall2_row_hashes in Hall.
  rewrite (left_id_L ∅ (∪)), Hall, distinct_count_size in Hsz.
  rewrite size_empty in Hsz. unfold row_hashes_of, len_df. lia.
Qed.

Lemma duplicate_count_is_rows_minus_distinct_witness :
  (insert_data_rows SHA256.hexdigest no_fault 2 visits_df
     {| session := open_session people_store; clock := 0 |}).1
  = Returned 1
  /\ 1 = len_df visits_df
         - length (remove_dups (row_hashes_of SHA256.hexdigest visits_df)).
Proof.
  split; [vm_compute; reflexivity|].
  apply (proj2 (duplicate_count_is_rows_minus_distinct SHA256.hexdigest 2
                  visits_df
                  {| session := open_session people_store; clock := 0 |})
           no_fault 1
           (insert_data_rows SHA256.hexdigest no_fault 2 visits_df
              {| session := open_session people_store; clock := 0 |}).2).
  vm_compute. reflexivity.
Defined.
(** ** The validator, step by step *)

Lemma validate_and_clean_data_eq df :
  validate_and_clean_data df
  = (rename_dups (drop_empty df),
     (if 0 <? length (all_null_rows df)
      then [empty_rows (length (all_null_rows df)) (all_null_rows df).*1]
      else [])
     ++ match duplicated_labels [] (columns (drop_empty df)) with
        | [] => []
        | l => [duplicate_columns l]
        end
     ++ match all_null_columns (rename_dups (drop_empty df)) with
        | [] => []
        | l => [all_null_columns_entry l "kept_for_schema_integrity"]
        end).
Proof.
  unfold validate_and_clean_data, rename_dups, drop_empty.
  destruct (0 <? length (all_null_rows df)); simpl;
    destruct (duplicated_labels [] (columns _)); simpl;
    destruct (all_null_columns _); reflexivity.
Qed.

Lemma drop_empty_cols df : df_cols (drop_empty df) = df_cols df.
Proof. unfold drop_empty. by destruct (0 <? _). Qed.

Lemma drop_empty_rows df :
  df_rows (drop_empty df)
  = filter (fun r => row_all_null r = false) (df_rows df).
Proof.
  unfold drop_empty, all_null_rows.
  destruct (0 <? _) eqn:E; [done|].
  apply Nat.ltb_ge in E.
  destruct (filter _ (df_rows df)) as [|? ?] eqn:Hf; [|simpl in E; lia].
  clear E. induction (df_rows df) as [|r rows IH]; [done|].
  rewrite filter_cons in Hf |- *.
  destruct (decide (row_all_null r = true)) as [?|Hr]; [done|].
  destruct (decide (row_all_null r = false)) as [?|Hr'].
  - f_equal; auto.
  - by destruct (row_all_null r).
Qed.

Lemma dedup_names_from_cons counts col rest :
  dedup_names_from counts (col :: rest)
  = let '(col', counts') := dedup_while (S (size counts)) counts col in
    col' :: dedup_names_from
              (<[col' := default 0 (counts' !! col') + 1]> counts') rest.
Proof. reflexivity. Qed.

Lemma dedup_names_from_length names :
  forall counts, length (dedup_names_from counts names) = length names.
Proof.
  induction names as [|c names IH]; intros counts; [done|].
  rewrite dedup_names_from_cons.
  destruct (dedup_while (S (size counts)) counts c) as [c' counts'].
  rewrite !length_cons. by rewrite IH.
Qed.

Lemma rename_dups_rows df : df_rows (rename_dups df) = df_rows df.
Proof. unfold rename_dups. by destruct (duplicated_labels _ _). Qed.

Lemma rename_dups_length df :
  length (df_cols (rename_dups df)) = length (df_cols df).
Proof.
  unfold rename_dups. destruct (duplicated_labels _ _); [done|].
  simpl. rewrite length_zip_with.
  unfold maybe_dedup_names, columns.
  rewrite dedup_names_from_length, length_fmap. lia.
Qed.

Lemma series_rename_dups df j : series (rename_dups df) j = series df j.
Proof. unfold series. by rewrite rename_dups_rows. Qed.
(** ** Renaming repeated column labels *)

Lemma string_length_app (a b : string) :
  String.length (a +:+ b) = String.length a + String.length b.
Proof.
  induction a as [|c a IH]; [done|].
  rewrite string_app_cons. simpl. by rewrite IH.
Qed.

Lemma count_positive_dom (counts : gmap string nat) col n :
  default 0 (counts !! col) = S n -> col ∈ dom counts.
Proof.
  intros H. apply elem_of_dom. destruct (counts !! col); [done|discriminate].
Qed.

Lemma as_long_as_shrinks (counts : gmap string nat) col v suffix :
  col ∈ dom counts ->
  as_long_as (<[col := v]> counts) (col +:+ "." +:+ suffix)
  ⊂ as_long_as counts col.
Proof.
  intros Hdom. apply elem_of_dom in Hdom as [v0 Hv0].
  unfold as_long_as. rewrite (dom_insert_lookup_L counts col) by eauto.
  split.
  - intros k. rewrite !elem_of_filter, !string_length_app. simpl.
    intros [Hk ?]. split; [lia|done].
  - intros Hsup. specialize (Hsup col).
    rewrite !elem_of_filter, !string_length_app in Hsup. simpl in Hsup.
    destruct Hsup as [Hlen _]; [|lia].
    split; [lia|]. apply elem_of_dom. eauto.
Qed.

(** The inner [while] of the renaming loop always ends on a name that has
    not been counted: the fuel never runs out. *)
Lemma dedup_while_exits fuel :
  forall (counts : gmap string nat) col,
    size (as_long_as counts col) <= fuel ->
    default 0 ((dedup_while fuel counts col).2
                 !! (dedup_while fuel counts col).1) = 0.
Proof.
  induction fuel as [|fuel IH]; intros counts col Hsize; simpl.
  - destruct (default 0 (counts !! col)) as [|n] eqn:E; [done|].
    apply count_positive_dom in E.
    assert (col ∈ as_long_as counts col) as Hin.
    { apply elem_of_filter. split; [reflexivity|done]. }
    apply Nat.le_0_r, size_empty_inv in Hsize.
    apply Hsize in Hin. by apply elem_of_empty in Hin.
  - destruct (default 0 (counts !! col)) as [|n] eqn:E; [done|].
    apply IH. apply count_positive_dom in E.
    apply Nat.lt_succ_r. eapply Nat.lt_le_trans; [|exact Hsize].
    by apply subset_size, as_long_as_shrinks.
Qed.

Lemma as_long_as_size (counts : gmap string nat) col :
  size (as_long_as counts col) <= S (size counts).
Proof.
  unfold as_long_as. rewrite <- size_dom.
  etrans; [apply subseteq_size|apply Nat.le_succ_diag_r].
  intros k Hk. by apply elem_of_filter in Hk as [_ ?].
Qed.

(** Counts only grow in the loop. *)
Lemma dedup_while_positive fuel :
  forall (counts : gmap string nat) col x,
    0 < default 0 (counts !! x) ->
    0 < default 0 ((dedup_while fuel counts col).2 !! x).
Proof.
  induction fuel as [|fuel IH]; intros counts col x Hx; simpl.
  - by destruct (default 0 (counts !! col)).
  - destruct (default 0 (counts !! col)) as [|n] eqn:E; [done|].
    apply IH. destruct (decide (col = x)) as [->|Hne].
    + rewrite lookup_insert_eq. simpl. lia.
    + by rewrite lookup_insert_ne.
Qed.

(** The renamed labels are pairwise different, and none of them was
    counted before. *)
Lemma dedup_names_from_NoDup names :
  forall counts : gmap string nat,
    NoDup (dedup_names_from counts names)
    /\ forall x, x ∈ dedup_names_from counts names ->
                 default 0 (counts !! x) = 0.
Proof.
  induction names as [|c names IH]; intros counts.
  - split; [constructor|]. intros x Hx. by apply elem_of_nil in Hx.
  - rewrite dedup_names_from_cons.
    pose proof (dedup_while_exits (S (size counts)) counts c
                  (as_long_as_size counts c)) as Hexit.
    pose proof (dedup_while_positive (S (size counts)) counts c) as Hpos.
    destruct (dedup_while (S (size counts)) counts c) as [c' counts'].
    simpl in Hexit, Hpos. rewrite Hexit. simpl.
    destruct (IH (<[c' := 1]> counts')) as [Hnd Hfresh].
    assert (forall x, default 0 (counts' !! x) = 0 ->
                      default 0 (counts !! x) = 0) as Hback.
    { intros x Hx. destruct (default 0 (counts !! x)) eqn:E; [done|].
      specialize (Hpos x). rewrite E in Hpos. lia. }
    split.
    + constructor; [|done]. intros Hin. apply Hfresh in Hin.
      rewrite lookup_insert_eq in Hin. discriminate.
    + intros x Hx. apply elem_of_cons in Hx as [->|Hx]; [by apply Hback|].
      apply Hback. specialize (Hfresh x Hx).
      destruct (decide (c' = x)) as [->|Hne].
      * rewrite lookup_insert_eq in Hfresh. discriminate.
      * by rewrite lookup_insert_ne in Hfresh.
Qed.

Lemma duplicated_labels_nil names :
  forall seen, duplicated_labels seen names = [] ->
               NoDup names /\ forall x, x ∈ names -> x ∉ seen.
Proof.
  induction names as [|c names IH]; intros seen Hd; simpl in Hd.
  - split; [constructor|]. intros x Hx. by apply elem_of_nil in Hx.
  - destruct (bool_decide (c ∈ seen)) eqn:E; [done|].
    apply bool_decide_eq_false in E.
    apply IH in Hd as [Hnd Hseen]. split.
    + constructor; [|done]. intros Hc. apply Hseen in Hc. apply Hc. left.
    + intros x Hx. apply elem_of_cons in Hx as [->|Hx]; [done|].
      intros Hin. apply (Hseen x Hx). by right.
Qed.

Lemma columns_set_columns df names :
  length names = length (df_cols df) -> columns (set_columns df names) = names.
Proof.
  unfold columns, set_columns. simpl. generalize (df_cols df).
  induction names as [|n names IH]; intros [|c cols] Hlen; try done.
  simpl. f_equal. apply IH. simpl in Hlen. lia.
Qed.

(** The column labels of a cleaned table are pairwise different. *)
Lemma cleaned_columns_NoDup df :
  NoDup (columns (validate_and_clean_data df).1).
Proof.
  rewrite validate_and_clean_data_eq. simpl. unfold rename_dups.
  destruct (duplicated_labels [] (columns (drop_empty df))) eqn:E.
  - by apply duplicated_labels_nil in E as [? _].
  - rewrite columns_set_columns.
    + apply dedup_names_from_NoDup.
    + unfold maybe_dedup_names. rewrite dedup_names_from_length.
      unfold columns. by rewrite length_fmap.
Qed.

(** ** All-null columns *)

Lemma elem_of_all_null_columns df c :
  c ∈ all_null_columns df <->
  exists j, columns df !! j = Some c /\ column_all_null df j = true.
Proof.
  unfold all_null_columns. rewrite list_elem_of_omap. split.
  - intros ([j c'] & Hin & Hf). apply elem_of_lookup_imap_1 in Hin
      as (i & x & [= -> ->] & Hx).
    simpl in Hf. destruct (column_all_null df i) eqn:E; [|done].
    injection Hf as ->. eauto.
  - intros (j & Hj & Hnull). exists (j, c). split.
    + by apply elem_of_lookup_imap_2.
    + simpl. by rewrite Hnull.
Qed.

Lemma omap_all_Some {A B} (f : A -> option B) (g : A -> B) (l : list A) :
  (forall x, x ∈ l -> f x = Some (g x)) -> omap f l = g <$> l.
Proof.
  induction l as [|x l IH]; intros Hf; [done|]. simpl.
  rewrite Hf by left. simpl. f_equal. apply IH. intros y Hy. apply Hf. by right.
Qed.

Lemma omap_all_None {A B} (f : A -> option B) (l : list A) :
  (forall x, x ∈ l -> f x = None) -> omap f l = [].
Proof.
  induction l as [|x l IH]; intros Hf; [done|]. simpl.
  rewrite Hf by left. apply IH. intros y Hy. apply Hf. by right.
Qed.

Lemma imap_pair_snd {A} (l : list A) : (imap pair l).*2 = l.
Proof.
  rewrite fmap_imap. rewrite <- (list_fmap_id l) at 2.
  rewrite <- imap_const. by apply imap_ext.
Qed.

(** With no row, every column passes the all-null test. *)
Lemma all_null_columns_no_rows df :
  df_rows df = [] -> all_null_columns df = columns df.
Proof.
  intros Hrows. unfold all_null_columns.
  rewrite (omap_all_Some _ snd).
  - apply imap_pair_snd.
  - intros [j c] _. unfold column_all_null, series. by rewrite Hrows.
Qed.

Lemma error_log_entries df e :
  e ∈ (validate_and_clean_data df).2 ->
  (e = empty_rows (length (all_null_rows df)) (all_null_rows df).*1
   /\ all_null_rows df <> [])
  \/ (e = duplicate_columns (duplicated_labels [] (columns (drop_empty df))))
  \/ (e = all_null_columns_entry
            (all_null_columns (validate_and_clean_data df).1)
            "kept_for_schema_integrity"
      /\ all_null_columns (validate_and_clean_data df).1 <> []).
Proof.
  rewrite validate_and_clean_data_eq. simpl.
  rewrite !elem_of_app. intros [He|[He|He]].
  - left. destruct (all_null_rows df) eqn:E; simpl in He.
    + by apply elem_of_nil in He.
    + apply list_elem_of_singleton in He. done.
  - right; left. destruct (duplicated_labels _ _); simpl in He.
    + by apply elem_of_nil in He.
    + by apply list_elem_of_singleton in He.
  - right; right. destruct (all_null_columns _); simpl in He.
    + by apply elem_of_nil in He.
    + by apply list_elem_of_singleton in He.
Qed.

Lemma all_null_entry_logged df :
  all_null_columns (validate_and_clean_data df).1 <> [] ->
  all_null_columns_entry (all_null_columns (validate_and_clean_data df).1)
    "kept_for_schema_integrity"
  ∈ (validate_and_clean_data df).2.
Proof.
  rewrite validate_and_clean_data_eq. simpl. intros Hne.
  rewrite !elem_of_app. right; right.
  destruct (all_null_columns _); [done|]. by apply list_elem_of_singleton.
Qed.

Lemma cleaned_rows df :
  df_rows (validate_and_clean_data df).1
  = filter (fun r => row_all_null r = false) (df_rows df).
Proof.
  rewrite validate_and_clean_data_eq. simpl.
  by rewrite rename_dups_rows, drop_empty_rows.
Qed.

Lemma cleaned_columns_length df :
  len_columns (validate_and_clean_data df).1 = len_columns df.
Proof.
  rewrite validate_and_clean_data_eq. simpl. unfold len_columns.
  by rewrite rename_dups_length, drop_empty_cols.
Qed.



(** ** The column index *)

Lemma db_add_column_index_run c w :
  db_add_column_index c w
  = (Returned tt,
     {| session :=
          {| committed := committed (session w);
             current :=
               {| dataset_metadata := dataset_metadata (current (session w));
                  data_rows := data_rows (current (session w));
                  column_index :=
                    column_index (current (session w))
                    ++ [(fresh_id (column_index (current (session w))), c)] |} |};
        clock := clock w |}).
Proof. reflexivity. Qed.

(** What [build_column_index] has done when it returns: one entry per
    column, in column order, after the entries that were there. *)
Lemma build_column_index_loop_spec fault id df cols :
  forall j w w',
    build_column_index_loop fault id df j cols w = (Returned tt, w') ->
    exists added : list (Z * ColumnIndex),
      column_index (current (session w'))
      = column_index (current (session w)) ++ added
      /\ added.*2 = imap (fun i c => column_index_entry id df (j + i) c) cols.
Proof.
  induction cols as [|c cols IH]; intros j w w' Hrun.
  - injection Hrun as <-. exists []. by rewrite app_nil_r.
  - simpl in Hrun.
    apply bind_returned in Hrun as (u & w1 & Hstep & Hrun).
    apply step_returned in Hstep as Hs1.
    apply bind_returned in Hrun as (u' & w2 & Hadd & Hrun).
    rewrite db_add_column_index_run in Hadd. injection Hadd as _ <-.
    apply IH in Hrun as (added & Hrows & Hadded).
    simpl in Hrows. rewrite Hs1 in Hrows.
    eexists (_ :: added). split.
    + rewrite Hrows, <- app_assoc. reflexivity.
    + rewrite fmap_cons, Hadded, imap_cons, Nat.add_0_r. f_equal.
      apply imap_ext. intros i x _. simpl. f_equal. lia.
Qed.

Lemma build_column_index_spec fault id df w w' :
  build_column_index fault id df w = (Returned tt, w') ->
  exists added : list (Z * ColumnIndex),
    column_index (current (session w'))
    = column_index (current (session w)) ++ added
    /\ length added = len_columns df
    /\ forall j c, df_cols df !! j = Some c ->
                   added.*2 !! j = Some (column_index_entry id df j c).
Proof.
  intros Hrun. apply build_column_index_loop_spec in Hrun as (added & H1 & H2).
  exists added. split; [done|]. split.
  - rewrite <- (length_fmap snd added), H2. apply length_imap.
  - intros j c Hc. rewrite H2, list_lookup_imap, Hc. done.
Qed.

Lemma build_column_index_returns id df w :
  exists w', build_column_index no_fault id df w = (Returned tt, w').
Proof.
  unfold build_column_index. generalize 0. revert w.
  induction (df_cols df) as [|c cols IH]; intros w j; simpl.
  - by eexists.
  - unfold bind at 1. simpl. unfold bind at 1.
    rewrite db_add_column_index_run. apply IH.
Qed.

(** ** The schema *)

Lemma dict_get_set {V} (d : list (string * V)) k v k' :
  dict_get (dict_set d k v) k' = if String.eqb k k' then Some v else dict_get d k'.
Proof.
  induction d as [|[k0 v0] d IH]; simpl.
  - done.
  - destruct (String.eqb k0 k) eqn:E0; simpl.
    + apply String.eqb_eq in E0. subst k0.
      by destruct (String.eqb k k').
    + destruct (String.eqb k0 k') eqn:E1.
      * apply String.eqb_eq in E1. subst k0.
        rewrite String.eqb_sym in E0. by rewrite E0.
      * done.
Qed.

Lemma infer_schema_from_get cols :
  forall (schema : list (string * string)) k,
    k ∉ col_label <$> cols ->
    dict_get (foldl (fun s c => dict_set s (col_label c)
                                  (logical_type (col_dtype c))) schema cols) k
    = dict_get schema k.
Proof.
  induction cols as [|c cols IH]; intros schema k Hk; simpl; [done|].
  rewrite fmap_cons, not_elem_of_cons in Hk. destruct Hk as [Hne Hk].
  rewrite IH by done. rewrite dict_get_set.
  destruct (String.eqb (col_label c) k) eqn:E; [|done].
  apply String.eqb_eq in E. congruence.
Qed.

(** The schema maps a column with a unique label to the logical type of
    its dtype. *)
Lemma infer_schema_get df j c :
  NoDup (columns df) -> df_cols df !! j = Some c ->
  dict_get (infer_schema df) (col_label c) = Some (logical_type (col_dtype c)).
Proof.
  unfold infer_schema, columns. generalize (@nil (string * string)).
  revert j. induction (df_cols df) as [|c0 cols IH]; intros j schema Hnd Hc.
  - by rewrite lookup_nil in Hc.
  - rewrite fmap_cons in Hnd. apply NoDup_cons in Hnd as [Hc0 Hnd]. simpl.
    destruct j as [|j]; simpl in Hc.
    + injection Hc as ->. rewrite infer_schema_from_get by done.
      by rewrite dict_get_set, String.eqb_refl.
    + by eapply IH.
Qed.

(** ** The type recorded in the column index *)

(** C2 (as amended): for a cleaned table, [build_column_index], which
    without faults always returns, stores one entry per column whose
    [data_type] is the dtype name of the column as pandas prints it, not
    the logical type name; the schema inferencer's logical type for the
    column is the image of that field under [logical_type]. *)
Theorem column_index_data_type_is_dtype id df w :
  let df' := (validate_and_clean_data df).1 in
  (exists w', build_column_index no_fault id df' w = (Returned tt, w'))
  /\ forall fault w',
       build_column_index fault id df' w = (Returned tt, w') ->
       exists added : list (Z * ColumnIndex),
         column_index (current (session w'))
         = column_index (current (session w)) ++ added
         /\ length added = len_columns df'
         /\ forall j c, df_cols df' !! j = Some c ->
              exists e, added.*2 !! j = Some e
                /\ column_name e = col_label c
                /\ data_type e = col_dtype c
                /\ dict_get (infer_schema df') (column_name e)
                   = Some (logical_type (data_type e)).
Proof.
  intros df'. split; [apply build_column_index_returns|].
  intros fault w' Hrun.
  apply build_column_index_spec in Hrun as (added & Hrows & Hlen & Hadded).
  exists added. split; [done|]. split; [done|].
  intros j c Hc. eexists. split; [by apply Hadded|].
  split; [done|]. split; [done|].
  simpl. eapply infer_schema_get; [apply cleaned_columns_NoDup|done].
Qed.

Lemma column_index_data_type_is_dtype_witness :
  let df' := (validate_and_clean_data people_df).1 in
  let w := {| session := open_session empty_store; clock := 0 |} in
  (exists w', build_column_index no_fault 1 df' w = (Returned tt, w'))
  /\ forall fault w',
       build_column_index fault 1 df' w = (Returned tt, w') ->
       exists added : list (Z * ColumnIndex),
         column_index (current (session w'))
         = column_index (current (session w)) ++ added
         /\ length added = len_columns df'
         /\ forall j c, df_cols df' !! j = Some c ->
              exists e, added.*2 !! j = Some e
                /\ column_name e = col_label c
                /\ data_type e = col_dtype c
                /\ dict_get (infer_schema df') (column_name e)
                   = Some (logical_type (data_type e)).
Proof.
  intros df' w. apply (column_index_data_type_is_dtype 1 people_df w).
Defined.

(** C2 fails as stated: after the upload of [people.csv] the index says
    [object] for every column and the schema says [string]. *)
Lemma column_index_data_type_not_logical :
  (fun x => (column_name x.2, data_type x.2)) <$> column_index people_store
  = [("name", "object"); ("age", "object"); ("city", "object")]
  /\ (fun x => schema_definition x.2) <$> dataset_metadata people_store
     = [[("name", "string"); ("age", "string"); ("city", "string")]]
  /\ infer_schema people_df
     = [("name", "string"); ("age", "string"); ("city", "string")].
Proof. vm_compute. done. Qed.

(** ** Columns without a value *)

Lemma dropna_all_null (s : list cell) : forallb isna s = true -> dropna s = [].
Proof.
  unfold dropna. induction s as [|[v|] s IH]; simpl; [done..|]. auto.
Qed.

Lemma column_index_entry_all_null id df j c :
  column_all_null df j = true ->
  column_index_entry id df j c
  = {| ci_dataset_id := id; column_name := col_label c;
       data_type := col_dtype c; distinct_count := 0;
       min_value := None; max_value := None; sample_values := [] |}.
Proof.
  intros Hnull. apply dropna_all_null in Hnull.
  unfold column_index_entry, nunique. by rewrite Hnull.
Qed.

(** C6: for a cleaned table with at least one row and a column whose
    values are all null, [build_column_index], which without faults always
    returns, stores an entry for that column with [distinct_count] 0, no
    [min_value], no [max_value] and no [sample_values]; the validator has
    logged the column's name in its [all_null_columns] entry and has kept
    every column of the table. *)
Theorem all_null_column_indexed_and_logged df id w j c :
  let df' := (validate_and_clean_data df).1 in
  let errors := (validate_and_clean_data df).2 in
  df_cols df' !! j = Some c ->
  column_all_null df' j = true ->
  df_rows df' <> [] ->
  (exists w', build_column_index no_fault id df' w = (Returned tt, w'))
  /\ (forall fault w',
        build_column_index fault id df' w = (Returned tt, w') ->
        exists added : list (Z * ColumnIndex),
          column_index (current (session w'))
          = column_index (current (session w)) ++ added
          /\ exists e, added.*2 !! j = Some e
               /\ column_name e = col_label c
               /\ distinct_count e = 0
               /\ min_value e = None
               /\ max_value e = None
               /\ sample_values e = [])
  /\ (exists cols,
        all_null_columns_entry cols "kept_for_schema_integrity" ∈ errors
        /\ col_label c ∈ cols)
  /\ len_columns df' = len_columns df.
Proof.
  intros df' errors Hc Hnull _.
  split; [apply build_column_index_returns|]. split; [|split].
  - intros fault w' Hrun.
    apply build_column_index_spec in Hrun as (added & Hrows & _ & Hadded).
    exists added. split; [done|]. eexists. split; [by apply Hadded|].
    by rewrite column_index_entry_all_null.
  - assert (col_label c ∈ all_null_columns df') as Hin.
    { apply elem_of_all_null_columns. exists j. split; [|done].
      unfold columns. by rewrite list_lookup_fmap, Hc. }
    exists (all_null_columns df'). split; [|done].
    apply all_null_entry_logged. fold df'. intros Hnil.
    rewrite Hnil in Hin. by apply elem_of_nil in Hin.
  - apply cleaned_columns_length.
Qed.

Lemma all_null_column_indexed_and_logged_witness :
  let df' := (validate_and_clean_data sparse_df).1 in
  let errors := (validate_and_clean_data sparse_df).2 in
  let w := {| session := open_session people_store; clock := 0 |} in
  (exists w', build_column_index no_fault 2 df' w = (Returned tt, w'))
  /\ (forall fault w',
        build_column_index fault 2 df' w = (Returned tt, w') ->
        exists added : list (Z * ColumnIndex),
          column_index (current (session w'))
          = column_index (current (session w)) ++ added
          /\ exists e, added.*2 !! 1 = Some e
               /\ column_name e = "nickname"
               /\ distinct_count e = 0
               /\ min_value e = None
               /\ max_value e = None
               /\ sample_values e = [])
  /\ (exists cols,
        all_null_columns_entry cols "kept_for_schema_integrity" ∈ errors
        /\ "nickname" ∈ cols)
  /\ len_columns df' = len_columns sparse_df.
Proof.
  intros df' errors w.
  apply (all_null_column_indexed_and_logged sparse_df 2 w 1
           (object_column "nickname")).
  - reflexivity.
  - reflexivity.
  - vm_compute. discriminate.
Defined.

(** ** Tables without a missing cell *)

Lemma no_missing_cell_lookup df r j :
  no_missing_cell df -> wf_df df -> r ∈ df_rows df -> j < len_columns df ->
  isna (mjoin (r.2 !! j)) = false.
Proof.
  intros Hnm Hwf Hr Hj.
  unfold no_missing_cell, wf_df in *. rewrite Forall_forall in Hnm, Hwf.
  specialize (Hnm r Hr). specialize (Hwf r Hr).
  destruct (r.2 !! j) as [v|] eqn:Hv.
  - simpl. rewrite Forall_forall in Hnm. apply Hnm.
    by eapply list_elem_of_lookup_2.
  - apply lookup_ge_None in Hv. unfold len_columns in Hj. lia.
Qed.

Lemma no_missing_cell_row df r :
  no_missing_cell df -> wf_df df -> df_cols df <> [] -> r ∈ df_rows df ->
  row_all_null r = false.
Proof.
  intros Hnm Hwf Hcols Hr.
  pose proof (no_missing_cell_lookup df r 0 Hnm Hwf Hr) as H0.
  unfold wf_df in Hwf. rewrite Forall_forall in Hwf. specialize (Hwf r Hr).
  unfold row_all_null. destruct r.2 as [|v cells].
  - destruct (df_cols df); [done|]. discriminate Hwf.
  - simpl in *. rewrite H0; [done|].
    unfold len_columns. destruct (df_cols df); [done|]. simpl. lia.
Qed.

Lemma filter_none {A} (P : A -> Prop) `{forall x, Decision (P x)}
    (l : list A) :
  (forall x, x ∈ l -> ~ P x) -> filter P l = [].
Proof.
  induction l as [|x l IH]; intros Hl; [done|].
  rewrite filter_cons. destruct (decide (P x)) as [Hx|_].
  - exfalso. by apply (Hl x); [left|].
  - apply IH. intros y Hy. apply Hl. by right.
Qed.

Lemma filter_all {A} (P : A -> Prop) `{forall x, Decision (P x)}
    (l : list A) :
  (forall x, x ∈ l -> P x) -> filter P l = l.
Proof.
  induction l as [|x l IH]; intros Hl; [done|].
  rewrite filter_cons. destruct (decide (P x)) as [_|Hx].
  - f_equal. apply IH. intros y Hy. apply Hl. by right.
  - exfalso. apply Hx, Hl. left.
Qed.

Lemma no_missing_cell_no_empty_rows df :
  no_missing_cell df -> wf_df df -> df_cols df <> [] -> all_null_rows df = [].
Proof.
  intros Hnm Hwf Hcols. unfold all_null_rows.
  apply filter_none. intros r Hr.
  by rewrite (no_missing_cell_row df r Hnm Hwf Hcols Hr).
Qed.

Lemma no_missing_cell_null_count df j :
  no_missing_cell df -> wf_df df -> j < len_columns df -> null_count df j = 0.
Proof.
  intros Hnm Hwf Hj. unfold null_count, series.
  rewrite filter_none; [done|].
  intros v Hv. apply list_elem_of_fmap in Hv as (r & -> & Hr).
  by rewrite (no_missing_cell_lookup df r j Hnm Hwf Hr Hj).
Qed.

Lemma detect_missing_loop_none df cols :
  forall j report flag,
    (forall i, i < length cols -> null_count df (j + i) = 0) ->
    detect_missing_loop df j cols report flag = (report, flag).
Proof.
  induction cols as [|c cols IH]; intros j report flag Hnull; simpl; [done|].
  pose proof (Hnull 0 ltac:(simpl; lia)) as H0.
  rewrite Nat.add_0_r in H0. rewrite H0. simpl.
  apply IH. intros i Hi. replace (S j + i) with (j + S i) by lia.
  apply Hnull. simpl. lia.
Qed.

Lemma no_missing_cell_has_missing df :
  no_missing_cell df -> wf_df df ->
  has_missing (detect_missing_values df) = false.
Proof.
  intros Hnm Hwf. unfold detect_missing_values.
  rewrite detect_missing_loop_none; [done|].
  intros i Hi. apply no_missing_cell_null_count; [done..|].
  unfold columns in Hi. by rewrite length_fmap in Hi.
Qed.

Lemma no_missing_cell_cleaned df :
  no_missing_cell df -> wf_df df -> df_cols df <> [] ->
  df_rows (validate_and_clean_data df).1 = df_rows df.
Proof.
  intros Hnm Hwf Hcols. rewrite cleaned_rows. apply filter_all.
  intros r Hr. by eapply no_missing_cell_row.
Qed.

Lemma zero_rows_log_all_columns df :
  df_rows df = [] ->
  df_cols (validate_and_clean_data df).1 <> [] ->
  all_null_columns_entry (columns (validate_and_clean_data df).1)
    "kept_for_schema_integrity"
  ∈ (validate_and_clean_data df).2.
Proof.
  intros Hrows Hcols.
  assert (df_rows (validate_and_clean_data df).1 = []) as Hrows'.
  { by rewrite cleaned_rows, Hrows. }
  rewrite <- (all_null_columns_no_rows _ Hrows').
  apply all_null_entry_logged.
  rewrite (all_null_columns_no_rows _ Hrows'). unfold columns.
  by destruct (df_cols _).
Qed.

(** The response of an upload that went through the first [read_csv] call
    reports the analysis of the cleaned table. *)
Lemma upload_csv_reports sha str_exn rd rd1 filename content name description
    timestamp w df resp w' :
  rd content = Returned df ->
  upload_csv sha str_exn rd rd1 no_fault filename content name description
    timestamp w = (Returned resp, w') ->
  up_has_missing_values resp
  = has_missing (detect_missing_values (validate_and_clean_data df).1)
  /\ errors_detected resp = length (validate_and_clean_data df).2
  /\ rows_inserted resp = len_df (validate_and_clean_data df).1.
Proof.
  intros Hrd. unfold upload_csv, try_except.
  destruct (upload_csv_body _ _ _ _ _ _ _ _ _ w) as [[a|e] w1] eqn:Hb; [|done].
  intros [= -> ->]. unfold upload_csv_body in Hb.
  apply bind_returned in Hb as (found & w2 & _ & Hb).
  apply bind_returned in Hb as (u & w3 & _ & Hb).
  apply bind_returned in Hb as (df0 & w4 & Hread & Hb).
  assert (df0 = df) as ->.
  { revert Hread. unfold try_except, bind, step, of_outcome, no_fault.
    rewrite Hrd. by intros [= ->]. }
  destruct (validate_and_clean_data df) as [df' errors].
  apply bind_returned in Hb as (taken & w5 & _ & Hb).
  apply bind_returned in Hb as (u1 & w6 & _ & Hb).
  apply bind_returned in Hb as (id & w7 & _ & Hb).
  apply bind_returned in Hb as (n & w8 & _ & Hb).
  apply bind_returned in Hb as (u2 & w9 & _ & Hb).
  apply bind_returned in Hb as (u3 & w10 & _ & Hb).
  apply bind_returned in Hb as (u4 & w11 & _ & Hb).
  injection Hb as <- _. done.
Qed.

(** C9 (as amended): a table in which every cell is a string, as the first
    [read_csv] call of [upload_csv] returns it, with one cell per column in
    every row and at least one column, loses no row in the validator and
    gets no [empty_rows] entry, and its missing-value report has
    [has_missing] false, which is what a fault-free upload of it reports
    as [has_missing_values], all rows inserted.  No column is flagged as
    all-null provided the table has a row; a table with a header and no
    rows gets every column flagged. *)
Theorem no_missing_cell_through_validator df :
  no_missing_cell df -> wf_df df -> df_cols df <> [] ->
  let df' := (validate_and_clean_data df).1 in
  let errors := (validate_and_clean_data df).2 in
  df_rows df' = df_rows df
  /\ (forall n positions, empty_rows n positions ∉ errors)
  /\ has_missing (detect_missing_values df') = false
  /\ (df_rows df <> [] ->
      forall cols action, all_null_columns_entry cols action ∉ errors)
  /\ (df_rows df = [] ->
      all_null_columns_entry (columns df') "kept_for_schema_integrity"
      ∈ errors)
  /\ (forall sha str_exn rd rd1 filename content name description timestamp
        w resp w',
        rd content = Returned df ->
        upload_csv sha str_exn rd rd1 no_fault filename content name
          description timestamp w = (Returned resp, w') ->
        up_has_missing_values resp = false
        /\ rows_inserted resp = len_df df).
Proof.
  intros Hnm Hwf Hcols df' errors.
  pose proof (no_missing_cell_cleaned df Hnm Hwf Hcols) as Hrows.
  fold df' in Hrows.
  pose proof (cleaned_columns_length df) as Hlen. fold df' in Hlen.
  assert (no_missing_cell df') as Hnm'.
  { unfold no_missing_cell. by rewrite Hrows. }
  assert (wf_df df') as Hwf'.
  { unfold wf_df. rewrite Hrows. unfold len_columns in Hlen. by rewrite Hlen. }
  split; [done|]. split; [|split; [|split; [|split]]].
  - intros n positions Hin.
    apply error_log_entries in Hin as [[_ Hne]|[?|[? _]]]; [|done..].
    by apply Hne, no_missing_cell_no_empty_rows.
  - by apply no_missing_cell_has_missing.
  - intros Hne cols action Hin.
    apply error_log_entries in Hin as [[? _]|[?|[_ Hnull]]]; [done..|].
    apply Hnull. fold df'. unfold all_null_columns.
    apply omap_all_None. intros [j c] Hjc.
    apply elem_of_lookup_imap_1 in Hjc as (i & x & [= -> ->] & Hx).
    simpl. apply lookup_lt_Some in Hx.
    unfold columns in Hx. rewrite length_fmap in Hx.
    assert (column_all_null df' i = false) as ->; [|done].
    unfold column_all_null, series. rewrite Hrows.
    destruct (df_rows df) as [|r rows] eqn:Er; [done|].
    rewrite fmap_cons. simpl.
    rewrite (no_missing_cell_lookup df' r i Hnm' Hwf'); [done| |done].
    rewrite Hrows. left.
  - intros Hnil.
    apply (zero_rows_log_all_columns df); [done|].
    unfold len_columns in Hlen. fold df'. intros Hc. rewrite Hc in Hlen.
    by destruct (df_cols df).
  - intros sha str_exn rd rd1 filename content name description timestamp
      w resp w' Hrd Hrun.
    destruct (upload_csv_reports _ _ _ _ _ _ _ _ _ _ _ _ _ Hrd Hrun)
      as (H1 & _ & H3).
    rewrite H1, H3. split; [by apply no_missing_cell_has_missing|].
    unfold len_df. fold df'. by rewrite Hrows.
Qed.
Lemma no_missing_cell_through_validator_witness :
  let df' := (validate_and_clean_data people_df).1 in
  let errors := (validate_and_clean_data people_df).2 in
  df_rows df' = df_rows people_df
  /\ (forall n positions, empty_rows n positions ∉ errors)
  /\ has_missing (detect_missing_values df') = false
  /\ (df_rows people_df <> [] ->
      forall cols action, all_null_columns_entry cols action ∉ errors)
  /\ (df_rows people_df = [] ->
      all_null_columns_entry (columns df') "kept_for_schema_integrity"
      ∈ errors)
  /\ (forall sha str_exn rd rd1 filename content name description timestamp
        w resp w',
        rd content = Returned people_df ->
        upload_csv sha str_exn rd rd1 no_fault filename content name
          description timestamp w = (Returned resp, w') ->
        up_has_missing_values resp = false
        /\ rows_inserted resp = len_df people_df).
Proof.
  apply (no_missing_cell_through_validator people_df).
  - repeat constructor.
  - repeat constructor.
  - discriminate.
Defined.

(** C9 fails as stated: the upload of a file with the header [a,b] and no
    row goes through the first [read_csv] call, has no missing cell, and is
    stored with both columns flagged as all-null. *)
Lemma header_only_upload_flags_columns :
  sample_read_csv header_only_csv = Returned header_only_df
  /\ no_missing_cell header_only_df
  /\ (fun x => error_log x.2)
       <$> dataset_metadata
             (committed (session (sample_upload no_fault "empty.csv"
                                    header_only_csv (Some "empty")
                                    empty_store).2))
     = [[all_null_columns_entry ["a"; "b"] "kept_for_schema_integrity"]].
Proof.
  split; [reflexivity|]. split; [constructor|]. vm_compute. reflexivity.
Qed.

(** ** Reading a dataset *)

(** C10: for a stored dataset, whatever [limit], [offset] and
    [exclude_duplicates] are, [get_data] (which without faults returns)
    answers with [total_rows] equal to the [row_count] of the dataset's
    metadata; [returned_rows] and [data] are those of the filtered and
    windowed rows. *)
Theorem get_data_total_rows name limit offset (exclude_duplicates : bool) w
    id m :
  List.find (fun r => String.eqb (dataset_name r.2) name)
    (dataset_metadata (current (session w))) = Some (id, m) ->
  let rows :=
    offset_limit offset limit
      (let query := filter (fun r : Z * DataRow => dr_dataset_id r.2 = id)
                      (data_rows (current (session w))) in
       if exclude_duplicates
       then filter (fun r : Z * DataRow => is_duplicate r.2 = false) query
       else query) in
  (exists w',
     get_data no_fault name limit offset exclude_duplicates w
     = (Returned {| dr_dataset_name := name;
                    total_rows := row_count m;
                    returned_rows := length rows;
                    data := (fun r => data_json r.2) <$> rows |}, w'))
  /\ forall fault resp w',
       get_data fault name limit offset exclude_duplicates w
       = (Returned resp, w') ->
       total_rows resp = row_count m
       /\ returned_rows resp = length rows
       /\ data resp = (fun r => data_json r.2) <$> rows.
Proof.
  intros Hfind rows. split.
  - unfold get_data, get_dataset_by_name, bind, step, get_store, ret, no_fault.
    simpl. rewrite Hfind. simpl. by eexists.
  - intros fault resp w' Hrun. unfold get_data in Hrun.
    apply bind_returned in Hrun as (dataset & w1 & Hget & Hrun).
    apply get_dataset_by_name_returned in Hget as [Hs1 ->].
    rewrite Hfind in Hrun.
    apply bind_returned in Hrun as (u & w2 & Hstep & Hrun).
    apply step_returned in Hstep as Hs2.
    unfold bind, get_store, ret in Hrun. injection Hrun as <- _.
    rewrite Hs2, Hs1. done.
Qed.

Example people_store_metadata :
  dataset_metadata people_store = [(1%Z, people_metadata)].
Proof. vm_compute. reflexivity. Qed.

Lemma get_data_total_rows_witness :
  let w := {| session := open_session people_store; clock := 0 |} in
  (exists w',
     get_data no_fault "people" 1 1 true w
     = (Returned {| dr_dataset_name := "people";
                    total_rows := 2;
                    returned_rows := 1;
                    data := [[("name", Some "Jane"); ("age", Some "25");
                              ("city", Some "LA")]] |}, w'))
  /\ forall fault resp w',
       get_data fault "people" 1 1 true w = (Returned resp, w') ->
       total_rows resp = 2
       /\ returned_rows resp = 1
       /\ data resp = [[("name", Some "Jane"); ("age", Some "25");
                        ("city", Some "LA")]].
Proof.
  intros w.
  apply (get_data_total_rows "people" 1 1 true w 1 people_metadata).
  vm_compute. reflexivity.
Defined.

(* ===================================================================== *)
(** * Further properties of the pipeline *)
(* ===================================================================== *)

(** ** The validator *)



Lemma duplicated_labels_NoDup names :
  forall seen, NoDup names -> (forall x, x ∈ names -> x ∉ seen) ->
               duplicated_labels seen names = [].
Proof.
  induction names as [|c names IH]; intros seen Hnd Hseen; [done|]. simpl.
  apply NoDup_cons in Hnd as [Hc Hnd].
  rewrite bool_decide_eq_false_2 by (apply Hseen; left).
  apply IH; [done|]. intros x Hx Hin.
  apply elem_of_cons in Hin as [->|Hin]; [done|].
  by apply (Hseen x); [right|].
Qed.

Lemma all_null_rows_cleaned df :
  all_null_rows (validate_and_clean_data df).1 = [].
Proof.
  unfold all_null_rows. rewrite cleaned_rows. apply filter_none.
  intros r Hr. apply list_elem_of_filter in Hr as [Hr _]. by rewrite Hr.
Qed.

(** X2: cleaning is idempotent.  A second pass over a cleaned table drops
    no row, renames no column, and logs neither [empty_rows] nor
    [duplicate_columns]: its log is the [all_null_columns] entry of the
    first pass, if there is one. *)
Theorem validate_idempotent df :
  let df' := (validate_and_clean_data df).1 in
  validate_and_clean_data df'
  = (df',
     match all_null_columns df' with
     | [] => []
     | l => [all_null_columns_entry l "kept_for_schema_integrity"]
     end).
Proof.
  intros df'. rewrite (validate_and_clean_data_eq df').
  pose proof (all_null_rows_cleaned df) as Hnone. fold df' in Hnone.
  assert (drop_empty df' = df') as Hdrop.
  { unfold drop_empty. by rewrite Hnone. }
  rewrite Hnone, Hdrop. simpl.
  assert (duplicated_labels [] (columns df') = []) as Hdup.
  { apply duplicated_labels_NoDup; [apply cleaned_columns_NoDup|].
    intros x _ Hin. by apply elem_of_nil in Hin. }
  unfold rename_dups. rewrite Hdup. simpl. by destruct (all_null_columns df').
Qed.





(** ** The missing-value report *)

Lemma detect_missing_loop_get df cols :
  forall j report flag c,
    NoDup cols ->
    dict_get (detect_missing_loop df j cols report flag).1 c
    = match list_find (fun x => x = c) cols with
      | Some (i, _) =>
          if 0 <? null_count df (j + i) then Some (missing_entry df (j + i))
          else dict_get report c
      | None => dict_get report c
      end.
Proof.
  induction cols as [|c0 cols IH]; intros j report flag c Hnd; [done|].
  apply NoDup_cons in Hnd as [Hc0 Hnd]. simpl.
  destruct (decide (c0 = c)) as [->|Hne].
  - rewrite Nat.add_0_r.
    assert (list_find (fun x => x = c) cols = None) as Hnone.
    { apply list_find_None, Forall_forall. intros x Hx ->. done. }
    destruct (0 <? null_count df j) eqn:E; rewrite IH by done;
      rewrite Hnone; [|done].
    by rewrite dict_get_set, String.eqb_refl.
  - destruct (0 <? null_count df j) eqn:E; rewrite IH by done;
      destruct (list_find (fun x => x = c) cols) as [[i x]|] eqn:Hf; simpl;
      rewrite ?Nat.add_succ_r; try done.
    + destruct (0 <? null_count df (S (j + i))); [done|].
      rewrite dict_get_set.
      by destruct (String.eqb_spec c0 c).
    + rewrite dict_get_set. by destruct (String.eqb_spec c0 c).
Qed.

Lemma detect_missing_loop_flag df cols :
  forall j report flag,
    (detect_missing_loop df j cols report flag).2 = true <->
    flag = true \/ exists i, i < length cols /\ 0 < null_count df (j + i).
Proof.
  induction cols as [|c0 cols IH]; intros j report flag; simpl.
  - split; [by left|]. intros [?|(i & Hi & _)]; [done|lia].
  - destruct (0 <? null_count df j) eqn:E; rewrite IH.
    + apply Nat.ltb_lt in E. split; [|by left]. intros _. right.
      exists 0. rewrite Nat.add_0_r. split; [lia|done].
    + apply Nat.ltb_ge in E. split.
      * intros [?|(i & Hi & Hn)]; [by left|]. right. exists (S i).
        rewrite Nat.add_succ_r. split; [lia|done].
      * intros [?|(i & Hi & Hn)]; [by left|]. right.
        destruct i as [|i]; [rewrite Nat.add_0_r in Hn; lia|].
        exists i. rewrite Nat.add_succ_r in Hn. split; [lia|done].
Qed.

Lemma null_positions_length df j :
  length (null_positions df j) = null_count df j.
Proof.
  unfold null_positions, null_count, series.
  rewrite length_fmap. induction (df_rows df) as [|r rows IH]; [done|].
  rewrite fmap_cons, !filter_cons. simpl.
  destruct (decide (isna (mjoin (r.2 !! j)) = true)); simpl; by rewrite IH.
Qed.

(** X4: the per-column report is sparse and exact.  In a table with
    pairwise different labels, the column at position [j] has an entry
    exactly when it has a missing cell; the entry then gives the number of
    its missing cells, that number over the number of rows, and the labels
    of the first hundred rows where the cell is missing. *)
Theorem missing_report_sparse df j c :
  NoDup (columns df) -> columns df !! j = Some c ->
  let report := columns_with_missing (detect_missing_values df) in
  (null_count df j = 0 -> dict_get report c = None)
  /\ (0 < null_count df j ->
      exists e, dict_get report c = Some e
        /\ mc_count e = null_count df j
        /\ mc_percentage e = (null_count df j, len_df df)
        /\ mc_positions e = take 100 (null_positions df j)
        /\ length (mc_positions e) = Nat.min 100 (mc_count e)).
Proof.
  intros Hnd Hc report. unfold report, detect_missing_values.
  pose proof (detect_missing_loop_get df (columns df) 0 [] false c Hnd) as Hget.
  destruct (detect_missing_loop df 0 (columns df) [] false) as [rep flag].
  simpl in *. rewrite Hget.
  assert (list_find (fun x => x = c) (columns df) = Some (j, c)) as ->.
  { apply list_find_Some. split; [done|]. split; [done|].
    intros i y Hy Hi ->.
    pose proof (NoDup_lookup _ _ _ _ Hnd Hy Hc). lia. }
  split.
  - intros ->. done.
  - intros Hpos. apply Nat.ltb_lt in Hpos. rewrite Hpos.
    eexists. split; [done|]. simpl. repeat split.
    by rewrite length_take, null_positions_length.
Qed.

Lemma missing_report_sparse_witness :
  let report := columns_with_missing (detect_missing_values sparse_df) in
  (null_count sparse_df 1 = 0 -> dict_get report "nickname" = None)
  /\ (0 < null_count sparse_df 1 ->
      exists e, dict_get report "nickname" = Some e
        /\ mc_count e = null_count sparse_df 1
        /\ mc_percentage e = (null_count sparse_df 1, len_df sparse_df)
        /\ mc_positions e = take 100 (null_positions sparse_df 1)
        /\ length (mc_positions e) = Nat.min 100 (mc_count e)).
Proof.
  apply (missing_report_sparse sparse_df 1 "nickname").
  - apply (bool_decide_unpack _). vm_compute. exact I.
  - reflexivity.
Defined.


Lemma filter_nonempty_length {A} (P : A -> Prop) `{forall x, Decision (P x)}
    (l : list A) :
  0 < length (filter P l) <-> exists x, x ∈ l /\ P x.
Proof.
  split.
  - destruct (filter P l) as [|x l'] eqn:E; simpl; [lia|]. intros _.
    assert (x ∈ filter P l) as Hx by (rewrite E; left).
    apply list_elem_of_filter in Hx as [? ?]. eauto.
  - intros (x & Hx & HP).
    assert (x ∈ filter P l) as Hin by (by apply list_elem_of_filter).
    destruct (filter P l); [by apply elem_of_nil in Hin|]. simpl. lia.
Qed.

(** [has_missing] is raised by the first column with a missing cell. *)
Lemma has_missing_some_cell df :
  wf_df df ->
  has_missing (detect_missing_values df) = true <->
  exists r v, r ∈ df_rows df /\ v ∈ r.2 /\ isna v = true.
Proof.
  intros Hwf.
  assert (has_missing (detect_missing_values df) = true <->
          exists j, j < len_columns df /\ 0 < null_count df j) as Hflag.
  { unfold detect_missing_values.
    pose proof (detect_missing_loop_flag df (columns df) 0 [] false) as Hf.
    destruct (detect_missing_loop df 0 (columns df) [] false) as [rep flag].
    simpl in *. rewrite Hf.
    unfold columns. rewrite length_fmap. unfold len_columns.
    split; [intros [?|?]; [done|done]|by right]. }
  rewrite Hflag.
  unfold wf_df in Hwf. rewrite Forall_forall in Hwf. split.
  - intros (j & Hj & Hn). unfold null_count, series in Hn.
    apply filter_nonempty_length in Hn as (v & Hv & Hna).
    apply list_elem_of_fmap in Hv as (r & -> & Hr).
    destruct (r.2 !! j) as [v|] eqn:Hv.
    + exists r, v. split; [done|]. split; [|done].
      by eapply list_elem_of_lookup_2.
    + apply lookup_ge_None in Hv. rewrite (Hwf r Hr) in Hv.
      unfold len_columns in Hj. lia.
  - intros (r & v & Hr & Hv & Hna).
    apply list_elem_of_lookup in Hv as [j Hj]. exists j. split.
    + apply lookup_lt_Some in Hj. rewrite (Hwf r Hr) in Hj. done.
    + unfold null_count, series. apply filter_nonempty_length.
      exists (mjoin (r.2 !! j)). split.
      * apply list_elem_of_fmap. by exists r.
      * by rewrite Hj.
Qed.



(** ** The schema, on every table *)

Lemma dict_keys_set {V} (d : list (string * V)) k v :
  dict_keys (dict_set d k v)
  = if bool_decide (k ∈ dict_keys d) then dict_keys d else dict_keys d ++ [k].
Proof.
  unfold dict_keys. induction d as [|[k0 v0] d IH]; cbn [dict_set].
  - rewrite bool_decide_eq_false_2 by apply not_elem_of_nil. done.
  - destruct (String.eqb_spec k0 k) as [->|Hne]; rewrite !fmap_cons.
    + rewrite bool_decide_eq_true_2 by left. done.
    + rewrite IH. cbn [fst]. destruct (bool_decide (k ∈ d.*1)) eqn:E.
      * apply bool_decide_eq_true in E.
        rewrite bool_decide_eq_true_2 by (by right). done.
      * apply bool_decide_eq_false in E.
        rewrite bool_decide_eq_false_2; [done|].
        intros Hin. apply elem_of_cons in Hin as [?|?]; congruence.
Qed.

Lemma dict_set_NoDup {V} (d : list (string * V)) k v :
  NoDup (dict_keys d) -> NoDup (dict_keys (dict_set d k v)).
Proof.
  intros Hnd. rewrite dict_keys_set.
  destruct (bool_decide (k ∈ dict_keys d)) eqn:E; [done|].
  apply bool_decide_eq_false in E.
  apply NoDup_app. split; [done|]. split; [|apply NoDup_singleton].
  intros x Hx Hx'. apply list_elem_of_singleton in Hx'. by subst.
Qed.









(** ** The dict of a row *)

Lemma dict_of_items_NoDup {V} (items : list (string * V)) :
  NoDup (dict_keys (dict_of_items items)).
Proof.
  unfold dict_of_items.
  assert (forall (l d : list (string * V)),
            NoDup (dict_keys d) ->
            NoDup (dict_keys (fold_left (fun d kv => dict_set d kv.1 kv.2) l d)))
    as Hgen.
  { induction l as [|[k v] l IH]; intros d Hd; cbn [fold_left]; [done|].
    by apply IH, dict_set_NoDup. }
  apply Hgen, NoDup_nil_2.
Qed.

Lemma dict_of_items_get {V} (items : list (string * V)) :
  forall d k v i,
    NoDup items.*1 -> items !! i = Some (k, v) ->
    dict_get (fold_left (fun d kv => dict_set d kv.1 kv.2) items d) k = Some v.
Proof.
  induction items as [|[k0 v0] items IH]; intros d k v i Hnd Hi.
  - by rewrite lookup_nil in Hi.
  - rewrite fmap_cons in Hnd. apply NoDup_cons in Hnd as [Hk0 Hnd]. simpl.
    destruct i as [|i]; simpl in Hi.
    + injection Hi as -> ->.
      assert (forall (l : list (string * V)) d',
                k ∉ l.*1 ->
                dict_get (fold_left (fun d kv => dict_set d kv.1 kv.2) l d') k
                = dict_get d' k) as Hskip.
      { clear. induction l as [|[k1 v1] l IH]; intros d' Hk; [done|]. simpl.
        rewrite fmap_cons, not_elem_of_cons in Hk. destruct Hk as [Hne Hk].
        rewrite IH by done. rewrite dict_get_set.
        by destruct (String.eqb_spec k1 k). }
      rewrite Hskip by done. by rewrite dict_get_set, String.eqb_refl.
    + by eapply IH.
Qed.

Lemma row_to_dict_keys cols (row : list cell) :
  dict_keys (row_to_dict cols row) = dict_keys (dict_of_items (zip cols row)).
Proof.
  unfold row_to_dict, dict_keys. rewrite <- list_fmap_compose.
  by apply list_fmap_ext.
Qed.

Lemma dict_get_fmap_value {V W} (f : V -> W) (d : list (string * V)) k :
  dict_get ((fun kv : string * V => (kv.1, f kv.2)) <$> d) k
  = f <$> dict_get d k.
Proof.
  induction d as [|[k0 v0] d IH]; simpl; [done|].
  by destruct (String.eqb k0 k).
Qed.

Lemma zip_fst_NoDup {A B} (l : list A) (k : list B) :
  NoDup l -> NoDup (zip l k).*1.
Proof.
  revert k. induction l as [|x l IH]; intros [|y k] Hnd; cbn [zip zip_with];
    try apply NoDup_nil_2.
  rewrite fmap_cons. apply NoDup_cons in Hnd as [Hx Hnd].
  apply NoDup_cons. split; [|by apply IH].
  intros Hin. apply Hx. apply list_elem_of_fmap in Hin as ([a b] & Heq & Hab).
  apply elem_of_zip_l in Hab. simpl in Heq. by subst.
Qed.

Lemma dict_set_new {V} (d : list (string * V)) k v :
  k ∉ dict_keys d -> dict_set d k v = d ++ [(k, v)].
Proof.
  unfold dict_keys. induction d as [|[k0 v0] d IH]; intros Hk; [done|].
  rewrite fmap_cons in Hk. apply not_elem_of_cons in Hk as [Hne Hk].
  cbn [dict_set]. destruct (String.eqb_spec k0 k); [by subst|].
  cbn [app]. by rewrite IH.
Qed.

Lemma dict_of_items_distinct {V} (items : list (string * V)) :
  NoDup items.*1 -> dict_of_items items = items.
Proof.
  unfold dict_of_items.
  assert (forall (l d : list (string * V)),
            NoDup (d ++ l).*1 ->
            fold_left (fun d kv => dict_set d kv.1 kv.2) l d = d ++ l) as Hgen.
  { induction l as [|[k v] l IH]; intros d Hnd; cbn [fold_left].
    - by rewrite app_nil_r.
    - rewrite dict_set_new.
      + rewrite IH; rewrite <- app_assoc; done.
      + rewrite fmap_app, fmap_cons in Hnd.
        apply NoDup_app in Hnd as (_ & Hdisj & _).
        intros Hin. apply (Hdisj _ Hin). left. }
  intros Hnd. by apply (Hgen items []).
Qed.

Lemma row_to_dict_zip cols (row : list cell) :
  NoDup cols -> row_to_dict cols row = zip cols row.
Proof.
  intros Hnd. unfold row_to_dict.
  rewrite dict_of_items_distinct by by apply zip_fst_NoDup.
  induction (zip cols row) as [|[k [v|]] l IH]; [done|..];
    rewrite fmap_cons, IH; done.
Qed.

(** X7: the dict stored for a row.  Its keys are pairwise different
    whatever the labels are, so it has one canonical JSON text; and when
    the labels are pairwise different it is the cells of the row under the
    labels of their columns, in column order: it maps the label of every
    column to the cell of the row in that column. *)
Theorem row_to_dict_lookup cols (row : list cell) :
  NoDup (dict_keys (row_to_dict cols row))
  /\ (NoDup cols -> row_to_dict cols row = zip cols row)
  /\ (NoDup cols ->
      forall j c v, cols !! j = Some c -> row !! j = Some v ->
                    dict_get (row_to_dict cols row) c = Some v).
Proof.
  split; [|split].
  - rewrite row_to_dict_keys. apply dict_of_items_NoDup.
  - apply row_to_dict_zip.
  - intros Hnd j c v Hc Hv. unfold row_to_dict.
    rewrite (dict_get_fmap_value (fun v : option string => if isna v then None else v)).
    unfold dict_of_items.
    rewrite (dict_of_items_get (zip cols row) [] c v j).
    + simpl. by destruct v.
    + by apply zip_fst_NoDup.
    + apply lookup_zip_with_Some. by exists c, v.
Qed.

Lemma row_to_dict_lookup_witness :
  row_to_dict ["name"; "city"] [Some "Bob"; None]
  = zip ["name"; "city"] [Some "Bob"; None]
  /\ dict_get (row_to_dict ["name"; "city"] [Some "Bob"; None]) "city"
     = Some None.
Proof.
  destruct (row_to_dict_lookup ["name"; "city"] [Some "Bob"; None])
    as (_ & H2 & H3).
  assert (NoDup ["name"; "city"]) as Hnd
    by (apply (bool_decide_unpack _); vm_compute; reflexivity).
  split; [exact (H2 Hnd)|]. exact (H3 Hnd 1 "city" None eq_refl eq_refl).
Defined.


(** ** The statistics of an index entry *)








(** ** The canonical text decides the content *)

Lemma all_ascii_complete c : In c all_ascii.
Proof.
  unfold all_ascii. rewrite <- (ascii_nat_embedding c).
  apply in_map, in_seq. pose proof (nat_ascii_bounded c). lia.
Qed.

Lemma app_prefix a : forall b t1 t2,
  a +:+ t1 = b +:+ t2 -> String.prefix a b = true \/ String.prefix b a = true.
Proof.
  induction a as [|x a IH]; intros [|y b] t1 t2 Heq; simpl; auto.
  rewrite !string_app_cons in Heq. injection Heq as -> Heq.
  destruct (ascii_dec y y); [|done]. eauto.
Qed.

Lemma prefix_app a : forall b, String.prefix a b = true -> exists t, b = a +:+ t.
Proof.
  induction a as [|x a IH]; intros b Hp.
  - by exists b.
  - destruct b as [|y b]; simpl in Hp; [done|].
    destruct (ascii_dec x y) as [->|]; [|done].
    destruct (IH _ Hp) as [t ->]. by exists t.
Qed.

Lemma escape_char_split c1 c2 t1 t2 :
  json_escape_char c1 +:+ t1 = json_escape_char c2 +:+ t2 ->
  c1 = c2 /\ t1 = t2.
Proof.
  intros Heq.
  assert (escape_prefix_free = true) as Hfree by (vm_compute; reflexivity).
  unfold escape_prefix_free in Hfree. rewrite forallb_forall in Hfree.
  assert (c1 = c2) as ->.
  { destruct (app_prefix _ _ _ _ Heq) as [Hp|Hp].
    - pose proof (Hfree c1 (all_ascii_complete c1)) as H1.
      rewrite forallb_forall in H1. specialize (H1 c2 (all_ascii_complete c2)).
      rewrite Hp in H1. by apply Ascii.eqb_eq in H1.
    - pose proof (Hfree c2 (all_ascii_complete c2)) as H1.
      rewrite forallb_forall in H1. specialize (H1 c1 (all_ascii_complete c1)).
      rewrite Hp in H1. by apply Ascii.eqb_eq in H1. }
  split; [done|]. by apply (inj (String.app _)) in Heq.
Qed.

Lemma escape_char_head c t t' : json_escape_char c +:+ t <> String dquote t'.
Proof.
  assert (escape_never_quote = true) as Hq by (vm_compute; reflexivity).
  unfold escape_never_quote in Hq. rewrite forallb_forall in Hq.
  specialize (Hq c (all_ascii_complete c)).
  destruct (json_escape_char c) as [|h s]; [done|].
  rewrite string_app_cons. intros [= -> _].
  by rewrite Ascii.eqb_refl in Hq.
Qed.

Lemma json_escape_split s1 : forall s2 r1 r2,
  json_escape s1 +:+ String dquote r1 = json_escape s2 +:+ String dquote r2 ->
  s1 = s2 /\ r1 = r2.
Proof.
  induction s1 as [|c1 s1 IH]; intros [|c2 s2] r1 r2 Heq; cbn [json_escape] in Heq.
  - by injection Heq as ->.
  - rewrite string_app_assoc in Heq. symmetry in Heq.
    by apply escape_char_head in Heq.
  - rewrite string_app_assoc in Heq. by apply escape_char_head in Heq.
  - rewrite !string_app_assoc in Heq.
    apply escape_char_split in Heq as [-> Heq].
    apply IH in Heq as [-> ->]. done.
Qed.

Lemma json_string_split s1 s2 r1 r2 :
  json_string s1 +:+ r1 = json_string s2 +:+ r2 -> s1 = s2 /\ r1 = r2.
Proof.
  unfold json_string. rewrite !string_app_cons, !string_app_assoc.
  intros [= Heq]. rewrite !string_app_cons in Heq.
  by apply json_escape_split in Heq.
Qed.

Lemma json_value_split v1 v2 r1 r2 :
  json_value v1 +:+ r1 = json_value v2 +:+ r2 -> v1 = v2 /\ r1 = r2.
Proof.
  destruct v1 as [s1|], v2 as [s2|]; cbn [json_value]; intros Heq.
  - apply json_string_split in Heq as [-> ->]. done.
  - unfold json_string in Heq. rewrite string_app_cons in Heq. done.
  - unfold json_string in Heq. rewrite string_app_cons in Heq. done.
  - by apply (inj (String.app _)) in Heq as ->.
Qed.

Lemma json_item_split kv1 kv2 r1 r2 :
  json_item kv1 +:+ r1 = json_item kv2 +:+ r2 -> kv1 = kv2 /\ r1 = r2.
Proof.
  destruct kv1 as [k1 v1], kv2 as [k2 v2]. unfold json_item. cbn [fst snd].
  rewrite !string_app_assoc. intros Heq.
  apply json_string_split in Heq as [-> Heq].
  apply (inj (String.app _)) in Heq.
  apply json_value_split in Heq as [-> ->]. done.
Qed.

Lemma json_item_head kv r : exists t, json_item kv +:+ r = String dquote t.
Proof.
  unfold json_item, json_string. rewrite !string_app_cons. eauto.
Qed.

Lemma json_join_inj l1 : forall l2 r1 r2,
  json_join (json_item <$> l1) +:+ String "}" r1
  = json_join (json_item <$> l2) +:+ String "}" r2 ->
  l1 = l2.
Proof.
  induction l1 as [|x l1 IH]; intros [|y l2] r1 r2 Heq.
  - done.
  - rewrite fmap_cons, json_join_cons, string_app_assoc in Heq.
    destruct (json_item_head y (join_tail (json_item <$> l2) +:+ String "}" r2))
      as [t Ht].
    rewrite Ht in Heq. done.
  - rewrite fmap_cons, json_join_cons, string_app_assoc in Heq.
    destruct (json_item_head x (join_tail (json_item <$> l1) +:+ String "}" r1))
      as [t Ht].
    rewrite Ht in Heq. done.
  - rewrite !fmap_cons, !json_join_cons, !string_app_assoc in Heq.
    apply json_item_split in Heq as [-> Heq]. f_equal.
    destruct l1 as [|x1 l1], l2 as [|y1 l2]; [done|..].
    + rewrite fmap_cons in Heq. cbn [join_tail] in Heq. done.
    + rewrite fmap_cons in Heq. cbn [join_tail] in Heq. done.
    + unfold join_tail in Heq. rewrite !fmap_cons in Heq.
      rewrite <- !fmap_cons in Heq. rewrite !string_app_assoc in Heq.
      apply (inj (String.app _)) in Heq. by eapply IH.
Qed.

Lemma json_dumps_sorted_inj d1 d2 :
  json_dumps_sorted d1 = json_dumps_sorted d2 ->
  sorted_items d1 = sorted_items d2.
Proof.
  unfold json_dumps_sorted. intros Heq.
  apply (inj (String.app _)) in Heq. by apply json_join_inj in Heq.
Qed.

Lemma perm_same_content {V} (d1 d2 : list (string * V)) :
  NoDup (dict_keys d1) -> NoDup (dict_keys d2) -> d1 ≡ₚ d2 ->
  forall k, dict_get d1 k = dict_get d2 k.
Proof.
  intros H1 H2 Hp k.
  destruct (dict_get d1 k) as [v|] eqn:E1.
  - apply dict_get_Some_elem in E1. rewrite Hp in E1.
    symmetry. by apply dict_get_elem.
  - destruct (dict_get d2 k) as [v|] eqn:E2; [|done].
    apply dict_get_Some_elem in E2. rewrite <- Hp in E2.
    apply dict_get_elem in E2; [congruence|done].
Qed.

(** X9: the text that is hashed for a row decides the row.  Two row maps
    with unique keys have the same canonical JSON text exactly when they
    have the same content; so two rows with the same hash either have the
    same content or show a collision of the hash function. *)
Theorem row_hash_decides_content (sha : string -> string)
    (d1 d2 : list (string * cell)) :
  NoDup (dict_keys d1) -> NoDup (dict_keys d2) ->
  (json_dumps_sorted d1 = json_dumps_sorted d2
   <-> forall k, dict_get d1 k = dict_get d2 k)
  /\ (calculate_row_hash sha d1 = calculate_row_hash sha d2 ->
      (forall k, dict_get d1 k = dict_get d2 k)
      \/ exists x y, x <> y /\ sha x = sha y).
Proof.
  intros H1 H2.
  assert (json_dumps_sorted d1 = json_dumps_sorted d2 ->
          forall k, dict_get d1 k = dict_get d2 k) as Hinj.
  { intros Heq. apply json_dumps_sorted_inj in Heq.
    apply perm_same_content; [done..|].
    by rewrite <- (sorted_items_perm d1), Heq, sorted_items_perm. }
  split; [split; [done|]|].
  - intros Hget. unfold json_dumps_sorted.
    by rewrite (sorted_items_canonical d1 d2 H1
                  (same_content_perm d1 d2 H1 H2 Hget)).
  - unfold calculate_row_hash. intros Hh.
    destruct (decide (json_dumps_sorted d1 = json_dumps_sorted d2)) as [Heq|Hne].
    + left. by apply Hinj.
    + right. by exists (json_dumps_sorted d1), (json_dumps_sorted d2).
Qed.

Lemma row_hash_decides_content_witness :
  let d1 := [("city", Some "Oslo"); ("name", None)] in
  let d2 := [("name", None); ("city", Some "Oslo")] in
  (json_dumps_sorted d1 = json_dumps_sorted d2
   <-> forall k, dict_get d1 k = dict_get d2 k)
  /\ (calculate_row_hash SHA256.hexdigest d1
      = calculate_row_hash SHA256.hexdigest d2 ->
      (forall k, dict_get d1 k = dict_get d2 k)
      \/ exists x y, x <> y /\ SHA256.hexdigest x = SHA256.hexdigest y).
Proof.
  intros d1 d2.
  apply (row_hash_decides_content SHA256.hexdigest d1 d2);
    apply (bool_decide_unpack _); vm_compute; reflexivity.
Defined.

(** ** What an upload commits *)

Lemma fresh_id_above {A} (table : list (Z * A)) :
  Forall (fun i => (i < fresh_id table)%Z) table.*1.
Proof.
  unfold fresh_id. induction table as [|[i a] table IH]; [constructor|].
  rewrite fmap_cons. cbn [foldr fst]. constructor; [lia|].
  eapply Forall_impl; [exact IH|]. intros x Hx. simpl in Hx. lia.
Qed.

Lemma fresh_id_fresh {A} (table : list (Z * A)) : fresh_id table ∉ table.*1.
Proof.
  intros Hin. pose proof (fresh_id_above table) as Hall.
  rewrite Forall_forall in Hall. apply Hall in Hin. lia.
Qed.

Lemma NoDup_snoc_fresh {A} (table : list (Z * A)) (a : A) :
  NoDup table.*1 -> NoDup (table ++ [(fresh_id table, a)]).*1.
Proof.
  intros Hnd. rewrite fmap_app. apply NoDup_app. split; [done|].
  split; [|apply NoDup_singleton].
  intros x Hx Hx'. apply list_elem_of_singleton in Hx'. subst.
  by apply fresh_id_fresh in Hx.
Qed.

(** The row loop, from the rows [pre] on: the rows it stores. *)
Lemma insert_data_rows_loop_rows sha fault id cols rows :
  forall pre n w n' w',
    insert_data_rows_loop sha fault id cols rows
      (list_to_set ((fun r' : Z * list cell =>
                       calculate_row_hash sha (row_to_dict cols r'.2)) <$> pre))
      n w = (Returned n', w') ->
    exists added : list (Z * DataRow),
      current (session w')
      = {| dataset_metadata := dataset_metadata (current (session w));
           data_rows := data_rows (current (session w)) ++ added;
           column_index := column_index (current (session w)) |}
      /\ committed (session w') = committed (session w)
      /\ added.*2
         = imap (fun i r => data_row_of sha id cols (pre ++ take i rows) r) rows
      /\ (NoDup (data_rows (current (session w))).*1 ->
          NoDup (data_rows (current (session w)) ++ added).*1).
Proof.
  induction rows as [|[idx row] rows IH]; intros pre n w n' w' Hrun.
  - injection Hrun as _ <-. exists []. rewrite app_nil_r.
    by destruct (current (session w)).
  - cbn [insert_data_rows_loop] in Hrun.
    apply bind_returned in Hrun as (u & w1 & Hstep & Hrun).
    apply step_returned in Hstep as Hs1.
    apply bind_returned in Hrun as (u' & w2 & Hadd & Hrun).
    rewrite db_add_row_run in Hadd. injection Hadd as _ <-.
    set (h := calculate_row_hash sha (row_to_dict cols row)) in *.
    replace (list_to_set _ ∪ {[h]})
      with (list_to_set ((fun r' : Z * list cell =>
                            calculate_row_hash sha (row_to_dict cols r'.2))
                           <$> (pre ++ [(idx, row)])) : gset string) in Hrun.
    2:{ rewrite fmap_app, list_to_set_app_L. f_equal.
        rewrite fmap_cons, list_to_set_cons. cbn [snd]. fold h.
        by rewrite fmap_nil, list_to_set_nil, (right_id_L ∅ (∪)). }
    apply IH in Hrun as (added & Hcur & Hcom & Hadded & Hnd).
    cbn [session current committed data_rows dataset_metadata column_index]
      in Hcur, Hcom, Hnd.
    rewrite Hs1 in Hcur, Hcom, Hnd.
    eexists (_ :: added). split; [|split; [done|split]].
    + rewrite Hcur. by rewrite <- app_assoc.
    + rewrite fmap_cons, imap_cons. cbn [snd]. f_equal.
      * unfold data_row_of. cbn [fst snd]. fold h. f_equal.
        rewrite app_nil_r.
        apply bool_decide_ext. by rewrite elem_of_list_to_set.
      * rewrite Hadded. apply imap_ext. intros i r _. cbn.
        by rewrite <- app_assoc.
    + intros Hnd0. rewrite <- app_assoc in Hnd. apply Hnd.
      by apply NoDup_snoc_fresh.
Qed.

Lemma insert_data_rows_rows sha fault id df w n w' :
  insert_data_rows sha fault id df w = (Returned n, w') ->
  exists added : list (Z * DataRow),
    current (session w')
    = {| dataset_metadata := dataset_metadata (current (session w));
         data_rows := data_rows (current (session w)) ++ added;
         column_index := column_index (current (session w)) |}
    /\ committed (session w') = committed (session w)
    /\ added.*2 = data_rows_of sha id df
    /\ (NoDup (data_rows (current (session w))).*1 ->
        NoDup (data_rows (current (session w)) ++ added).*1)
    /\ n = length (flagged added)
    /\ n = len_df df - length (remove_dups (row_hashes_of sha df)).
Proof.
  intros Hrun. unfold insert_data_rows in Hrun.
  pose proof Hrun as Hrun'.
  apply insert_data_rows_loop_spec in Hrun'
    as (added' & Hrows' & _ & _ & Hall & _ & Hn & Hsz).
  change (∅ : gset string)
    with (list_to_set ((fun r' : Z * list cell =>
                          calculate_row_hash sha (row_to_dict (columns df) r'.2))
                         <$> []) : gset string) in Hrun.
  apply insert_data_rows_loop_rows in Hrun as (added & Hcur & Hcom & Hadded & Hnd).
  assert (added' = added) as ->.
  { rewrite Hcur in Hrows'. cbn in Hrows'. by apply (inj (app _)) in Hrows'. }
  exists added. repeat split; try done.
  apply Forall2_row_hashes in Hall.
  rewrite (left_id_L ∅ (∪)), Hall, distinct_count_size in Hsz.
  rewrite size_empty in Hsz. unfold row_hashes_of, len_df. lia.
Qed.

(** The index loop, from column [j] on. *)
Lemma build_column_index_loop_entries fault id df cols :
  forall j w w',
    build_column_index_loop fault id df j cols w = (Returned tt, w') ->
    exists added : list (Z * ColumnIndex),
      current (session w')
      = {| dataset_metadata := dataset_metadata (current (session w));
           data_rows := data_rows (current (session w));
           column_index := column_index (current (session w)) ++ added |}
      /\ committed (session w') = committed (session w)
      /\ added.*2 = imap (fun i c => column_index_entry id df (j + i) c) cols
      /\ (NoDup (column_index (current (session w))).*1 ->
          NoDup (column_index (current (session w)) ++ added).*1).
Proof.
  induction cols as [|c cols IH]; intros j w w' Hrun.
  - injection Hrun as <-. exists []. rewrite app_nil_r.
    by destruct (current (session w)).
  - cbn [build_column_index_loop] in Hrun.
    apply bind_returned in Hrun as (u & w1 & Hstep & Hrun).
    apply step_returned in Hstep as Hs1.
    apply bind_returned in Hrun as (u' & w2 & Hadd & Hrun).
    rewrite db_add_column_index_run in Hadd. injection Hadd as _ <-.
    apply IH in Hrun as (added & Hcur & Hcom & Hadded & Hnd).
    cbn [session current committed data_rows dataset_metadata column_index]
      in Hcur, Hcom, Hnd.
    rewrite Hs1 in Hcur, Hcom, Hnd.
    eexists (_ :: added). split; [|split; [done|split]].
    + rewrite Hcur. by rewrite <- app_assoc.
    + rewrite fmap_cons, imap_cons. cbn [snd]. f_equal.
      * by rewrite Nat.add_0_r.
      * rewrite Hadded. apply imap_ext. intros i r _. cbn.
        f_equal. lia.
    + intros Hnd0. rewrite <- app_assoc in Hnd. apply Hnd.
      by apply NoDup_snoc_fresh.
Qed.

Lemma read_either fault (rd rd1 : string -> outcome DataFrame) content w df w' :
  try_except (bind (step fault) (fun _ => of_outcome (rd content)))
    (fun _ => bind (step fault) (fun _ => of_outcome (rd1 content))) w
  = (Returned df, w') ->
  rd content = Returned df \/ rd1 content = Returned df.
Proof.
  unfold try_except, bind, step, of_outcome.
  destruct (fault (clock w)) as [e|]; simpl.
  - destruct (fault (S (clock w))); simpl; [done|].
    intros [= Hrd _]. by right.
  - destruct (rd content) as [a|e]; simpl; [intros [= -> _]; by left|].
    destruct (fault (S (clock w))); simpl; [done|].
    intros [= Hrd _]. by right.
Qed.

Lemma update_one_snoc {A} (table : list (Z * A)) (id : Z) (a : A) (g : A -> A) :
  id ∉ table.*1 ->
  (fun r : Z * A => if (r.1 =? id)%Z then (r.1, g r.2) else r)
    <$> (table ++ [(id, a)])
  = table ++ [(id, g a)].
Proof.
  intros Hfresh. rewrite fmap_app, fmap_cons, fmap_nil. cbn [fst snd].
  rewrite Z.eqb_refl. f_equal.
  induction table as [|r table IH]; [done|].
  rewrite fmap_cons in *. apply not_elem_of_cons in Hfresh as [Hne Hfresh].
  rewrite IH by done. f_equal.
  destruct (Z.eqb_spec r.1 id); [congruence|done].
Qed.

(** An upload that returns has found neither the file's hash nor the name
    in the store, has read the file with one of the two parser calls, and
    has committed the store with the new dataset: its metadata row, one
    row per table row and one index entry per column. *)
Lemma upload_csv_effect sha str_exn rd rd1 fault filename content name
    description timestamp w resp w' :
  upload_csv sha str_exn rd rd1 fault filename content name description
    timestamp w = (Returned resp, w') ->
  let st := current (session w) in
  exists df0 rows idx,
    (rd content = Returned df0 \/ rd1 content = Returned df0)
    /\ lookup_hash st (sha content) = None
    /\ lookup_name st (stored_name filename name timestamp) = None
    /\ rows.*2
       = data_rows_of sha (fresh_id (dataset_metadata st))
           (validate_and_clean_data df0).1
    /\ idx.*2
       = column_index_of (fresh_id (dataset_metadata st))
           (validate_and_clean_data df0).1
    /\ (NoDup (data_rows st).*1 -> NoDup (data_rows st ++ rows).*1)
    /\ (NoDup (column_index st).*1 -> NoDup (column_index st ++ idx).*1)
    /\ length (flagged rows)
       = len_df (validate_and_clean_data df0).1
         - length (remove_dups
                     (row_hashes_of sha (validate_and_clean_data df0).1))
    /\ session w'
       = open_session
           (with_dataset st
              (metadata_of sha filename content name description timestamp df0)
              rows idx)
    /\ resp
       = {| up_status := "success";
            up_dataset_id := fresh_id (dataset_metadata st);
            up_dataset_name := stored_name filename name timestamp;
            rows_inserted := len_df (validate_and_clean_data df0).1;
            up_columns := len_columns (validate_and_clean_data df0).1;
            duplicate_rows := length (flagged rows);
            up_has_missing_values :=
              has_missing
                (detect_missing_values (validate_and_clean_data df0).1);
            errors_detected := length (validate_and_clean_data df0).2;
            up_schema := infer_schema (validate_and_clean_data df0).1 |}.
Proof.
  unfold upload_csv, try_except.
  destruct (upload_csv_body _ _ _ _ _ _ _ _ _ w) as [[a|e] w0] eqn:Hb; [|done].
  intros [= -> ->]. set (st := current (session w)). unfold upload_csv_body in Hb.
  apply bind_returned in Hb as (found & w1 & H1 & Hb).
  apply get_dataset_by_hash_returned in H1 as [Hs1 ->].
  apply bind_returned in Hb as (u & w2 & H2 & Hb).
  unfold calculate_file_hash in H2.
  destruct (List.find _ _) as [?|] eqn:Hhash in H2; [done|].
  injection H2 as _ <-.
  apply bind_returned in Hb as (df0 & w3 & H3 & Hb).
  apply read_returned in H3 as Hs3. apply read_either in H3 as Hread.
  exists df0. unfold metadata_of.
  destruct (validate_and_clean_data df0) as [df errors]. cbn [fst snd].
  fold (stored_name filename name timestamp) in Hb.
  apply bind_returned in Hb as (taken & w4 & H4 & Hb).
  apply get_dataset_by_name_returned in H4 as [Hs4 ->].
  apply bind_returned in Hb as (u1 & w5 & H5 & Hb).
  rewrite Hs3, Hs1 in H5.
  destruct (List.find _ _) as [?|] eqn:Hname in H5; [done|].
  injection H5 as _ <-.
  apply bind_returned in Hb as (id & w6 & H6 & Hb).
  unfold create_dataset_metadata in H6.
  apply bind_returned in H6 as (u2 & w7 & H7 & H6).
  apply step_returned in H7 as Hs7.
  unfold db_add_metadata, bind, get_store, put_store, ret in H6.
  injection H6 as <- <-.
  apply bind_returned in Hb as (n & w8 & H8 & Hb).
  apply insert_data_rows_rows in H8
    as (rows & Hcur8 & Hcom8 & Hrows & Hnd8 & Hn & Hn').
  cbn [session current committed data_rows dataset_metadata column_index]
    in Hcur8, Hcom8, Hrows, Hnd8.
  apply bind_returned in Hb as (u3 & w9 & H9 & Hb).
  unfold set_duplicate_count, bind, get_store, put_store, ret in H9.
  injection H9 as _ <-.
  apply bind_returned in Hb as (u4 & w10 & H10 & Hb).
  destruct u4.
  apply build_column_index_loop_entries in H10
    as (idx & Hcur10 & Hcom10 & Hidx & Hnd10).
  cbn [session current committed data_rows dataset_metadata column_index]
    in Hcur10, Hcom10, Hidx, Hnd10.
  apply bind_returned in Hb as (u5 & w11 & H11 & Hb).
  unfold db_commit in H11.
  apply bind_returned in H11 as (u6 & w12 & H12 & H11).
  apply step_returned in H12 as Hs12.
  injection H11 as _ <-. injection Hb as <- <-.
  rewrite Hs7, Hs4, Hs3, Hs1 in *. fold st in Hcur8, Hrows, Hnd8 |- *.
  exists rows, idx.
  split; [done|]. split; [done|]. split; [done|]. split; [done|].
  split; [done|]. rewrite Hcur8 in Hcur10, Hnd10.
  cbn [data_rows dataset_metadata column_index] in Hcur10, Hnd10.
  split; [done|]. split; [done|]. split; [congruence|]. split.
  - cbn [session]. rewrite Hs12, Hcur10. unfold open_session, with_dataset.
    rewrite (update_one_snoc (dataset_metadata st) _ _
               (fun m => {| dataset_name := dataset_name m;
                            original_filename := original_filename m;
                            row_count := row_count m;
                            column_count := column_count m;
                            file_hash := file_hash m;
                            schema_definition := schema_definition m;
                            has_missing_values := has_missing_values m;
                            missing_value_report := missing_value_report m;
                            duplicate_count := n;
                            error_log := error_log m;
                            description := models.description m |}))
      by apply fresh_id_fresh.
    cbn. rewrite <- Hn'. done.
  - by rewrite <- Hn.
Qed.

(** ** The store stays consistent *)

Lemma find_none_not_in {A} (f : A -> string) (l : list A) k :
  List.find (fun r => String.eqb (f r) k) l = None <-> k ∉ f <$> l.
Proof.
  induction l as [|x l IH]; cbn [List.find].
  - split; [intros _; apply not_elem_of_nil|done].
  - rewrite fmap_cons, not_elem_of_cons.
    destruct (String.eqb_spec (f x) k) as [Heq|Hne].
    + split; [done|]. intros [? _]. congruence.
    + rewrite IH. split; [intros ?; split; [congruence|done]|by intros [_ ?]].
Qed.

Lemma find_some_in {A} (f : A -> string) (l : list A) k x :
  List.find (fun r => String.eqb (f r) k) l = Some x -> x ∈ l /\ f x = k.
Proof.
  intros H. apply List.find_some in H as [Hin Heq].
  apply String.eqb_eq in Heq. split; [|done]. by apply list_elem_of_In.
Qed.

Lemma find_unique {A} (f : A -> string) (l : list A) x :
  NoDup (f <$> l) -> x ∈ l ->
  List.find (fun r => String.eqb (f r) (f x)) l = Some x.
Proof.
  induction l as [|y l IH]; intros Hnd Hin; [by apply elem_of_nil in Hin|].
  rewrite fmap_cons in Hnd. apply NoDup_cons in Hnd as [Hy Hnd].
  cbn [List.find]. destruct (String.eqb_spec (f y) (f x)) as [Heq|Hne].
  - apply elem_of_cons in Hin as [->|Hin]; [done|].
    exfalso. apply Hy. rewrite Heq. by apply list_elem_of_fmap_2.
  - apply elem_of_cons in Hin as [->|Hin]; [done|]. by apply IH.
Qed.

Lemma rows_of_with_dataset st m rows idx id :
  Forall (fun r => dr_dataset_id r.2 ∈ (dataset_metadata st).*1) (data_rows st) ->
  Forall (fun r => dr_dataset_id r.2 = fresh_id (dataset_metadata st)) rows ->
  rows_of (with_dataset st m rows idx) id
  = if decide (id = fresh_id (dataset_metadata st)) then rows
    else rows_of st id.
Proof.
  intros Hold Hnew. unfold rows_of, with_dataset. cbn [data_rows].
  rewrite filter_app. rewrite Forall_forall in Hold, Hnew.
  destruct (decide (id = fresh_id (dataset_metadata st))) as [->|Hne].
  - rewrite filter_none, filter_all; [done|by apply Hnew|].
    intros x Hx Heq. apply Hold in Hx. rewrite Heq in Hx.
    by apply fresh_id_fresh in Hx.
  - rewrite (filter_none _ rows); [by rewrite app_nil_r|].
    intros x Hx Heq. apply Hnew in Hx. congruence.
Qed.

Lemma index_of_with_dataset st m rows idx id :
  Forall (fun c => ci_dataset_id c.2 ∈ (dataset_metadata st).*1)
    (column_index st) ->
  Forall (fun c => ci_dataset_id c.2 = fresh_id (dataset_metadata st)) idx ->
  index_of (with_dataset st m rows idx) id
  = if decide (id = fresh_id (dataset_metadata st)) then idx
    else index_of st id.
Proof.
  intros Hold Hnew. unfold index_of, with_dataset. cbn [column_index].
  rewrite filter_app. rewrite Forall_forall in Hold, Hnew.
  destruct (decide (id = fresh_id (dataset_metadata st))) as [->|Hne].
  - rewrite filter_none, filter_all; [done|by apply Hnew|].
    intros x Hx Heq. apply Hold in Hx. rewrite Heq in Hx.
    by apply fresh_id_fresh in Hx.
  - rewrite (filter_none _ idx); [by rewrite app_nil_r|].
    intros x Hx Heq. apply Hnew in Hx. congruence.
Qed.

Lemma data_rows_of_owner sha id df (rows : list (Z * DataRow)) :
  rows.*2 = data_rows_of sha id df ->
  Forall (fun r => dr_dataset_id r.2 = id) rows /\ length rows = len_df df.
Proof.
  intros Hrows. split.
  - apply Forall_forall. intros x Hx.
    assert (x.2 ∈ rows.*2) as Hx2 by by apply list_elem_of_fmap_2.
    rewrite Hrows in Hx2. unfold data_rows_of in Hx2.
    apply list_elem_of_lookup in Hx2 as [i Hi].
    rewrite list_lookup_imap in Hi.
    destruct (df_rows df !! i) as [r|]; [|done]. by injection Hi as <-.
  - rewrite <- (length_fmap snd rows), Hrows. apply length_imap.
Qed.

Lemma column_index_of_owner id df (idx : list (Z * ColumnIndex)) :
  idx.*2 = column_index_of id df ->
  Forall (fun c => ci_dataset_id c.2 = id) idx
  /\ length idx = len_columns df.
Proof.
  intros Hidx. split.
  - apply Forall_forall. intros x Hx.
    assert (x.2 ∈ idx.*2) as Hx2 by by apply list_elem_of_fmap_2.
    rewrite Hidx in Hx2. unfold column_index_of in Hx2.
    apply list_elem_of_lookup in Hx2 as [i Hi].
    rewrite list_lookup_imap in Hi.
    destruct (df_cols df !! i) as [r|]; [|done]. by injection Hi as <-.
  - rewrite <- (length_fmap snd idx), Hidx. apply length_imap.
Qed.



(** ** Deleting a dataset *)

Lemma delete_dataset_data_returned fault id w u w' :
  delete_dataset_data fault id w = (Returned u, w') ->
  committed (session w') = committed (session w)
  /\ current (session w')
     = {| dataset_metadata := dataset_metadata (current (session w));
          data_rows :=
            filter (fun r => dr_dataset_id r.2 <> id)
              (data_rows (current (session w)));
          column_index :=
            filter (fun c => ci_dataset_id c.2 <> id)
              (column_index (current (session w))) |}.
Proof.
  unfold delete_dataset_data. intros Hrun.
  apply bind_returned in Hrun as (u1 & w1 & H1 & Hrun).
  apply step_returned in H1 as Hs1.
  apply bind_returned in Hrun as (st1 & w2 & H2 & Hrun).
  unfold get_store in H2. injection H2 as <- <-.
  apply bind_returned in Hrun as (u2 & w3 & H3 & Hrun).
  unfold put_store in H3. injection H3 as _ <-.
  apply bind_returned in Hrun as (u3 & w4 & H4 & Hrun).
  apply step_returned in H4 as Hs4.
  unfold bind, get_store, put_store in Hrun. injection Hrun as _ <-.
  cbn. rewrite Hs4. cbn. rewrite Hs1. done.
Qed.

Lemma delete_dataset_effect fault name w resp w' :
  delete_dataset fault name w = (Returned resp, w') ->
  exists id m,
    lookup_name (current (session w)) name = Some (id, m)
    /\ session w' = open_session (without_dataset (current (session w)) id)
    /\ resp = {| del_status := "deleted"; del_dataset_name := name |}.
Proof.
  unfold delete_dataset. intros Hrun.
  apply bind_returned in Hrun as (dataset & w1 & H1 & Hrun).
  apply get_dataset_by_name_returned in H1 as [Hs1 ->].
  fold (lookup_name (current (session w)) name) in Hrun.
  destruct (lookup_name (current (session w)) name) as [[id m]|]; [|done].
  exists id, m. split; [done|].
  apply bind_returned in Hrun as (u1 & w2 & H2 & Hrun).
  apply delete_dataset_data_returned in H2 as [Hcom2 Hcur2].
  apply bind_returned in Hrun as (u2 & w3 & H3 & Hrun).
  unfold db_delete_metadata, bind, get_store, put_store in H3.
  injection H3 as _ <-.
  apply bind_returned in Hrun as (u3 & w4 & H4 & Hrun).
  unfold db_commit in H4.
  apply bind_returned in H4 as (u4 & w5 & H5 & H4).
  apply step_returned in H5 as Hs5.
  injection H4 as _ <-. injection Hrun as <- <-.
  split; [|done]. cbn [session]. rewrite Hs5. cbn [session current].
  rewrite Hcur2. cbn. rewrite Hs1. done.
Qed.

Lemma delete_dataset_returns name st n id m :
  lookup_name st name = Some (id, m) ->
  exists w',
    delete_dataset no_fault name {| session := open_session st; clock := n |}
    = (Returned {| del_status := "deleted"; del_dataset_name := name |}, w').
Proof.
  intros Hfind. unfold lookup_name in Hfind.
  unfold delete_dataset, get_dataset_by_name, bind, step, get_store, ret,
    no_fault.
  cbn. rewrite Hfind. cbn. by eexists.
Qed.

Lemma NoDup_fmap_filter {A B} (f : A -> B) (P : A -> Prop)
    `{forall x, Decision (P x)} (l : list A) :
  NoDup (f <$> l) -> NoDup (f <$> filter P l).
Proof.
  intros Hnd. apply (sublist_NoDup (f <$> filter P l) (f <$> l)); 
    [exact Hnd|apply fmap_sublist, sublist_filter].
Qed.

Lemma filter_filter_ne {A} (f : A -> Z) (l : list A) (id id' : Z) :
  id' <> id ->
  filter (fun x => f x = id') (filter (fun x => f x <> id) l)
  = filter (fun x => f x = id') l.
Proof.
  intros Hne. induction l as [|x l IH]; [done|].
  rewrite !filter_cons.
  destruct (decide (f x <> id)) as [H1|H1].
  - rewrite filter_cons. destruct (decide (f x = id')); by rewrite IH.
  - rewrite decide_False by (intros ?; apply H1; congruence). done.
Qed.

Lemma without_dataset_ok st id : store_ok st -> store_ok (without_dataset st id).
Proof.
  intros (Hids & Hnames & Hhashes & Hrid & Hcid & Hrows & Hidx & Hcount).
  unfold store_ok, without_dataset.
  cbn [dataset_metadata data_rows column_index].
  repeat split; try by apply NoDup_fmap_filter.
  - apply Forall_forall. intros r Hr.
    apply list_elem_of_filter in Hr as [Hne Hr].
    rewrite Forall_forall in Hrows. apply Hrows in Hr.
    apply list_elem_of_fmap in Hr as (d & Hd1 & Hd).
    apply list_elem_of_fmap. exists d. split; [done|].
    apply list_elem_of_filter. split; [congruence|done].
  - apply Forall_forall. intros r Hr.
    apply list_elem_of_filter in Hr as [Hne Hr].
    rewrite Forall_forall in Hidx. apply Hidx in Hr.
    apply list_elem_of_fmap in Hr as (d & Hd1 & Hd).
    apply list_elem_of_fmap. exists d. split; [done|].
    apply list_elem_of_filter. split; [congruence|done].
  - apply Forall_forall. intros d Hd.
    apply list_elem_of_filter in Hd as [Hne Hd].
    rewrite Forall_forall in Hcount. specialize (Hcount d Hd).
    unfold rows_of, index_of in *. cbn [data_rows column_index].
    rewrite (filter_filter_ne (fun r : Z * DataRow => dr_dataset_id r.2))
      by done.
    rewrite (filter_filter_ne (fun c : Z * ColumnIndex => ci_dataset_id c.2))
      by done.
    done.
Qed.

Lemma without_with_dataset st m rows idx :
  store_ok st ->
  Forall (fun r => dr_dataset_id r.2 = fresh_id (dataset_metadata st)) rows ->
  Forall (fun c => ci_dataset_id c.2 = fresh_id (dataset_metadata st)) idx ->
  without_dataset (with_dataset st m rows idx) (fresh_id (dataset_metadata st))
  = st.
Proof.
  intros (Hids & Hnames & Hhashes & Hrid & Hcid & Hrows & Hidx & Hcount)
    Hown Hown'.
  rewrite Forall_forall in Hown. rewrite Forall_forall in Hown'.
  rewrite Forall_forall in Hrows. rewrite Forall_forall in Hidx.
  unfold without_dataset, with_dataset.
  cbn [dataset_metadata data_rows column_index].
  rewrite !filter_app.
  rewrite (filter_all _ (dataset_metadata st)), (filter_all _ (data_rows st)),
    (filter_all _ (column_index st)), (filter_none _ rows), (filter_none _ idx).
  - rewrite filter_cons, decide_False by (cbn; congruence).
    rewrite filter_nil, !app_nil_r. by destruct st.
  - intros x Hx Hne. by apply Hne, Hown'.
  - intros x Hx Hne. by apply Hne, Hown.
  - intros x Hx Heq. apply Hidx in Hx. rewrite Heq in Hx.
    by apply fresh_id_fresh in Hx.
  - intros x Hx Heq. apply Hrows in Hx. rewrite Heq in Hx.
    by apply fresh_id_fresh in Hx.
  - intros x Hx Heq. apply (fresh_id_fresh (dataset_metadata st)).
    rewrite <- Heq. by apply list_elem_of_fmap_2.
Qed.

(** ** The handlers, one request after another *)

Example visits_upload_answer : visits_upload.1 = Returned visits_response.
Proof. vm_compute. reflexivity. Qed.

Example people_store_ok : store_ok people_store.
Proof. apply (bool_decide_unpack _). vm_compute. reflexivity. Qed.

Lemma find_snoc_new {A} (f : A -> bool) (l : list A) x :
  List.find f l = None -> f x = true -> List.find f (l ++ [x]) = Some x.
Proof.
  intros Hnone Hx. induction l as [|y l IH]; cbn [List.find app] in *.
  - by rewrite Hx.
  - destruct (f y); [done|]. by apply IH.
Qed.

Lemma find_snoc_other {A} (f : A -> bool) (l : list A) x :
  f x = false -> List.find f (l ++ [x]) = List.find f l.
Proof.
  intros Hx. induction l as [|y l IH]; cbn [List.find app].
  - by rewrite Hx.
  - destruct (f y); [done|]. by apply IH.
Qed.

Lemma find_filter_same {A} (f : A -> bool) (P : A -> Prop)
    `{forall x, Decision (P x)} (l : list A) :
  (forall x, x ∈ l -> ~ P x -> f x = false) ->
  List.find f (filter P l) = List.find f l.
Proof.
  induction l as [|y l IH]; intros Hl; [done|].
  rewrite filter_cons. cbn [List.find].
  destruct (decide (P y)) as [Hy|Hy].
  - cbn [List.find]. destruct (f y); [done|].
    apply IH. intros x Hx. apply Hl. by right.
  - rewrite (Hl y) by (done || left).
    apply IH. intros x Hx. apply Hl. by right.
Qed.

Lemma lookup_name_with_dataset st m rows idx name :
  lookup_name st (dataset_name m) = None ->
  lookup_name (with_dataset st m rows idx) name
  = if String.eqb (dataset_name m) name
    then Some (fresh_id (dataset_metadata st), m)
    else lookup_name st name.
Proof.
  unfold lookup_name, with_dataset. cbn [dataset_metadata]. intros Hnone.
  destruct (String.eqb_spec (dataset_name m) name) as [<-|Hne].
  - apply find_snoc_new; [done|]. apply String.eqb_refl.
  - apply find_snoc_other. cbn. by apply String.eqb_neq.
Qed.

Lemma lookup_hash_with_dataset st m rows idx :
  lookup_hash st (file_hash m) = None ->
  lookup_hash (with_dataset st m rows idx) (file_hash m)
  = Some (fresh_id (dataset_metadata st), m).
Proof.
  unfold lookup_hash, with_dataset. cbn [dataset_metadata]. intros Hnone.
  apply find_snoc_new; [done|]. apply String.eqb_refl.
Qed.

(** X10: what a successful upload answers is what it has committed.  From
    a consistent store, the session ends committed; the dataset is stored
    under the name and the id of the answer, an id no dataset had, and is
    found by the hash of the file; the counts of rows, columns and
    duplicate rows in the answer are those of its metadata row and of the
    rows and index entries stored for it; and the rows, index entries and
    names of the other datasets are as they were. *)
Theorem upload_answer_matches_store sha str_exn rd rd1 fault filename content
    name description timestamp st n resp w' :
  store_ok st ->
  upload_csv sha str_exn rd rd1 fault filename content name description
    timestamp {| session := open_session st; clock := n |}
  = (Returned resp, w') ->
  exists st' m,
    session w' = open_session st'
    /\ (up_dataset_id resp ∉ (dataset_metadata st).*1)
    /\ lookup_name st' (up_dataset_name resp) = Some (up_dataset_id resp, m)
    /\ lookup_hash st' (sha content) = Some (up_dataset_id resp, m)
    /\ original_filename m = filename
    /\ row_count m = rows_inserted resp
    /\ length (rows_of st' (up_dataset_id resp)) = rows_inserted resp
    /\ column_count m = up_columns resp
    /\ length (index_of st' (up_dataset_id resp)) = up_columns resp
    /\ duplicate_count m = duplicate_rows resp
    /\ length (flagged (rows_of st' (up_dataset_id resp))) = duplicate_rows resp
    /\ has_missing_values m = up_has_missing_values resp
    /\ schema_definition m = up_schema resp
    /\ length (error_log m) = errors_detected resp
    /\ (forall id, id <> up_dataset_id resp ->
          rows_of st' id = rows_of st id /\ index_of st' id = index_of st id)
    /\ (forall name', name' <> up_dataset_name resp ->
          lookup_name st' name' = lookup_name st name').
Proof.
  intros Hok Hrun. pose proof Hok as (_ & _ & _ & _ & _ & Hrows & Hidx & _).
  apply upload_csv_effect in Hrun
    as (df0 & rows & idx & _ & Hhash & Hname & Hrows' & Hidx' & _ & _
        & Hdup & Hs & ->).
  cbn [session current open_session] in *.
  apply data_rows_of_owner in Hrows' as [Hown Hlen].
  apply column_index_of_owner in Hidx' as [Hown' Hlen'].
  set (m := metadata_of sha filename content name description timestamp df0)
    in *.
  exists (with_dataset st m rows idx), m.
  cbn [up_dataset_id up_dataset_name rows_inserted up_columns duplicate_rows
       up_has_missing_values errors_detected up_schema].
  rewrite !rows_of_with_dataset, !index_of_with_dataset by done.
  rewrite !decide_True by done.
  split; [done|]. split; [apply fresh_id_fresh|].
  split.
  { rewrite lookup_name_with_dataset by done. cbn [m metadata_of dataset_name].
    by rewrite String.eqb_refl. }
  split; [by apply (lookup_hash_with_dataset st m rows idx)|].
  split; [done|]. split; [done|]. split; [done|]. split; [done|].
  split; [done|]. split; [by rewrite Hdup|]. split; [done|].
  split; [done|]. split; [done|]. split; [done|].
  split.
  - intros id Hne.
    rewrite rows_of_with_dataset, index_of_with_dataset by done.
    by rewrite !decide_False by done.
  - intros name' Hne. rewrite lookup_name_with_dataset by done.
    cbn [m metadata_of dataset_name].
    destruct (String.eqb_spec (stored_name filename name timestamp) name');
      [congruence|done].
Qed.

Lemma upload_answer_matches_store_witness :
  let st := people_store in
  let resp := visits_response in
  exists st' m,
    session visits_upload.2 = open_session st'
    /\ (up_dataset_id resp ∉ (dataset_metadata st).*1)
    /\ lookup_name st' (up_dataset_name resp) = Some (up_dataset_id resp, m)
    /\ lookup_hash st' (SHA256.hexdigest visits_csv)
       = Some (up_dataset_id resp, m)
    /\ original_filename m = "visits.csv"
    /\ row_count m = rows_inserted resp
    /\ length (rows_of st' (up_dataset_id resp)) = rows_inserted resp
    /\ column_count m = up_columns resp
    /\ length (index_of st' (up_dataset_id resp)) = up_columns resp
    /\ duplicate_count m = duplicate_rows resp
    /\ length (flagged (rows_of st' (up_dataset_id resp))) = duplicate_rows resp
    /\ has_missing_values m = up_has_missing_values resp
    /\ schema_definition m = up_schema resp
    /\ length (error_log m) = errors_detected resp
    /\ (forall id, id <> up_dataset_id resp ->
          rows_of st' id = rows_of st id /\ index_of st' id = index_of st id)
    /\ (forall name', name' <> up_dataset_name resp ->
          lookup_name st' name' = lookup_name st name').
Proof.
  intros st resp.
  apply (upload_answer_matches_store SHA256.hexdigest starlette_str
           sample_read_csv sample_read_csv no_fault "visits.csv" visits_csv
           None None "20250101_120000" people_store 0 visits_response
           visits_upload.2).
  - apply (bool_decide_unpack _). vm_compute. reflexivity.
  - vm_compute. reflexivity.
Defined.



Lemma filter_unflagged_snd (l : list (Z * DataRow)) :
  (filter (fun r : Z * DataRow => is_duplicate r.2 = false) l).*2
  = filter (fun x => is_duplicate x = false) l.*2.
Proof.
  induction l as [|x l IH]; [done|].
  rewrite fmap_cons, !filter_cons.
  destruct (decide (is_duplicate x.2 = false)); [rewrite fmap_cons|];
    by rewrite IH.
Qed.

Lemma offset_limit_fmap {A B} (f : A -> B) offset limit (l : list A) :
  f <$> offset_limit offset limit l = offset_limit offset limit (f <$> l).
Proof.
  unfold offset_limit. destruct (limit <? 0)%Z.
  - by rewrite fmap_drop.
  - by rewrite fmap_take, fmap_drop.
Qed.

Lemma get_data_run name limit offset (exclude_duplicates : bool) st n id m :
  lookup_name st name = Some (id, m) ->
  get_data no_fault name limit offset exclude_duplicates
    {| session := open_session st; clock := n |}
  = (let rows :=
       offset_limit offset limit
         (if exclude_duplicates
          then filter (fun r : Z * DataRow => is_duplicate r.2 = false)
                 (rows_of st id)
          else rows_of st id) in
     Returned {| dr_dataset_name := name;
                 total_rows := row_count m;
                 returned_rows := length rows;
                 data := (fun r => data_json r.2) <$> rows |},
     {| session := open_session st; clock := S (S n) |}).
Proof.
  unfold lookup_name. intros Hfind.
  unfold get_data, get_dataset_by_name, bind, step, get_store, ret, no_fault.
  cbn. rewrite Hfind. cbn. done.
Qed.

(** X12: what was uploaded is what is served.  After a successful upload
    into a consistent store, a request for the data of the new dataset
    answers, without fault, with the rows of the cleaned table: as many
    rows in total as the table has, and as data the row dicts in table
    order, without the repeated rows when duplicates are excluded, cut to
    the window of [offset] and [limit]. *)
Theorem uploaded_rows_are_served sha str_exn rd rd1 fault filename content
    name description timestamp st n resp w1
    limit offset (exclude_duplicates : bool) n2 :
  store_ok st ->
  upload_csv sha str_exn rd rd1 fault filename content name description
    timestamp {| session := open_session st; clock := n |}
  = (Returned resp, w1) ->
  exists df0,
    (rd content = Returned df0 \/ rd1 content = Returned df0)
    /\ let df := (validate_and_clean_data df0).1 in
       let stored := data_rows_of sha (up_dataset_id resp) df in
       let rows :=
         offset_limit offset limit
           (if exclude_duplicates
            then filter (fun x => is_duplicate x = false) stored
            else stored) in
       (get_data no_fault (up_dataset_name resp) limit offset
          exclude_duplicates {| session := session w1; clock := n2 |}).1
       = Returned {| dr_dataset_name := up_dataset_name resp;
                     total_rows := len_df df;
                     returned_rows := length rows;
                     data := data_json <$> rows |}.
Proof.
  intros Hok Hrun. pose proof Hok as (_ & _ & _ & _ & _ & Hrows & Hidx & _).
  apply upload_csv_effect in Hrun
    as (df0 & rows & idx & Hread & _ & Hname & Hrows' & _ & _ & _ & _ & Hs & ->).
  cbn [session current open_session] in Hname, Hrows', Hs.
  exists df0. split; [done|]. intros df stored rows0.
  cbn [up_dataset_id up_dataset_name] in *.
  set (m := metadata_of sha filename content name description timestamp df0)
    in *.
  apply data_rows_of_owner in Hrows' as Hown. destruct Hown as [Hown _].
  rewrite Hs.
  rewrite (get_data_run _ _ _ _ _ _ (fresh_id (dataset_metadata st)) m).
  2:{ rewrite lookup_name_with_dataset by done.
      cbn [m metadata_of dataset_name]. by rewrite String.eqb_refl. }
  cbn [fst]. rewrite rows_of_with_dataset, decide_True by done.
  assert ((if exclude_duplicates
           then filter (fun r : Z * DataRow => is_duplicate r.2 = false) rows
           else rows).*2
          = if exclude_duplicates
            then filter (fun x => is_duplicate x = false) stored
            else stored) as Hsel.
  { destruct exclude_duplicates; [|done].
    by rewrite filter_unflagged_snd, Hrows'. }
  f_equal. unfold rows0. rewrite <- Hsel, <- offset_limit_fmap.
  f_equal.
  - by rewrite length_fmap.
  - rewrite <- list_fmap_compose. done.
Qed.

Lemma uploaded_rows_are_served_witness :
  exists df0,
    (sample_read_csv visits_csv = Returned df0
     \/ sample_read_csv visits_csv = Returned df0)
    /\ let df := (validate_and_clean_data df0).1 in
       let stored :=
         data_rows_of SHA256.hexdigest (up_dataset_id visits_response) df in
       let rows :=
         offset_limit 0 100 (filter (fun x => is_duplicate x = false) stored) in
       (get_data no_fault (up_dataset_name visits_response) 100 0 true
          {| session := session visits_upload.2; clock := 0 |}).1
       = Returned {| dr_dataset_name := up_dataset_name visits_response;
                     total_rows := len_df df;
                     returned_rows := length rows;
                     data := data_json <$> rows |}.
Proof.
  apply (uploaded_rows_are_served SHA256.hexdigest starlette_str
           sample_read_csv sample_read_csv no_fault "visits.csv" visits_csv
           None None "20250101_120000" people_store 0 visits_response
           visits_upload.2 100%Z 0%Z true 0).
  - apply (bool_decide_unpack _). vm_compute. reflexivity.
  - vm_compute. reflexivity.
Defined.

(** The two rows that are served of the three of [visits.csv]. *)
Example visits_served :
  (get_data no_fault "visits_20250101_120000" 100 0 true
     {| session := session visits_upload.2; clock := 0 |}).1
  = Returned
      {| dr_dataset_name := "visits_20250101_120000";
         total_rows := 3;
         returned_rows := 2;
         data := [ [("name", Some "Ann"); ("city", Some "Oslo")];
                   [("name", Some "Bob"); ("city", Some "")] ] |}.
Proof. vm_compute. reflexivity. Qed.

(** X13: the schema that is served is the schema that was answered.  After
    a successful upload, a request for the schema of the new dataset
    answers, without fault, with the schema and the counts of rows and
    columns of the upload's answer. *)
Theorem uploaded_schema_is_served sha str_exn rd rd1 fault filename content
    name description timestamp w resp w1 n2 :
  upload_csv sha str_exn rd rd1 fault filename content name description
    timestamp w = (Returned resp, w1) ->
  (get_schema no_fault (up_dataset_name resp)
     {| session := session w1; clock := n2 |}).1
  = Returned {| sr_dataset_name := up_dataset_name resp;
                sr_schema := up_schema resp;
                sr_row_count := rows_inserted resp;
                sr_column_count := up_columns resp |}.
Proof.
  intros Hrun.
  apply upload_csv_effect in Hrun
    as (df0 & rows & idx & _ & _ & Hname & _ & _ & _ & _ & _ & Hs & ->).
  cbn [up_dataset_id up_dataset_name up_schema rows_inserted up_columns].
  set (m := metadata_of sha filename content name description timestamp df0)
    in *.
  assert (lookup_name (with_dataset (current (session w)) m rows idx)
            (stored_name filename name timestamp)
          = Some (fresh_id (dataset_metadata (current (session w))), m))
    as Hfind.
  { rewrite lookup_name_with_dataset by done.
    cbn [m metadata_of dataset_name]. by rewrite String.eqb_refl. }
  unfold lookup_name in Hfind.
  unfold get_schema, get_dataset_by_name, bind, step, get_store, ret, no_fault.
  cbn. rewrite Hs. cbn [current open_session]. rewrite Hfind. done.
Qed.

Lemma uploaded_schema_is_served_witness :
  (get_schema no_fault (up_dataset_name visits_response)
     {| session := session visits_upload.2; clock := 0 |}).1
  = Returned {| sr_dataset_name := up_dataset_name visits_response;
                sr_schema := up_schema visits_response;
                sr_row_count := rows_inserted visits_response;
                sr_column_count := up_columns visits_response |}.
Proof.
  apply (uploaded_schema_is_served SHA256.hexdigest starlette_str
           sample_read_csv sample_read_csv no_fault "visits.csv" visits_csv
           None None "20250101_120000"
           {| session := open_session people_store; clock := 0 |}
           visits_response visits_upload.2 0).
  vm_compute. reflexivity.
Defined.

(** X14: deleting what was uploaded restores the store.  After a
    successful upload into a consistent store, the deletion of the new
    dataset returns, without fault, and leaves the session committed on
    the very store the upload started from. *)
Theorem upload_then_delete_restores sha str_exn rd rd1 fault filename content
    name description timestamp st n resp w1 n2 :
  store_ok st ->
  upload_csv sha str_exn rd rd1 fault filename content name description
    timestamp {| session := open_session st; clock := n |}
  = (Returned resp, w1) ->
  let out :=
    delete_dataset no_fault (up_dataset_name resp)
      {| session := session w1; clock := n2 |} in
  out.1 = Returned {| del_status := "deleted";
                      del_dataset_name := up_dataset_name resp |}
  /\ session out.2 = open_session st.
Proof.
  intros Hok Hrun.
  apply upload_csv_effect in Hrun
    as (df0 & rows & idx & _ & _ & Hname & Hrows' & Hidx' & _ & _ & _ & Hs & ->).
  cbn [session current open_session] in Hname, Hrows', Hidx', Hs.
  cbn [up_dataset_id up_dataset_name].
  set (m := metadata_of sha filename content name description timestamp df0)
    in *.
  apply data_rows_of_owner in Hrows' as [Hown _].
  apply column_index_of_owner in Hidx' as [Hown' _].
  assert (lookup_name (with_dataset st m rows idx)
            (stored_name filename name timestamp)
          = Some (fresh_id (dataset_metadata st), m)) as Hfind.
  { rewrite lookup_name_with_dataset by done.
    cbn [m metadata_of dataset_name]. by rewrite String.eqb_refl. }
  rewrite Hs.
  destruct (delete_dataset_returns _ _ n2 _ _ Hfind) as [w2 Hdel].
  rewrite Hdel. split; [done|]. cbn [snd].
  apply delete_dataset_effect in Hdel as (id & m' & Hfind' & Hs2 & _).
  cbn [session current open_session] in Hfind', Hs2.
  rewrite Hfind in Hfind'. injection Hfind' as <- <-.
  rewrite Hs2. by rewrite without_with_dataset.
Qed.

Lemma upload_then_delete_restores_witness :
  let out :=
    delete_dataset no_fault (up_dataset_name visits_response)
      {| session := session visits_upload.2; clock := 0 |} in
  out.1 = Returned {| del_status := "deleted";
                      del_dataset_name := up_dataset_name visits_response |}
  /\ session out.2 = open_session people_store.
Proof.
  apply (upload_then_delete_restores SHA256.hexdigest starlette_str
           sample_read_csv sample_read_csv no_fault "visits.csv" visits_csv
           None None "20250101_120000" people_store 0 visits_response
           visits_upload.2 0).
  - apply (bool_decide_unpack _). vm_compute. reflexivity.
  - vm_compute. reflexivity.
Defined.

(** X15: the same bytes are not stored twice.  After a successful upload,
    an upload of the same content, under whatever file name, dataset name
    and description, fails without fault on the duplicate-file check: the
    answer is a 500 whose detail is the text of the 409 that names the
    stored dataset, and the session stays on the committed store. *)
Theorem repeated_upload_rejected sha str_exn rd rd1 fault filename content
    name description timestamp w resp w1
    filename2 name2 description2 timestamp2 n2 :
  upload_csv sha str_exn rd rd1 fault filename content name description
    timestamp w = (Returned resp, w1) ->
  let out :=
    upload_csv sha str_exn rd rd1 no_fault filename2 content name2
      description2 timestamp2 {| session := session w1; clock := n2 |} in
  out.1
  = Raised (HTTPException 500
              (str_exn (HTTPException 409
                          ("Duplicate file. Already stored as: "
                             +:+ up_dataset_name resp))))
  /\ session out.2 = session w1.
Proof.
  intros Hrun out.
  apply upload_csv_effect in Hrun
    as (df0 & rows & idx & _ & Hhash & _ & _ & _ & _ & _ & _ & Hs & ->).
  cbn [up_dataset_id up_dataset_name].
  set (m := metadata_of sha filename content name description timestamp df0)
    in *.
  pose proof (lookup_hash_with_dataset (current (session w)) m rows idx Hhash)
    as Hfind.
  unfold lookup_hash in Hfind. cbn [m metadata_of file_hash] in Hfind.
  subst out.
  unfold upload_csv, try_except, upload_csv_body, get_dataset_by_hash,
    calculate_file_hash, bind, step, get_store, ret, raise, db_rollback,
    no_fault.
  cbn. rewrite Hs. cbn [current open_session committed]. rewrite Hfind.
  cbn. done.
Qed.

Lemma repeated_upload_rejected_witness :
  let out :=
    upload_csv SHA256.hexdigest starlette_str sample_read_csv sample_read_csv
      no_fault "copy.csv" visits_csv (Some "copy") None "20250102_080000"
      {| session := session visits_upload.2; clock := 0 |} in
  out.1
  = Raised (HTTPException 500
              (starlette_str
                 (HTTPException 409
                    ("Duplicate file. Already stored as: "
                       +:+ up_dataset_name visits_response))))
  /\ session out.2 = session visits_upload.2.
Proof.
  apply (repeated_upload_rejected SHA256.hexdigest starlette_str
           sample_read_csv sample_read_csv no_fault "visits.csv" visits_csv
           None None "20250101_120000"
           {| session := open_session people_store; clock := 0 |}
           visits_response visits_upload.2
           "copy.csv" (Some "copy") None "20250102_080000" 0).
  vm_compute. reflexivity.
Defined.

(** ** Deleting, reading, and names that are not stored *)

Lemma lookup_name_without st id m name name' :
  NoDup (dataset_metadata st).*1 ->
  lookup_name st name = Some (id, m) ->
  name' <> name ->
  lookup_name (without_dataset st id) name' = lookup_name st name'.
Proof.
  unfold lookup_name, without_dataset. cbn [dataset_metadata].
  intros Hids Hfind Hne.
  apply (find_some_in (fun d : Z * DatasetMetadata => dataset_name d.2))
    in Hfind as [Hin Hname]. cbn in Hname.
  apply find_filter_same. intros [id' m'] Hin' Hid. cbn in Hid.
  assert (id' = id) as -> by (destruct (decide (id' = id)); [done|by destruct Hid]).
  assert (m' = m) as ->.
  { apply list_elem_of_lookup in Hin as [i Hi].
    apply list_elem_of_lookup in Hin' as [j Hj].
    assert (i = j) as ->.
    { eapply NoDup_lookup; [exact Hids|..]; rewrite list_lookup_fmap.
      - by rewrite Hi.
      - by rewrite Hj. }
    congruence. }
  cbn. apply String.eqb_neq. congruence.
Qed.

Lemma lookup_name_without_gone st id m name :
  NoDup ((fun d : Z * DatasetMetadata => dataset_name d.2)
           <$> dataset_metadata st) ->
  lookup_name st name = Some (id, m) ->
  lookup_name (without_dataset st id) name = None.
Proof.
  unfold lookup_name, without_dataset. cbn [dataset_metadata].
  intros Hnames Hfind.
  apply (find_some_in (fun d : Z * DatasetMetadata => dataset_name d.2))
    in Hfind as [Hin Hname]. cbn in Hname.
  apply (find_none_not_in (fun d : Z * DatasetMetadata => dataset_name d.2)).
  intros Hin'. apply list_elem_of_fmap in Hin' as ([id' m'] & Heq & Hin').
  apply list_elem_of_filter in Hin' as [Hid Hin']. cbn in Heq, Hid.
  apply Hid.
  apply list_elem_of_lookup in Hin as [i Hi].
  apply list_elem_of_lookup in Hin' as [j Hj].
  assert (i = j) as ->.
  { eapply NoDup_lookup; [exact Hnames|..]; rewrite list_lookup_fmap.
    - rewrite Hi. cbn. by rewrite Hname.
    - rewrite Hj. cbn. by rewrite <- Heq. }
  congruence.
Qed.

(** X16: a deletion removes one dataset, all of it, and nothing else.
    From a consistent store, a deletion that returns was asked for a
    stored name; the session ends committed on a consistent store in which
    the name is not found and no row and no index entry carries the id of
    the dataset, while every other name finds what it found before and
    every other dataset keeps its rows and its index entries. *)
Theorem delete_removes_dataset fault name st n resp w' :
  store_ok st ->
  delete_dataset fault name {| session := open_session st; clock := n |}
  = (Returned resp, w') ->
  exists id m st',
    lookup_name st name = Some (id, m)
    /\ session w' = open_session st'
    /\ store_ok st'
    /\ lookup_name st' name = None
    /\ (id ∉ (dataset_metadata st').*1)
    /\ rows_of st' id = []
    /\ index_of st' id = []
    /\ (forall name', name' <> name ->
          lookup_name st' name' = lookup_name st name')
    /\ (forall id', id' <> id ->
          rows_of st' id' = rows_of st id'
          /\ index_of st' id' = index_of st id').
Proof.
  intros Hok Hrun.
  apply delete_dataset_effect in Hrun as (id & m & Hfind & Hs & _).
  cbn [session current open_session] in Hfind, Hs.
  exists id, m, (without_dataset st id).
  pose proof Hok as (Hids & Hnames & _).
  split; [done|]. split; [done|]. split; [by apply without_dataset_ok|].
  split; [by eapply lookup_name_without_gone|].
  split.
  { unfold without_dataset. cbn [dataset_metadata]. intros Hin.
    apply list_elem_of_fmap in Hin as (d & -> & Hd).
    by apply list_elem_of_filter in Hd as [Hne _]. }
  split.
  { unfold rows_of, without_dataset. cbn [data_rows].
    apply filter_none. intros r Hr.
    by apply list_elem_of_filter in Hr as [Hne _]. }
  split.
  { unfold index_of, without_dataset. cbn [column_index].
    apply filter_none. intros r Hr.
    by apply list_elem_of_filter in Hr as [Hne _]. }
  split; [intros name' Hne; by eapply lookup_name_without|].
  intros id' Hne. unfold rows_of, index_of, without_dataset.
  cbn [data_rows column_index].
  rewrite (filter_filter_ne (fun r : Z * DataRow => dr_dataset_id r.2)) by done.
  by rewrite (filter_filter_ne (fun c : Z * ColumnIndex => ci_dataset_id c.2))
    by done.
Qed.

Lemma delete_removes_dataset_witness :
  let st := committed (session visits_upload.2) in
  let out :=
    delete_dataset no_fault "people" {| session := open_session st; clock := 0 |}
  in
  exists id m st',
    lookup_name st "people" = Some (id, m)
    /\ session out.2 = open_session st'
    /\ store_ok st'
    /\ lookup_name st' "people" = None
    /\ (id ∉ (dataset_metadata st').*1)
    /\ rows_of st' id = []
    /\ index_of st' id = []
    /\ (forall name', name' <> "people" ->
          lookup_name st' name' = lookup_name st name')
    /\ (forall id', id' <> id ->
          rows_of st' id' = rows_of st id'
          /\ index_of st' id' = index_of st id').
Proof.
  intros st out.
  apply (delete_removes_dataset no_fault "people" st 0
           {| del_status := "deleted"; del_dataset_name := "people" |} out.2).
  - apply (bool_decide_unpack _). vm_compute. reflexivity.
  - vm_compute. reflexivity.
Defined.

Lemma read_only_bind {A B} (m : M A) (k : A -> M B) :
  read_only m -> (forall a, read_only (k a)) -> read_only (bind m k).
Proof.
  intros Hm Hk w. unfold bind. specialize (Hm w).
  destruct (m w) as [[a|e] w1]; cbn [snd] in *; [|done].
  by rewrite Hk.
Qed.

Lemma read_only_step fault : read_only (step fault).
Proof. intros w. unfold step. by destruct (fault (clock w)). Qed.

Lemma read_only_get_dataset_by_name fault name :
  read_only (get_dataset_by_name fault name).
Proof.
  unfold get_dataset_by_name.
  apply read_only_bind; [apply read_only_step|]. intros _ w. done.
Qed.

(** X17: reading never writes.  Under any fault schedule and whatever
    they answer, [get_data] and [get_schema] leave the session, its
    committed store and its open transaction, exactly as they found it. *)
Theorem reads_never_write fault name :
  (forall limit offset (exclude_duplicates : bool),
     read_only (get_data fault name limit offset exclude_duplicates))
  /\ read_only (get_schema fault name).
Proof.
  split.
  - intros limit offset exclude_duplicates. unfold get_data.
    apply read_only_bind; [apply read_only_get_dataset_by_name|].
    intros [[id m]|]; [|by intros w].
    apply read_only_bind; [apply read_only_step|]. intros _ w. done.
  - unfold get_schema.
    apply read_only_bind; [apply read_only_get_dataset_by_name|].
    intros [[id m]|]; by intros w.
Qed.

(** X18: a name that is not stored is answered with 404 by the three
    handlers that take a dataset name.  Without fault each of them raises
    the 404; under any fault schedule none of them returns a body; and the
    deletion, too, leaves the session as it found it. *)
Theorem unknown_dataset_404 name w :
  lookup_name (current (session w)) name = None ->
  (forall limit offset (exclude_duplicates : bool),
     (get_data no_fault name limit offset exclude_duplicates w).1
     = Raised not_found)
  /\ (get_schema no_fault name w).1 = Raised not_found
  /\ (delete_dataset no_fault name w).1 = Raised not_found
  /\ (forall fault,
        session (delete_dataset fault name w).2 = session w
        /\ (forall limit offset (exclude_duplicates : bool) resp,
              (get_data fault name limit offset exclude_duplicates w).1
              <> Returned resp)
        /\ (forall resp, (get_schema fault name w).1 <> Returned resp)
        /\ (forall resp, (delete_dataset fault name w).1 <> Returned resp)).
Proof.
  unfold lookup_name. intros Hnone.
  split; [|split; [|split]].
  - intros limit offset exclude_duplicates.
    unfold get_data, get_dataset_by_name, bind, step, get_store, ret, no_fault.
    cbn. by rewrite Hnone.
  - unfold get_schema, get_dataset_by_name, bind, step, get_store, ret,
      no_fault.
    cbn. by rewrite Hnone.
  - unfold delete_dataset, get_dataset_by_name, bind, step, get_store, ret,
      no_fault.
    cbn. by rewrite Hnone.
  - intros fault.
    unfold get_data, get_schema, delete_dataset, get_dataset_by_name, bind,
      step, get_store, ret.
    destruct (fault (clock w)); cbn; [done|].
    rewrite Hnone. done.
Qed.

Lemma unknown_dataset_404_witness :
  let w := {| session := open_session people_store; clock := 0 |} in
  (forall limit offset (exclude_duplicates : bool),
     (get_data no_fault "visits" limit offset exclude_duplicates w).1
     = Raised not_found)
  /\ (get_schema no_fault "visits" w).1 = Raised not_found
  /\ (delete_dataset no_fault "visits" w).1 = Raised not_found
  /\ (forall fault,
        session (delete_dataset fault "visits" w).2 = session w
        /\ (forall limit offset (exclude_duplicates : bool) resp,
              (get_data fault "visits" limit offset exclude_duplicates w).1
              <> Returned resp)
        /\ (forall resp, (get_schema fault "visits" w).1 <> Returned resp)
        /\ (forall resp, (delete_dataset fault "visits" w).1 <> Returned resp)).
Proof.
  intros w.
  apply (unknown_dataset_404 "visits" w).
  vm_compute. reflexivity.
Defined.

Lemma offset_limit_length {A} offset limit (l : list A) :
  length (offset_limit offset limit l) <= length l
  /\ ((0 <= limit)%Z -> length (offset_limit offset limit l) <= Z.to_nat limit)
  /\ ((offset <= 0)%Z -> (limit < 0)%Z \/ (Z.of_nat (length l) <= limit)%Z ->
      offset_limit offset limit l = l).
Proof.
  unfold offset_limit. split; [|split].
  - destruct (limit <? 0)%Z; rewrite ?length_take, length_drop; lia.
  - intros Hl. destruct (Z.ltb_spec limit 0); [lia|].
    rewrite length_take. lia.
  - intros Ho Hl. replace (Z.to_nat offset) with 0 by lia. rewrite drop_0.
    destruct (Z.ltb_spec limit 0); [done|].
    apply take_ge. lia.
Qed.

(** X19: the numbers of a data answer.  On a consistent store, a data
    answer never reports more returned rows than total rows; [data] has
    [returned_rows] entries, at most [limit] of them when the limit is not
    negative; and a request from the start, with duplicates included and
    a limit that is negative or at least the number of rows, returns all
    the rows of the dataset: [total_rows] is the number of rows stored. *)
Theorem get_data_window_bounds fault name limit offset
    (exclude_duplicates : bool) w resp w' :
  store_ok (current (session w)) ->
  get_data fault name limit offset exclude_duplicates w = (Returned resp, w') ->
  returned_rows resp <= total_rows resp
  /\ length (data resp) = returned_rows resp
  /\ ((0 <= limit)%Z -> returned_rows resp <= Z.to_nat limit)
  /\ (exclude_duplicates = false -> (offset <= 0)%Z ->
      (limit < 0)%Z \/ (Z.of_nat (total_rows resp) <= limit)%Z ->
      returned_rows resp = total_rows resp)
  /\ exists id m,
       lookup_name (current (session w)) name = Some (id, m)
       /\ total_rows resp = length (rows_of (current (session w)) id).
Proof.
  intros Hok Hrun. unfold get_data in Hrun.
  apply bind_returned in Hrun as (dataset & w1 & Hget & Hrun).
  apply get_dataset_by_name_returned in Hget as [Hs1 ->].
  fold (lookup_name (current (session w)) name) in Hrun.
  destruct (lookup_name (current (session w)) name) as [[id m]|] eqn:Hfind;
    [|done].
  apply bind_returned in Hrun as (u & w2 & Hstep & Hrun).
  apply step_returned in Hstep as Hs2.
  unfold bind, get_store, ret in Hrun. injection Hrun as <- _.
  rewrite Hs2, Hs1.
  fold (rows_of (current (session w)) id).
  cbn [returned_rows total_rows data].
  destruct Hok as (_ & _ & _ & _ & _ & _ & _ & Hcount).
  apply (find_some_in (fun d : Z * DatasetMetadata => dataset_name d.2))
    in Hfind as [Hin _].
  rewrite Forall_forall in Hcount. destruct (Hcount _ Hin) as (Hrc & _ & _).
  cbn [fst snd] in Hrc.
  set (query := if exclude_duplicates then _ else _).
  assert (length query <= length (rows_of (current (session w)) id)) as Hq.
  { unfold query. destruct exclude_duplicates; [|done]. apply length_filter. }
  destruct (offset_limit_length offset limit query) as (H1 & H2 & H3).
  split; [lia|]. split; [by rewrite length_fmap|]. split; [done|].
  split; [|by exists id, m].
  intros -> Ho Hl. unfold query in *. rewrite H3; [lia|done|lia].
Qed.

Lemma get_data_window_bounds_witness :
  let w := {| session := open_session people_store; clock := 0 |} in
  let resp := {| dr_dataset_name := "people";
                 total_rows := 2;
                 returned_rows := 1;
                 data := [[("name", Some "Jane"); ("age", Some "25");
                           ("city", Some "LA")]] |} in
  returned_rows resp <= total_rows resp
  /\ length (data resp) = returned_rows resp
  /\ ((0 <= 5)%Z -> returned_rows resp <= Z.to_nat 5)
  /\ (false = false -> (1 <= 0)%Z ->
      (5 < 0)%Z \/ (Z.of_nat (total_rows resp) <= 5)%Z ->
      returned_rows resp = total_rows resp)
  /\ exists id m,
       lookup_name (current (session w)) "people" = Some (id, m)
       /\ total_rows resp = length (rows_of (current (session w)) id).
Proof.
  intros w resp.
  apply (get_data_window_bounds no_fault "people" 5%Z 1%Z false w resp
           (get_data no_fault "people" 5%Z 1%Z false w).2).
  - apply (bool_decide_unpack _). vm_compute. reflexivity.
  - vm_compute. reflexivity.
Defined.

(** ** A deletion that fails *)

Lemma keeps_delete_dataset_data fault id :
  keeps_committed (delete_dataset_data fault id).
Proof.
  unfold delete_dataset_data.
  repeat (apply keeps_bind; [|intros ?]);
    first [apply keeps_step | apply keeps_get_store | apply keeps_put_store].
Qed.

Lemma keeps_db_delete_metadata id : keeps_committed (db_delete_metadata id).
Proof.
  unfold db_delete_metadata.
  apply keeps_bind; [apply keeps_get_store|]. intros ?. apply keeps_put_store.
Qed.

(** X20: a deletion commits all of it or nothing.  Under any fault
    schedule, a deletion that raises, be it the 404 or a fault after the
    rows were already dropped from the transaction, leaves the committed
    store as it was; and without fault a deletion returns exactly when the
    name is stored. *)
Theorem failed_delete_keeps_committed name :
  (forall fault, fails_clean (delete_dataset fault name))
  /\ (forall w,
        (exists resp w', delete_dataset no_fault name w = (Returned resp, w'))
        <-> is_Some (lookup_name (current (session w)) name)).
Proof.
  split.
  - intros fault. unfold delete_dataset.
    apply fails_clean_bind; [apply keeps_get_dataset_by_name|].
    intros [[id m]|]; [|apply keeps_fails_clean, keeps_raise].
    apply fails_clean_bind; [apply keeps_delete_dataset_data|]. intros _.
    apply fails_clean_bind; [apply keeps_db_delete_metadata|]. intros _.
    apply fails_clean_commit_ret.
  - intros w. unfold lookup_name.
    unfold delete_dataset, get_dataset_by_name, bind, step, get_store, ret,
      no_fault.
    cbn. destruct (List.find _ _) as [[id m]|]; cbn.
    + split; [by eexists|]. intros _. by eexists _, _.
    + split; [by intros (? & ? & ?)|by intros [? ?]].
Qed.

(** The index entries of [people] cannot be dropped: its rows are gone
    from the transaction, and still there in the committed store. *)
Example partial_delete_before_failure :
  let '(o, w) :=
    delete_dataset (fault_at 2 (Error "database is locked")) "people"
      {| session := open_session people_store; clock := 0 |} in
  o = Raised (Error "database is locked")
  /\ length (data_rows (current (session w))) = 0
  /\ length (data_rows (committed (session w))) = 2.
Proof. vm_compute. done. Qed.

(** ** The flags for missing values, of the rows and of the dataset *)

Lemma cleaned_wf df : wf_df df -> wf_df (validate_and_clean_data df).1.
Proof.
  unfold wf_df. intros Hwf.
  pose proof (cleaned_columns_length df) as Hlen. unfold len_columns in Hlen.
  rewrite Hlen, cleaned_rows.
  apply Forall_forall. intros r Hr. apply list_elem_of_filter in Hr as [_ Hr].
  rewrite Forall_forall in Hwf. by apply Hwf.
Qed.

Lemma existsb_isna (row : list cell) :
  existsb isna row = true <-> exists v, v ∈ row /\ isna v = true.
Proof.
  rewrite existsb_exists. split; intros (v & Hv & Hna); exists v;
    (split; [by apply list_elem_of_In|done]).
Qed.

(** X21: the two flags for missing values agree.  For a file that the
    parser reads as a table with one cell per column in every row, after a
    successful upload into a consistent store every stored row of the new
    dataset is flagged [has_missing_values] exactly when a cell of its
    table row is missing, and the dataset is reported and stored with
    [has_missing_values] exactly when one of its stored rows is flagged. *)
Theorem missing_flags_agree sha str_exn rd rd1 fault filename content name
    description timestamp st n resp w1 :
  store_ok st ->
  (forall df, rd content = Returned df \/ rd1 content = Returned df ->
              wf_df df) ->
  upload_csv sha str_exn rd rd1 fault filename content name description
    timestamp {| session := open_session st; clock := n |}
  = (Returned resp, w1) ->
  let stored := rows_of (current (session w1)) (up_dataset_id resp) in
  (forall x, x ∈ stored ->
     dr_has_missing_values x.2 = true <-> None ∈ dict_values (data_json x.2))
  /\ (up_has_missing_values resp = true <->
      exists x, x ∈ stored /\ dr_has_missing_values x.2 = true)
  /\ (forall m,
        lookup_name (current (session w1)) (up_dataset_name resp)
        = Some (up_dataset_id resp, m) ->
        has_missing_values m = up_has_missing_values resp).
Proof.
  intros Hok Hwf Hrun.
  pose proof Hok as (_ & _ & _ & _ & _ & Hrows & _).
  apply upload_csv_effect in Hrun
    as (df0 & rows & idx & Hread & _ & Hname & Hrows' & _ & _ & _ & _ & Hs & ->).
  cbn [session current open_session] in Hname, Hrows', Hs.
  cbn [up_dataset_id up_dataset_name up_has_missing_values].
  rewrite Hs. cbn [current open_session].
  set (m := metadata_of sha filename content name description timestamp df0)
    in *.
  apply data_rows_of_owner in Hrows' as Hown. destruct Hown as [Hown _].
  rewrite rows_of_with_dataset, decide_True by done.
  set (df := (validate_and_clean_data df0).1) in *.
  assert (wf_df df) as Hwf' by (apply cleaned_wf, Hwf, Hread).
  assert (NoDup (columns df)) as Hnd by apply cleaned_columns_NoDup.
  assert (forall x, x ∈ rows ->
            exists r, r ∈ df_rows df
                      /\ data_json x.2 = zip (columns df) r.2
                      /\ dr_has_missing_values x.2 = existsb isna r.2)
    as Hstored.
  { intros x Hx.
    assert (x.2 ∈ rows.*2) as Hx2 by by apply list_elem_of_fmap_2.
    rewrite Hrows' in Hx2. unfold data_rows_of in Hx2.
    apply list_elem_of_lookup in Hx2 as [i Hi].
    rewrite list_lookup_imap in Hi.
    destruct (df_rows df !! i) as [r|] eqn:Hr; [|done].
    injection Hi as <-. exists r.
    split; [by eapply list_elem_of_lookup_2|].
    unfold data_row_of. cbn [data_json dr_has_missing_values].
    rewrite row_to_dict_zip by done. split; [done|].
    unfold dict_values. rewrite snd_zip; [done|].
    unfold wf_df in Hwf'. rewrite Forall_forall in Hwf'.
    rewrite (Hwf' r) by by eapply list_elem_of_lookup_2.
    unfold columns. by rewrite length_fmap. }
  split; [|split].
  - intros x Hx. destruct (Hstored x Hx) as (r & Hr & Hjson & Hflag).
    rewrite Hflag, Hjson, existsb_isna. unfold dict_values.
    rewrite snd_zip.
    + split; [intros ([v|] & Hv & Hna); done|]. intros Hin. by exists None.
    + unfold wf_df in Hwf'. rewrite Forall_forall in Hwf'.
      rewrite (Hwf' r) by done. unfold columns. by rewrite length_fmap.
  - rewrite (has_missing_some_cell df Hwf'). split.
    + intros (r & v & Hr & Hv & Hna).
      apply list_elem_of_lookup in Hr as [i Hi].
      assert (is_Some (rows !! i)) as [x Hx].
      { apply lookup_lt_is_Some.
        rewrite <- (length_fmap snd rows), Hrows'. unfold data_rows_of.
        rewrite length_imap. by eapply lookup_lt_Some. }
      exists x. split; [by eapply list_elem_of_lookup_2|].
      assert (rows.*2 !! i = Some x.2) as Hx2
        by by rewrite list_lookup_fmap, Hx.
      rewrite Hrows' in Hx2. unfold data_rows_of in Hx2.
      rewrite list_lookup_imap, Hi in Hx2. injection Hx2 as <-.
      unfold data_row_of. cbn [dr_has_missing_values].
      rewrite row_to_dict_zip by done. unfold dict_values. rewrite snd_zip.
      * apply existsb_isna. eauto.
      * unfold wf_df in Hwf'. rewrite Forall_forall in Hwf'.
        rewrite (Hwf' r) by by eapply list_elem_of_lookup_2.
        unfold columns. by rewrite length_fmap.
    + intros (x & Hx & Hflag).
      destruct (Hstored x Hx) as (r & Hr & _ & Hflag').
      rewrite Hflag' in Hflag. apply existsb_isna in Hflag as (v & Hv & Hna).
      eauto.
  - intros m'. rewrite lookup_name_with_dataset by done.
    cbn [m metadata_of dataset_name]. rewrite String.eqb_refl.
    by intros [= <-].
Qed.

Lemma missing_flags_agree_witness :
  let stored :=
    rows_of (current (session visits_upload.2)) (up_dataset_id visits_response)
  in
  (forall x, x ∈ stored ->
     dr_has_missing_values x.2 = true <-> None ∈ dict_values (data_json x.2))
  /\ (up_has_missing_values visits_response = true <->
      exists x, x ∈ stored /\ dr_has_missing_values x.2 = true)
  /\ (forall m,
        lookup_name (current (session visits_upload.2))
          (up_dataset_name visits_response)
        = Some (up_dataset_id visits_response, m) ->
        has_missing_values m = up_has_missing_values visits_response).
Proof.
  apply (missing_flags_agree SHA256.hexdigest starlette_str
           sample_read_csv sample_read_csv no_fault "visits.csv" visits_csv
           None None "20250101_120000" people_store 0 visits_response
           visits_upload.2).
  - apply (bool_decide_unpack _). vm_compute. reflexivity.
  - intros df Hdf.
    assert (df = visits_df) as ->
      by (destruct Hdf as [Hdf|Hdf]; vm_compute in Hdf;
          injection Hdf as <-; reflexivity).
    repeat constructor.
  - vm_compute. reflexivity.
Defined.
